(** * Nested VMX (xen/arch/x86/hvm/vmx/vvmx.c): a shallow embedding

    The development follows the C file top to bottom: machine words, the
    declarations the file takes from its headers, the virtual-VMCS codec,
    register access, the privilege check, the operand decoder, the
    composite execution controls, the VVMCS life cycle and the nine
    instruction handlers.  Theorems come after the definitions. *)

From Stdlib Require Import ZArith Lia Bool.
From stdpp Require Import base option list gmap.

Local Open Scope Z_scope.

(** ** Machine words

    [u32], [u64] and [unsigned long] values are integers in range; an
    operation that can leave the range is followed by the truncation the
    C type performs. *)

Definition u32 (z : Z) : Z := z mod 2 ^ 32.
Definition u64 (z : Z) : Z := z mod 2 ^ 64.
Definition is_u32 (z : Z) : Prop := 0 <= z < 2 ^ 32.
Definition is_u64 (z : Z) : Prop := 0 <= z < 2 ^ 64.

(** C truth value of an integer. *)
Definition nonzero (z : Z) : bool := negb (z =? 0).

(** ** Declarations taken from headers

    vvmx.c includes asm/hvm/vmx/vmx.h, asm/hvm/vmx/vvmx.h and
    asm/hvm/nestedhvm.h, none of which is among the sources.  What the C
    code takes from them (bit-field views of the two unions, bit masks,
    field encodings, the sentinel address) is a parameter of the
    development; [Arch.intel] further down instantiates it with the values
    of the Intel SDM, for the concrete runs. *)

(** enum vmx_regs_enc: the sixteen general registers (CONFIG_X86_64). *)
Inductive vmx_regs_enc : Set :=
  | VMX_REG_RAX | VMX_REG_RCX | VMX_REG_RDX | VMX_REG_RBX
  | VMX_REG_RSP | VMX_REG_RBP | VMX_REG_RSI | VMX_REG_RDI
  | VMX_REG_R8 | VMX_REG_R9 | VMX_REG_R10 | VMX_REG_R11
  | VMX_REG_R12 | VMX_REG_R13 | VMX_REG_R14 | VMX_REG_R15.

(** union vmx_inst_info, seen through [.fields]: a four-bit register
    field always names one of the sixteen registers. *)
Record vmx_inst_info : Set := {
  scaling : Z;
  reg1 : vmx_regs_enc;
  addr_size : Z;
  memreg : bool;
  segment : Z;
  index_reg : vmx_regs_enc;
  index_reg_invalid : bool;
  base_reg : vmx_regs_enc;
  base_reg_invalid : bool;
  reg2 : vmx_regs_enc
}.

Class Headers : Type := {
  (* union vmcs_encoding: the bit fields of an encoding word *)
  enc_access_type : Z -> Z;
  enc_index : Z -> Z;
  enc_type : Z -> Z;
  enc_width : Z -> Z;
  enc_type_range : forall e, 0 <= enc_type e < 4;     (* u32 type : 2 *)
  enc_width_range : forall e, 0 <= enc_width e < 4;   (* u32 width : 2 *)
  (* union vmx_inst_info: the bit fields of an instruction-information word *)
  inst_info_fields : Z -> vmx_inst_info;
  inst_info_scaling_range :
    forall w, 0 <= scaling (inst_info_fields w) < 4;    (* scaling : 2 *)
  inst_info_addr_size_range :
    forall w, 0 <= addr_size (inst_info_fields w) < 8;  (* addr_size : 3 *)
  inst_info_segment_range :
    forall w, 0 <= segment (inst_info_fields w) < 8;    (* segment : 3 *)
  (* selectors of the segment field, the indices of sreg_to_index *)
  VMX_SREG_ES : Z; VMX_SREG_CS : Z; VMX_SREG_SS : Z;
  VMX_SREG_DS : Z; VMX_SREG_FS : Z; VMX_SREG_GS : Z;
  (* x86 control and flag bits *)
  X86_CR0_PE : Z; X86_CR4_VMXE : Z;
  X86_EFLAGS_CF : Z; X86_EFLAGS_PF : Z; X86_EFLAGS_AF : Z;
  X86_EFLAGS_ZF : Z; X86_EFLAGS_SF : Z; X86_EFLAGS_OF : Z;
  X86_EFLAGS_VM : Z;
  eflags_vm_not_status :
    Z.land X86_EFLAGS_VM
      (Z.lor (Z.lor (Z.lor (Z.lor (Z.lor X86_EFLAGS_CF X86_EFLAGS_PF)
                                  X86_EFLAGS_AF) X86_EFLAGS_ZF)
                    X86_EFLAGS_SF) X86_EFLAGS_OF) = 0;
  (* primary processor-based execution controls, 32-bit masks *)
  CPU_BASED_TPR_SHADOW : Z;
  CPU_BASED_UNCOND_IO_EXITING : Z;
  CPU_BASED_ACTIVATE_IO_BITMAP : Z;
  CPU_BASED_ACTIVATE_MSR_BITMAP : Z;
  CPU_BASED_ACTIVATE_SECONDARY_CONTROLS : Z;
  cpu_based_io_bits_u32 :
    is_u32 CPU_BASED_UNCOND_IO_EXITING /\ is_u32 CPU_BASED_ACTIVATE_IO_BITMAP;
  cpu_based_io_bits_disjoint :
    Z.land CPU_BASED_UNCOND_IO_EXITING CPU_BASED_ACTIVATE_IO_BITMAP = 0;
  cpu_based_uncond_io_nonzero : CPU_BASED_UNCOND_IO_EXITING <> 0;
  (* VMCS field encodings *)
  IO_BITMAP_A : Z; IO_BITMAP_A_HIGH : Z;
  IO_BITMAP_B : Z; IO_BITMAP_B_HIGH : Z;
  CPU_BASED_VM_EXEC_CONTROL : Z;
  EXCEPTION_BITMAP : Z;
  SECONDARY_VM_EXEC_CONTROL : Z;
  VMX_INSTRUCTION_INFO : Z;
  EXIT_QUALIFICATION : Z;
  NVMX_LAUNCH_STATE : Z;
  io_bitmap_fields_distinct :
    IO_BITMAP_A <> IO_BITMAP_B /\
    IO_BITMAP_A <> CPU_BASED_VM_EXEC_CONTROL /\
    IO_BITMAP_B <> CPU_BASED_VM_EXEC_CONTROL;
  (* the "no current VVMCS" address, and errno *)
  VMCX_EADDR : Z;
  ENOMEM : Z;
  (* L0 objects outside the file: the host I/O bitmap, the four
     precomputed nested I/O bitmaps, and the address translation *)
  hvm_io_bitmap : Z;
  nestedhvm_vcpu_iomap_get : Z -> Z -> Z;
  virt_to_maddr : Z -> Z
}.

(** Modelled from the spec: TRAP_invalid_op and TRAP_gp_fault come from
    asm/processor.h, which is missing; section 6 of the specification
    gives #UD as vector 6 and #GP as vector 13. *)
Definition TRAP_invalid_op : Z := 6.
Definition TRAP_gp_fault : Z := 13.

(** Modelled from the spec: PAGE_SHIFT and PAGE_SIZE come from asm/page.h,
    which is missing; the specification fixes 4 KiB pages throughout. *)
Definition PAGE_SHIFT : Z := 12.
Definition PAGE_SIZE : Z := 4096.

(** Modelled from the spec: enum vvmcs_encoding_width is declared in
    asm/hvm/vmx/vvmx.h, which is missing; section 3 of the specification
    lists the values of the two width bits in the order 16, 64, 32,
    natural. *)
Definition VVMCS_WIDTH_16 : Z := 0.
Definition VVMCS_WIDTH_64 : Z := 1.
Definition VVMCS_WIDTH_32 : Z := 2.
Definition VVMCS_WIDTH_NATURAL : Z := 3.

(** enum vmx_ops_result *)
Inductive vmx_ops_result : Set := VMSUCCEED | VMFAIL_VALID | VMFAIL_INVALID.

(** The two X86EMUL_* return codes the file uses. *)
Inductive x86emul : Set := X86EMUL_OKAY | X86EMUL_EXCEPTION.

(** ** The virtual-VMCS codec *)

(** A VVMCS page seen as [u64 *content]. *)
Abbreviation page := (list Z).

Definition content_get (content : page) (offset : Z) : Z :=
  default 0 (content !! Z.to_nat offset).

Definition content_set (content : page) (offset : Z) (res : Z) : page :=
  <[Z.to_nat offset := res]> content.

Definition vvmcs_offset (width type index : Z) : Z :=
  let offset :=
    Z.lor (Z.lor (Z.land index 0x1f) (Z.shiftl type 5)) (Z.shiftl width 7) in
  if offset =? 0 then 0x3f else offset.

Section Codec.
Context {hdr : Headers}.

Definition enc_offset (vmcs_encoding : Z) : Z :=
  vvmcs_offset (enc_width vmcs_encoding) (enc_type vmcs_encoding)
               (enc_index vmcs_encoding).

Definition __get_vvmcs (vvmcs : page) (vmcs_encoding : Z) : Z :=
  let offset := enc_offset vmcs_encoding in
  let res := content_get vvmcs offset in
  let width := enc_width vmcs_encoding in
  if width =? VVMCS_WIDTH_16 then Z.land res 0xffff
  else if width =? VVMCS_WIDTH_64 then
    if nonzero (enc_access_type vmcs_encoding) then Z.shiftr res 32 else res
  else if width =? VVMCS_WIDTH_32 then Z.land res 0xffffffff
  else res.

Definition __set_vvmcs (vvmcs : page) (vmcs_encoding : Z) (val : Z) : page :=
  let offset := enc_offset vmcs_encoding in
  let res := content_get vvmcs offset in
  let width := enc_width vmcs_encoding in
  let res :=
    if width =? VVMCS_WIDTH_16 then Z.land val 0xffff
    else if width =? VVMCS_WIDTH_64 then
      if nonzero (enc_access_type vmcs_encoding)
      then Z.lor (Z.land res 0xffffffff) (u64 (Z.shiftl val 32))
      else val
    else if width =? VVMCS_WIDTH_32 then Z.land val 0xffffffff
    else val in
  content_set vvmcs offset res.

(** The value the specification calls mask_for(w)(v). *)
Definition mask_for (vmcs_encoding : Z) (v : Z) : Z :=
  let width := enc_width vmcs_encoding in
  if width =? VVMCS_WIDTH_16 then Z.land v 0xffff
  else if width =? VVMCS_WIDTH_32 then Z.land v 0xffffffff
  else if (width =? VVMCS_WIDTH_64) && nonzero (enc_access_type vmcs_encoding)
  then Z.land v 0xffffffff
  else v.
End Codec.


(** ** Guest registers *)

(** struct cpu_user_regs, the fields the file touches. *)
Record cpu_user_regs : Set := {
  eax : Z; ecx : Z; edx : Z; ebx : Z; esp : Z; ebp : Z; esi : Z; edi : Z;
  r8 : Z; r9 : Z; r10 : Z; r11 : Z; r12 : Z; r13 : Z; r14 : Z; r15 : Z;
  eflags : Z
}.

Definition reg_read (regs : cpu_user_regs) (index : vmx_regs_enc) : Z :=
  match index with
  | VMX_REG_RAX => eax regs
  | VMX_REG_RCX => ecx regs
  | VMX_REG_RDX => edx regs
  | VMX_REG_RBX => ebx regs
  | VMX_REG_RBP => ebp regs
  | VMX_REG_RSI => esi regs
  | VMX_REG_RDI => edi regs
  | VMX_REG_RSP => esp regs
  | VMX_REG_R8 => r8 regs
  | VMX_REG_R9 => r9 regs
  | VMX_REG_R10 => r10 regs
  | VMX_REG_R11 => r11 regs
  | VMX_REG_R12 => r12 regs
  | VMX_REG_R13 => r13 regs
  | VMX_REG_R14 => r14 regs
  | VMX_REG_R15 => r15 regs
  end.

Definition reg_write (regs : cpu_user_regs) (index : vmx_regs_enc)
    (value : Z) : cpu_user_regs :=
  let 'Build_cpu_user_regs a c d b sp bp si di x8 x9 x10 x11 x12 x13 x14 x15 fl
    := regs in
  let mk := Build_cpu_user_regs in
  match index with
  | VMX_REG_RAX => mk value c d b sp bp si di x8 x9 x10 x11 x12 x13 x14 x15 fl
  | VMX_REG_RCX => mk a value d b sp bp si di x8 x9 x10 x11 x12 x13 x14 x15 fl
  | VMX_REG_RDX => mk a c value b sp bp si di x8 x9 x10 x11 x12 x13 x14 x15 fl
  | VMX_REG_RBX => mk a c d value sp bp si di x8 x9 x10 x11 x12 x13 x14 x15 fl
  | VMX_REG_RBP => mk a c d b sp value si di x8 x9 x10 x11 x12 x13 x14 x15 fl
  | VMX_REG_RSI => mk a c d b sp bp value di x8 x9 x10 x11 x12 x13 x14 x15 fl
  | VMX_REG_RDI => mk a c d b sp bp si value x8 x9 x10 x11 x12 x13 x14 x15 fl
  | VMX_REG_RSP => mk a c d b value bp si di x8 x9 x10 x11 x12 x13 x14 x15 fl
  | VMX_REG_R8 => mk a c d b sp bp si di value x9 x10 x11 x12 x13 x14 x15 fl
  | VMX_REG_R9 => mk a c d b sp bp si di x8 value x10 x11 x12 x13 x14 x15 fl
  | VMX_REG_R10 => mk a c d b sp bp si di x8 x9 value x11 x12 x13 x14 x15 fl
  | VMX_REG_R11 => mk a c d b sp bp si di x8 x9 x10 value x12 x13 x14 x15 fl
  | VMX_REG_R12 => mk a c d b sp bp si di x8 x9 x10 x11 value x13 x14 x15 fl
  | VMX_REG_R13 => mk a c d b sp bp si di x8 x9 x10 x11 x12 value x14 x15 fl
  | VMX_REG_R14 => mk a c d b sp bp si di x8 x9 x10 x11 x12 x13 value x15 fl
  | VMX_REG_R15 => mk a c d b sp bp si di x8 x9 x10 x11 x12 x13 x14 value fl
  end.

Definition set_eflags (regs : cpu_user_regs) (value : Z) : cpu_user_regs :=
  let 'Build_cpu_user_regs a c d b sp bp si di x8 x9 x10 x11 x12 x13 x14 x15 _
    := regs in
  Build_cpu_user_regs a c d b sp bp si di x8 x9 x10 x11 x12 x13 x14 x15 value.

(** enum x86_segment, the six segment registers of sreg_to_index. *)
Inductive x86_segment : Set :=
  | x86_seg_cs | x86_seg_ss | x86_seg_ds | x86_seg_es | x86_seg_fs | x86_seg_gs.

(** struct segment_register; [attr_l] is attr.fields.l. *)
Record segment_register : Set := {
  sel : Z;
  attr_l : Z;
  limit : Z;
  base : Z
}.

(** ** The virtual CPU and what surrounds it

    A pointer is NULL or an address; guest frames are reached through the
    mappings L0 holds.  [mappings] sends each live mapping address to the
    guest frame number it maps, [guest_frames] holds the frames. *)

Abbreviation pointer := (option Z).
Abbreviation NULL := (@None Z).

(** v->arch.hvm_vcpu and v->arch.hvm_vmx, with the VMCS that is loaded on
    the logical CPU (the target of __vmread and __vmwrite). *)
Record hvm_vcpu : Type := {
  guest_cr0 : Z;
  guest_cr4 : Z;
  hvm_long_mode_enabled : bool;
  segment_registers : x86_segment -> segment_register;
  vmcs : gmap Z Z;
  launched : Z
}.

(** struct nestedvcpu; [nv_n1vmcx] records whether it points at the host
    VMCS, [nv_n2vmcx] is the shadow VMCS page. *)
Record nestedvcpu : Type := {
  nv_n1vmcx : bool;
  nv_n2vmcx : option (gmap Z Z);
  nv_vvmcx : pointer;
  nv_vvmcxaddr : Z;
  nv_vmentry_pending : bool
}.

(** struct nestedvmx *)
Record nestedvmx : Type := {
  vmxon_region_pa : Z;
  intr_info : Z;
  intr_error_code : Z;
  iobitmap0 : pointer;
  iobitmap1 : pointer
}.

(** Modelled from the spec: the surfaces the core consumes (section 1)
    are outside the sources: map_guest_frame (hvm_map_guest_frame_rw/_ro,
    hvm_unmap_guest_frame), inject_exception (hvm_inject_exception) and the
    guest-virtual copies (hvm_copy_from_guest_virt, hvm_copy_to_guest_virt).
    [copy_from_guest] answers a read of [size] bytes at a linear address,
    [copy_to_guest_ok] whether a write there succeeds; writes and injected
    exceptions are recorded in order. *)
Record l0_env : Type := {
  mappings : gmap Z Z;
  next_mapping : Z;
  guest_frames : gmap Z page;
  copy_from_guest : Z -> Z -> option Z;
  copy_to_guest_ok : Z -> Z -> bool;
  guest_writes : list (Z * Z * Z);
  injected : list (Z * Z * Z)
}.

(** [current] with the register frame of the intercepted instruction. *)
Record vcpu : Type := {
  regs : cpu_user_regs;
  hvm : hvm_vcpu;
  nvcpu : nestedvcpu;
  nvmx : nestedvmx;
  env : l0_env
}.

Definition with_regs (f : cpu_user_regs -> cpu_user_regs) (v : vcpu) : vcpu :=
  {| regs := f (regs v); hvm := hvm v; nvcpu := nvcpu v; nvmx := nvmx v;
     env := env v |}.
Definition with_hvm (f : hvm_vcpu -> hvm_vcpu) (v : vcpu) : vcpu :=
  {| regs := regs v; hvm := f (hvm v); nvcpu := nvcpu v; nvmx := nvmx v;
     env := env v |}.
Definition with_nvcpu (f : nestedvcpu -> nestedvcpu) (v : vcpu) : vcpu :=
  {| regs := regs v; hvm := hvm v; nvcpu := f (nvcpu v); nvmx := nvmx v;
     env := env v |}.
Definition with_nvmx (f : nestedvmx -> nestedvmx) (v : vcpu) : vcpu :=
  {| regs := regs v; hvm := hvm v; nvcpu := nvcpu v; nvmx := f (nvmx v);
     env := env v |}.
Definition with_env (f : l0_env -> l0_env) (v : vcpu) : vcpu :=
  {| regs := regs v; hvm := hvm v; nvcpu := nvcpu v; nvmx := nvmx v;
     env := f (env v) |}.

Definition set_vmcs (m : gmap Z Z) (h : hvm_vcpu) : hvm_vcpu :=
  {| guest_cr0 := guest_cr0 h; guest_cr4 := guest_cr4 h;
     hvm_long_mode_enabled := hvm_long_mode_enabled h;
     segment_registers := segment_registers h; vmcs := m;
     launched := launched h |}.
Definition set_launched (l : Z) (h : hvm_vcpu) : hvm_vcpu :=
  {| guest_cr0 := guest_cr0 h; guest_cr4 := guest_cr4 h;
     hvm_long_mode_enabled := hvm_long_mode_enabled h;
     segment_registers := segment_registers h; vmcs := vmcs h;
     launched := l |}.

Definition set_nv_n1vmcx (b : bool) (n : nestedvcpu) : nestedvcpu :=
  {| nv_n1vmcx := b; nv_n2vmcx := nv_n2vmcx n; nv_vvmcx := nv_vvmcx n;
     nv_vvmcxaddr := nv_vvmcxaddr n;
     nv_vmentry_pending := nv_vmentry_pending n |}.
Definition set_nv_n2vmcx (p : option (gmap Z Z)) (n : nestedvcpu) : nestedvcpu :=
  {| nv_n1vmcx := nv_n1vmcx n; nv_n2vmcx := p; nv_vvmcx := nv_vvmcx n;
     nv_vvmcxaddr := nv_vvmcxaddr n;
     nv_vmentry_pending := nv_vmentry_pending n |}.
Definition set_nv_vvmcx (p : pointer) (n : nestedvcpu) : nestedvcpu :=
  {| nv_n1vmcx := nv_n1vmcx n; nv_n2vmcx := nv_n2vmcx n; nv_vvmcx := p;
     nv_vvmcxaddr := nv_vvmcxaddr n;
     nv_vmentry_pending := nv_vmentry_pending n |}.
Definition set_nv_vvmcxaddr (a : Z) (n : nestedvcpu) : nestedvcpu :=
  {| nv_n1vmcx := nv_n1vmcx n; nv_n2vmcx := nv_n2vmcx n;
     nv_vvmcx := nv_vvmcx n; nv_vvmcxaddr := a;
     nv_vmentry_pending := nv_vmentry_pending n |}.
Definition set_nv_vmentry_pending (b : bool) (n : nestedvcpu) : nestedvcpu :=
  {| nv_n1vmcx := nv_n1vmcx n; nv_n2vmcx := nv_n2vmcx n;
     nv_vvmcx := nv_vvmcx n; nv_vvmcxaddr := nv_vvmcxaddr n;
     nv_vmentry_pending := b |}.

Definition set_vmxon_region_pa (a : Z) (n : nestedvmx) : nestedvmx :=
  {| vmxon_region_pa := a; intr_info := intr_info n;
     intr_error_code := intr_error_code n;
     iobitmap0 := iobitmap0 n; iobitmap1 := iobitmap1 n |}.
Definition set_intr (info code : Z) (n : nestedvmx) : nestedvmx :=
  {| vmxon_region_pa := vmxon_region_pa n; intr_info := info;
     intr_error_code := code;
     iobitmap0 := iobitmap0 n; iobitmap1 := iobitmap1 n |}.

(** nvmx->iobitmap[index] for the indices 0 and 1 the file uses. *)
Definition iobitmap (n : nestedvmx) (index : Z) : pointer :=
  if index =? 0 then iobitmap0 n else iobitmap1 n.
Definition set_iobitmap (index : Z) (p : pointer) (n : nestedvmx) : nestedvmx :=
  if index =? 0 then
    {| vmxon_region_pa := vmxon_region_pa n; intr_info := intr_info n;
       intr_error_code := intr_error_code n;
       iobitmap0 := p; iobitmap1 := iobitmap1 n |}
  else
    {| vmxon_region_pa := vmxon_region_pa n; intr_info := intr_info n;
       intr_error_code := intr_error_code n;
       iobitmap0 := iobitmap0 n; iobitmap1 := p |}.

Definition set_mappings (m : gmap Z Z) (next : Z) (e : l0_env) : l0_env :=
  {| mappings := m; next_mapping := next; guest_frames := guest_frames e;
     copy_from_guest := copy_from_guest e;
     copy_to_guest_ok := copy_to_guest_ok e;
     guest_writes := guest_writes e; injected := injected e |}.
Definition set_guest_frames (g : gmap Z page) (e : l0_env) : l0_env :=
  {| mappings := mappings e; next_mapping := next_mapping e; guest_frames := g;
     copy_from_guest := copy_from_guest e;
     copy_to_guest_ok := copy_to_guest_ok e;
     guest_writes := guest_writes e; injected := injected e |}.
Definition add_guest_write (w : Z * Z * Z) (e : l0_env) : l0_env :=
  {| mappings := mappings e; next_mapping := next_mapping e;
     guest_frames := guest_frames e;
     copy_from_guest := copy_from_guest e;
     copy_to_guest_ok := copy_to_guest_ok e;
     guest_writes := guest_writes e ++ [w]; injected := injected e |}.
Definition add_injected (x : Z * Z * Z) (e : l0_env) : l0_env :=
  {| mappings := mappings e; next_mapping := next_mapping e;
     guest_frames := guest_frames e;
     copy_from_guest := copy_from_guest e;
     copy_to_guest_ok := copy_to_guest_ok e;
     guest_writes := guest_writes e; injected := injected e ++ [x] |}.

(** ** Running C code on the virtual CPU

    A call either returns a value and the state it leaves, or leaves the
    defined behaviour of C by going through a NULL or stale pointer or
    past the end of an object: on the machine, a fault inside L0. *)
Inductive outcome (A : Type) : Type :=
  | Returns (a : A) (v : vcpu)
  | HostFault.
Arguments Returns {A} a v.
Arguments HostFault {A}.

Definition exec (A : Type) : Type := vcpu -> outcome A.

Definition ret {A} (a : A) : exec A := fun v => Returns a v.
Definition bind {A B} (m : exec A) (k : A -> exec B) : exec B :=
  fun v => match m v with
           | Returns a v' => k a v'
           | HostFault => HostFault
           end.
Definition host_fault {A} : exec A := fun _ => HostFault.
Definition get_vcpu : exec vcpu := fun v => Returns v v.
Definition modify (f : vcpu -> vcpu) : exec unit := fun v => Returns tt (f v).

Declare Scope exec_scope.
Delimit Scope exec_scope with exec.
Notation "'do' x <- m ; k" := (bind m (fun x => k))
  (at level 10, x pattern, m at level 100, k at level 200,
   format "'[v' 'do'  x  <-  m ; '/' k ']'") : exec_scope.
Notation "'run' m ; k" := (bind m (fun _ => k))
  (at level 10, m at level 100, k at level 200,
   format "'[v' 'run'  m ; '/' k ']'") : exec_scope.
Local Open Scope exec_scope.

(** *** Guest frames behind pointers *)

(** The frame a pointer gives access to, if the pointer is a live mapping. *)
Definition frame_of (v : vcpu) (p : pointer) : option (Z * page) :=
  match p with
  | None => None
  | Some a =>
      match mappings (env v) !! a with
      | None => None
      | Some gfn =>
          match guest_frames (env v) !! gfn with
          | None => None
          | Some content => Some (gfn, content)
          end
      end
  end.

Definition load_page (p : pointer) : exec page :=
  fun v => match frame_of v p with
           | Some (_, content) => Returns content v
           | None => HostFault
           end.

Definition store_page (p : pointer) (content : page) : exec unit :=
  fun v => match frame_of v p with
           | Some (gfn, _) =>
               Returns tt (with_env (fun e =>
                 set_guest_frames (<[gfn := content]> (guest_frames e)) e) v)
           | None => HostFault
           end.

(** Mapping a guest frame: a fresh mapping of the frame, or NULL when the
    guest has no such frame.  The read-write and the read-only call differ
    in the access they grant, which is not recorded. *)
Definition hvm_map_guest_frame (gfn : Z) : exec pointer :=
  fun v =>
    match guest_frames (env v) !! gfn with
    | None => Returns NULL v
    | Some _ =>
        let a := next_mapping (env v) in
        Returns (Some a)
          (with_env (fun e => set_mappings (<[a := gfn]> (mappings e)) (a + 1) e) v)
    end.

Definition hvm_map_guest_frame_rw : Z -> exec pointer := hvm_map_guest_frame.
Definition hvm_map_guest_frame_ro : Z -> exec pointer := hvm_map_guest_frame.

(** hvm_unmap_guest_frame: releases the mapping; NULL is ignored. *)
Definition hvm_unmap_guest_frame (p : pointer) : exec unit :=
  match p with
  | None => ret tt
  | Some a =>
      modify (with_env (fun e =>
        set_mappings (delete a (mappings e)) (next_mapping e) e))
  end.

Definition hvm_inject_exception (trap errcode cr2 : Z) : exec unit :=
  modify (with_env (add_injected (trap, errcode, cr2))).

Definition hvm_get_segment_register (seg : x86_segment) : exec segment_register :=
  do v <- get_vcpu; ret (segment_registers (hvm v) seg).

(** __vmread and __vmwrite on the loaded VMCS; __vmpclear and __vmptrld
    change nothing this model records. *)
Definition __vmread (field : Z) : exec Z :=
  do v <- get_vcpu; ret (default 0 (vmcs (hvm v) !! field)).

Definition __vmwrite (field value : Z) : exec unit :=
  modify (with_hvm (fun h => set_vmcs (<[field := value]> (vmcs h)) h)).

Definition __vmpclear : exec unit := ret tt.
Definition __vmptrld : exec unit := ret tt.

(** A guest-virtual read of [size] bytes into an unsigned long that holds
    [old]: the low [size] bytes are replaced.  More than eight bytes do
    not fit the destination. *)
Definition hvm_copy_from_guest_virt (old vaddr size : Z) : exec (option Z) :=
  do v <- get_vcpu;
  match copy_from_guest (env v) vaddr size with
  | None => ret None
  | Some bytes =>
      if size >? 8 then host_fault
      else ret (Some (Z.lor (Z.land old (Z.lnot (Z.ones (8 * size))))
                            (Z.land bytes (Z.ones (8 * size)))))
  end.

(** A guest-virtual write of the low [size] bytes of an eight-byte object;
    [false] is a failed copy. *)
Definition hvm_copy_to_guest_virt (vaddr value size : Z) : exec bool :=
  do v <- get_vcpu;
  if copy_to_guest_ok (env v) vaddr size then
    if size >? 8 then host_fault
    else
      run modify (with_env (add_guest_write (vaddr, value, size)));
      ret true
  else ret false.

(** ** vvmx.c, from sreg_to_index to the composite controls *)

(** struct vmx_inst_decoded: the union is represented by the member the
    decoder wrote, tagged with [type]. *)
Inductive vmx_inst_decoded : Set :=
  | VMX_INST_MEMREG_TYPE_MEMORY (mem len : Z) (reg2 : vmx_regs_enc)
  | VMX_INST_MEMREG_TYPE_REG (reg1 reg2 : vmx_regs_enc).

Definition decoded_reg2 (decode : vmx_inst_decoded) : vmx_regs_enc :=
  match decode with
  | VMX_INST_MEMREG_TYPE_MEMORY _ _ r => r
  | VMX_INST_MEMREG_TYPE_REG _ r => r
  end.

Definition is_okay (rc : x86emul) : bool :=
  match rc with X86EMUL_OKAY => true | X86EMUL_EXCEPTION => false end.

Definition not_null (p : pointer) : bool :=
  match p with Some _ => true | None => false end.

Section Vvmx.
Context {hdr : Headers}.

(** [xenheap_page] is what alloc_xenheap_page returns. *)
Definition nvmx_vcpu_initialise (xenheap_page : option (gmap Z Z)) : exec Z :=
  run modify (with_nvcpu (set_nv_n2vmcx xenheap_page));
  match xenheap_page with
  | None => ret (- ENOMEM)
  | Some _ =>
      run modify (with_nvmx (set_vmxon_region_pa 0));
      run modify (with_nvcpu (set_nv_vvmcx NULL));
      run modify (with_nvcpu (set_nv_vvmcxaddr VMCX_EADDR));
      run modify (with_nvmx (set_intr 0 0));
      run modify (with_nvmx (set_iobitmap 0 NULL));
      run modify (with_nvmx (set_iobitmap 1 NULL));
      ret 0
  end.

(** The table sreg_to_index[]: of two designators with one index the
    later wins, and an index that is not designated holds the zero of
    static storage, the first enumerator. *)
Definition sreg_to_index (i : Z) : x86_segment :=
  if i =? VMX_SREG_GS then x86_seg_gs
  else if i =? VMX_SREG_FS then x86_seg_fs
  else if i =? VMX_SREG_DS then x86_seg_ds
  else if i =? VMX_SREG_SS then x86_seg_ss
  else if i =? VMX_SREG_CS then x86_seg_cs
  else if i =? VMX_SREG_ES then x86_seg_es
  else x86_seg_cs.

(** __get_vvmcs and __set_vvmcs called on a pointer. *)
Definition get_vvmcs (vvmcs : pointer) (vmcs_encoding : Z) : exec Z :=
  do content <- load_page vvmcs;
  ret (__get_vvmcs content vmcs_encoding).

Definition set_vvmcs (vvmcs : pointer) (vmcs_encoding val : Z) : exec unit :=
  do content <- load_page vvmcs;
  store_page vvmcs (__set_vvmcs content vmcs_encoding val).

Definition __n2_exec_control : exec Z :=
  do v <- get_vcpu;
  do ctl <- get_vvmcs (nv_vvmcx (nvcpu v)) CPU_BASED_VM_EXEC_CONTROL;
  ret (u32 ctl).

Definition invalid_op : exec x86emul :=
  run hvm_inject_exception TRAP_invalid_op 0 0;
  ret X86EMUL_EXCEPTION.

Definition gp_fault : exec x86emul :=
  run hvm_inject_exception TRAP_gp_fault 0 0;
  ret X86EMUL_EXCEPTION.

Definition vmx_inst_check_privilege (vmxop_check : bool) : exec x86emul :=
  do v <- get_vcpu;
  do cs <- hvm_get_segment_register x86_seg_cs;
  if (if vmxop_check
      then negb (nonzero (Z.land (guest_cr0 (hvm v)) X86_CR0_PE))
           || negb (nonzero (Z.land (guest_cr4 (hvm v)) X86_CR4_VMXE))
      else negb (nonzero (vmxon_region_pa (nvmx v))))
  then invalid_op
  else if nonzero (Z.land (eflags (regs v)) X86_EFLAGS_VM)
          || (hvm_long_mode_enabled (hvm v) && (attr_l cs =? 0))
  then invalid_op
  else if Z.land (sel cs) 3 >? 0
  then gp_fault
  else ret X86EMUL_OKAY.

(** decode_vmx_inst.  [poperandS] is NULL ([None]) or the value the
    caller's unsigned long holds on entry; the result carries the return
    code, [decode] when the decoder filled it, and the operand. *)
Definition decode_vmx_inst (poperandS : option Z) (vmxon_check : bool)
    : exec (x86emul * option vmx_inst_decoded * option Z) :=
  do rc <- vmx_inst_check_privilege vmxon_check;
  if negb (is_okay rc) then ret (X86EMUL_EXCEPTION, None, poperandS)
  else
    do word <- __vmread VMX_INSTRUCTION_INFO;
    let info := inst_info_fields word in
    do v <- get_vcpu;
    if memreg info then
      let operand :=
        match poperandS with
        | Some _ => Some (reg_read (regs v) (reg1 info))
        | None => None
        end in
      ret (X86EMUL_OKAY,
           Some (VMX_INST_MEMREG_TYPE_REG (reg1 info) (reg2 info)), operand)
    else if segment info >? 5 then
      do rc <- gp_fault; ret (rc, None, poperandS)
    else
      do seg <- hvm_get_segment_register (sreg_to_index (segment info));
      let seg_base := base seg in
      let base := if base_reg_invalid info then 0
                  else reg_read (regs v) (base_reg info) in
      let index := if index_reg_invalid info then 0
                   else reg_read (regs v) (index_reg info) in
      let scale := Z.shiftl 1 (scaling info) in
      do disp <- __vmread EXIT_QUALIFICATION;
      let size := Z.shiftl 1 (addr_size info + 1) in
      let offset := u64 (base + index * scale + disp) in
      if ((offset >? limit seg) || (u64 (offset + size) >? limit seg))
         && (negb (hvm_long_mode_enabled (hvm v))
             || (segment info =? VMX_SREG_GS))
      then do rc <- gp_fault; ret (rc, None, poperandS)
      else
        let decode :=
          VMX_INST_MEMREG_TYPE_MEMORY (u64 (seg_base + offset)) size
                                      (reg2 info) in
        match poperandS with
        | None => ret (X86EMUL_OKAY, Some decode, None)
        | Some old =>
            do copied <- hvm_copy_from_guest_virt old
                           (u64 (seg_base + offset)) size;
            match copied with
            | None => ret (X86EMUL_EXCEPTION, None, poperandS)
            | Some operand => ret (X86EMUL_OKAY, Some decode, Some operand)
            end
        end.

Definition vmreturn (ops_res : vmx_ops_result) : exec unit :=
  modify (with_regs (fun regs =>
    let eflags := eflags regs in
    let mask :=
      Z.lor (Z.lor (Z.lor (Z.lor (Z.lor X86_EFLAGS_CF X86_EFLAGS_PF)
                                 X86_EFLAGS_AF) X86_EFLAGS_ZF)
                   X86_EFLAGS_SF) X86_EFLAGS_OF in
    let eflags := Z.land eflags (Z.lnot mask) in
    let eflags :=
      match ops_res with
      | VMSUCCEED => eflags
      | VMFAIL_VALID => Z.lor eflags X86_EFLAGS_ZF
      | VMFAIL_INVALID => Z.lor eflags X86_EFLAGS_CF
      end in
    set_eflags regs eflags)).

Definition __shadow_control (field host_value : Z) : exec Z :=
  do v <- get_vcpu;
  do l1 <- get_vvmcs (nv_vvmcx (nvcpu v)) field;
  ret (Z.lor (u32 l1) host_value).

Definition set_shadow_control (field host_value : Z) : exec unit :=
  do value <- __shadow_control field host_value;
  __vmwrite field value.

(** Byte [i] of a page, the [u8 *] view of the little-endian slots. *)
Definition page_byte (content : page) (i : Z) : Z :=
  Z.land (Z.shiftr (content_get content (i / 8)) (8 * (i mod 8))) 0xff.

Definition _shadow_io_bitmap : exec Z :=
  do v <- get_vcpu;
  do bitmap <- load_page (iobitmap (nvmx v) 0);
  let port80 :=
    if nonzero (Z.land (page_byte bitmap (Z.shiftr 0x80 3))
                       (Z.shiftl 1 (Z.land 0x80 0x7)))
    then 1 else 0 in
  let portED :=
    if nonzero (Z.land (page_byte bitmap (Z.shiftr 0xed 3))
                       (Z.shiftl 1 (Z.land 0xed 0x7)))
    then 1 else 0 in
  ret (nestedhvm_vcpu_iomap_get port80 portED).

Definition nvmx_update_exec_control (host_cntrl : Z) : exec unit :=
  let pio_cntrl :=
    Z.lor CPU_BASED_ACTIVATE_IO_BITMAP CPU_BASED_UNCOND_IO_EXITING in
  do shadow_cntrl <- __n2_exec_control;
  let pio_cntrl := Z.land pio_cntrl shadow_cntrl in
  let shadow_cntrl :=
    Z.land shadow_cntrl
      (Z.lnot (Z.lor (Z.lor (Z.lor (Z.lor CPU_BASED_TPR_SHADOW
                                          CPU_BASED_ACTIVATE_MSR_BITMAP)
                                   CPU_BASED_ACTIVATE_SECONDARY_CONTROLS)
                            CPU_BASED_ACTIVATE_IO_BITMAP)
                     CPU_BASED_UNCOND_IO_EXITING)) in
  let shadow_cntrl := Z.lor shadow_cntrl host_cntrl in
  do shadow_cntrl <-
    (if pio_cntrl =? CPU_BASED_UNCOND_IO_EXITING then
       let shadow_cntrl := Z.lor shadow_cntrl CPU_BASED_UNCOND_IO_EXITING in
       ret (Z.land shadow_cntrl (Z.lnot CPU_BASED_ACTIVATE_IO_BITMAP))
     else
       do bitmap <-
         (if pio_cntrl =? 0 then ret hvm_io_bitmap else _shadow_io_bitmap);
       run __vmwrite IO_BITMAP_A (virt_to_maddr bitmap);
       run __vmwrite IO_BITMAP_B (u64 (virt_to_maddr bitmap + PAGE_SIZE));
       ret shadow_cntrl);
  __vmwrite CPU_BASED_VM_EXEC_CONTROL shadow_cntrl.

Definition nvmx_update_secondary_exec_control (value : Z) : exec unit :=
  set_shadow_control SECONDARY_VM_EXEC_CONTROL (u32 value).

Definition nvmx_update_exception_bitmap (value : Z) : exec unit :=
  set_shadow_control EXCEPTION_BITMAP (u32 value).

(** *** The life cycle of the current VVMCS *)

Definition __clear_current_vvmcs : exec unit :=
  do v <- get_vcpu;
  match nv_n2vmcx (nvcpu v) with
  | Some _ => __vmpclear
  | None => ret tt
  end.

Definition __map_io_bitmap (vmcs_reg : Z) : exec unit :=
  let index := if vmcs_reg =? IO_BITMAP_A then 0 else 1 in
  do v <- get_vcpu;
  run (if not_null (iobitmap (nvmx v) index)
       then hvm_unmap_guest_frame (iobitmap (nvmx v) index)
       else ret tt);
  do gpa <- get_vvmcs (nv_vvmcx (nvcpu v)) vmcs_reg;
  do p <- hvm_map_guest_frame_ro (Z.shiftr gpa PAGE_SHIFT);
  modify (with_nvmx (set_iobitmap index p)).

Definition map_io_bitmap_all : exec unit :=
  run __map_io_bitmap IO_BITMAP_A;
  __map_io_bitmap IO_BITMAP_B.

(** One turn of the loop [for (i=0; i<2; i++)] of nvmx_purge_vvmcs. *)
Definition purge_iobitmap (i : Z) : exec unit :=
  do v <- get_vcpu;
  if not_null (iobitmap (nvmx v) i) then
    run hvm_unmap_guest_frame (iobitmap (nvmx v) i);
    modify (with_nvmx (set_iobitmap i NULL))
  else ret tt.

Definition nvmx_purge_vvmcs : exec unit :=
  run __clear_current_vvmcs;
  do v <- get_vcpu;
  run (if negb (nv_vvmcxaddr (nvcpu v) =? VMCX_EADDR)
       then hvm_unmap_guest_frame (nv_vvmcx (nvcpu v))
       else ret tt);
  (* nvcpu->nv_vvmcx == NULL;  a comparison whose value is dropped *)
  let _ := negb (not_null (nv_vvmcx (nvcpu v))) in
  run modify (with_nvcpu (set_nv_vvmcxaddr VMCX_EADDR));
  run purge_iobitmap 0;
  purge_iobitmap 1.

Definition nvmx_vcpu_destroy : exec unit :=
  run nvmx_purge_vvmcs;
  do v <- get_vcpu;
  match nv_n2vmcx (nvcpu v) with
  | Some _ =>
      run __vmpclear;
      modify (with_nvcpu (set_nv_n2vmcx None))
  | None => ret tt
  end.

(** *** VMX instruction handling *)

Definition nvmx_handle_vmxon : exec x86emul :=
  do (rc, decode, gpa) <- decode_vmx_inst (Some 0) true;
  match rc, gpa with
  | X86EMUL_OKAY, Some gpa =>
      run modify (with_nvmx (set_vmxon_region_pa gpa));
      run modify (with_nvcpu (set_nv_n1vmcx true));
      run __vmpclear;
      do v <- get_vcpu;
      match nv_n2vmcx (nvcpu v) with
      | None => host_fault   (* memcpy to a NULL destination *)
      | Some _ =>
          run modify (with_nvcpu (set_nv_n2vmcx (Some (vmcs (hvm v)))));
          run __vmptrld;
          run modify (with_hvm (set_launched 0));
          run vmreturn VMSUCCEED;
          ret X86EMUL_OKAY
      end
  | _, _ => ret rc
  end.

Definition nvmx_handle_vmxoff : exec x86emul :=
  do rc <- vmx_inst_check_privilege false;
  if negb (is_okay rc) then ret rc
  else
    run nvmx_purge_vvmcs;
    run modify (with_nvmx (set_vmxon_region_pa 0));
    run vmreturn VMSUCCEED;
    ret X86EMUL_OKAY.

Definition nvmx_vmresume : exec x86emul :=
  do rc <- vmx_inst_check_privilege false;
  if negb (is_okay rc) then ret rc
  else
    do v <- get_vcpu;
    (* check VMCS is valid and IO BITMAP is set *)
    do valid <-
      (if negb (nv_vvmcxaddr (nvcpu v) =? VMCX_EADDR) then
         if not_null (iobitmap (nvmx v) 0) && not_null (iobitmap (nvmx v) 1)
         then ret true
         else
           do ctl <- __n2_exec_control;
           ret (negb (nonzero (Z.land ctl CPU_BASED_ACTIVATE_IO_BITMAP)))
       else ret false);
    run (if valid
         then modify (with_nvcpu (set_nv_vmentry_pending true))
         else vmreturn VMFAIL_INVALID);
    ret X86EMUL_OKAY.

(** [int launched = __get_vvmcs(..., NVMX_LAUNCH_STATE)]: the 64-bit
    value is cut to the 32 bits of an int. *)
Definition read_launched : exec Z :=
  do v <- get_vcpu;
  do state <- get_vvmcs (nv_vvmcx (nvcpu v)) NVMX_LAUNCH_STATE;
  ret (u32 state).

Definition nvmx_handle_vmresume : exec x86emul :=
  do launched <- read_launched;
  if negb (nonzero launched) then
    run vmreturn VMFAIL_VALID;
    ret X86EMUL_EXCEPTION
  else nvmx_vmresume.

Definition nvmx_handle_vmlaunch : exec x86emul :=
  do launched <- read_launched;
  if nonzero launched then
    run vmreturn VMFAIL_VALID;
    ret X86EMUL_EXCEPTION
  else
    do rc <- nvmx_vmresume;
    run (if is_okay rc
         then do v <- get_vcpu;
              set_vvmcs (nv_vvmcx (nvcpu v)) NVMX_LAUNCH_STATE 1
         else ret tt);
    ret rc.

Definition nvmx_handle_vmptrld : exec x86emul :=
  do (rc, decode, gpa) <- decode_vmx_inst (Some 0) false;
  match rc, gpa with
  | X86EMUL_OKAY, Some gpa =>
      do v <- get_vcpu;
      if (gpa =? vmxon_region_pa (nvmx v)) || nonzero (Z.land gpa 0xfff) then
        run vmreturn VMFAIL_INVALID;
        ret X86EMUL_OKAY
      else
        run (if negb (nv_vvmcxaddr (nvcpu v) =? gpa)
             then nvmx_purge_vvmcs else ret tt);
        do v <- get_vcpu;
        run (if nv_vvmcxaddr (nvcpu v) =? VMCX_EADDR then
               do p <- hvm_map_guest_frame_rw (Z.shiftr gpa PAGE_SHIFT);
               run modify (with_nvcpu (set_nv_vvmcx p));
               run modify (with_nvcpu (set_nv_vvmcxaddr gpa));
               map_io_bitmap_all
             else ret tt);
        run vmreturn VMSUCCEED;
        ret X86EMUL_OKAY
  | _, _ => ret rc
  end.

(** hvm_copy_to_guest_virt(decode.mem, ..., decode.len, 0): a
    register-form decode did not write [mem] and [len]. *)
Definition copy_to_decoded_mem (decode : vmx_inst_decoded) (value : Z)
    : exec bool :=
  match decode with
  | VMX_INST_MEMREG_TYPE_MEMORY mem len _ =>
      hvm_copy_to_guest_virt mem value len
  | VMX_INST_MEMREG_TYPE_REG _ _ => host_fault
  end.

Definition nvmx_handle_vmptrst : exec x86emul :=
  do (rc, decode, gpa) <- decode_vmx_inst (Some 0) false;
  match rc, decode with
  | X86EMUL_OKAY, Some decode =>
      do v <- get_vcpu;
      let gpa := nv_vvmcxaddr (nvcpu v) in
      do copied <- copy_to_decoded_mem decode gpa;
      if negb copied then ret X86EMUL_EXCEPTION
      else
        run vmreturn VMSUCCEED;
        ret X86EMUL_OKAY
  | _, _ => ret rc
  end.

Definition nvmx_handle_vmclear : exec x86emul :=
  do (rc, decode, gpa) <- decode_vmx_inst (Some 0) false;
  match rc, gpa with
  | X86EMUL_OKAY, Some gpa =>
      do v <- get_vcpu;
      if nonzero (Z.land gpa 0xfff) then
        run vmreturn VMFAIL_INVALID;
        ret X86EMUL_OKAY
      else if negb (gpa =? nv_vvmcxaddr (nvcpu v))
              && negb (nv_vvmcxaddr (nvcpu v) =? VMCX_EADDR) then
        run vmreturn VMSUCCEED;
        ret X86EMUL_OKAY
      else
        run (if negb (nv_vvmcxaddr (nvcpu v) =? VMCX_EADDR)
             then set_vvmcs (nv_vvmcx (nvcpu v)) NVMX_LAUNCH_STATE 0
             else ret tt);
        run nvmx_purge_vvmcs;
        run vmreturn VMSUCCEED;
        ret X86EMUL_OKAY
  | _, _ => ret rc
  end.

Definition nvmx_handle_vmread : exec x86emul :=
  do (rc, decode, _) <- decode_vmx_inst None false;
  match rc, decode with
  | X86EMUL_OKAY, Some decode =>
      do v <- get_vcpu;
      do value <- get_vvmcs (nv_vvmcx (nvcpu v))
                    (u32 (reg_read (regs v) (decoded_reg2 decode)));
      match decode with
      | VMX_INST_MEMREG_TYPE_MEMORY mem len _ =>
          do copied <- hvm_copy_to_guest_virt mem value len;
          if negb copied then ret X86EMUL_EXCEPTION
          else
            run vmreturn VMSUCCEED;
            ret X86EMUL_OKAY
      | VMX_INST_MEMREG_TYPE_REG reg1 _ =>
          run modify (with_regs (fun regs => reg_write regs reg1 value));
          run vmreturn VMSUCCEED;
          ret X86EMUL_OKAY
      end
  | _, _ => ret rc
  end.

(** [unsigned long operand;] has no initialiser: [uninit] is whatever the
    variable holds on entry.  The decoder replaces all of it by a register
    operand, and its low [len] bytes by a memory operand, so the bytes
    above a short memory operand are those of [uninit]. *)
Definition nvmx_handle_vmwrite (uninit : Z) : exec x86emul :=
  do (rc, decode, operand) <- decode_vmx_inst (Some uninit) false;
  match rc, decode, operand with
  | X86EMUL_OKAY, Some decode, Some operand =>
      do v <- get_vcpu;
      let vmcs_encoding := reg_read (regs v) (decoded_reg2 decode) in
      run set_vvmcs (nv_vvmcx (nvcpu v)) (u32 vmcs_encoding) operand;
      run (if (vmcs_encoding =? IO_BITMAP_A)
              || (vmcs_encoding =? IO_BITMAP_A_HIGH)
           then __map_io_bitmap IO_BITMAP_A
           else if (vmcs_encoding =? IO_BITMAP_B)
                   || (vmcs_encoding =? IO_BITMAP_B_HIGH)
           then __map_io_bitmap IO_BITMAP_B
           else ret tt);
      run vmreturn VMSUCCEED;
      ret X86EMUL_OKAY
  | _, _, _ => ret X86EMUL_EXCEPTION
  end.
End Vvmx.

(** ** The header values of the Intel SDM, and sample machines

    [Arch.intel] gives the parameters the values of the Intel SDM (bit
    positions of the two unions, flag and control bits, field encodings);
    the L0 addresses are arbitrary.  The sample machines are a 64-bit
    guest in ring 0 with two frames of memory. *)
Module Arch.
Definition bits (w lo n : Z) : Z := Z.land (Z.shiftr w lo) (Z.ones n).

(* a bit field of n bits lies below 2^n *)
Ltac bits_range :=
  cbn; unfold bits; rewrite Z.land_ones by lia; apply Z.mod_pos_bound; lia.

Definition reg_of (n : Z) : vmx_regs_enc :=
  match n with
  | 0 => VMX_REG_RAX | 1 => VMX_REG_RCX | 2 => VMX_REG_RDX | 3 => VMX_REG_RBX
  | 4 => VMX_REG_RSP | 5 => VMX_REG_RBP | 6 => VMX_REG_RSI | 7 => VMX_REG_RDI
  | 8 => VMX_REG_R8 | 9 => VMX_REG_R9 | 10 => VMX_REG_R10 | 11 => VMX_REG_R11
  | 12 => VMX_REG_R12 | 13 => VMX_REG_R13 | 14 => VMX_REG_R14
  | _ => VMX_REG_R15
  end.

Definition fields (w : Z) : vmx_inst_info :=
  {| scaling := bits w 0 2;
     reg1 := reg_of (bits w 3 4);
     addr_size := bits w 7 3;
     memreg := Z.testbit w 10;
     segment := bits w 15 3;
     index_reg := reg_of (bits w 18 4);
     index_reg_invalid := Z.testbit w 22;
     base_reg := reg_of (bits w 23 4);
     base_reg_invalid := Z.testbit w 27;
     reg2 := reg_of (bits w 28 4) |}.

#[export] Instance intel : Headers := {|
  enc_access_type e := bits e 0 1;
  enc_index e := bits e 1 9;
  enc_type e := bits e 10 2;
  enc_width e := bits e 13 2;
  enc_type_range e := ltac:(bits_range);
  enc_width_range e := ltac:(bits_range);
  inst_info_fields := fields;
  inst_info_scaling_range w := ltac:(bits_range);
  inst_info_addr_size_range w := ltac:(bits_range);
  inst_info_segment_range w := ltac:(bits_range);
  VMX_SREG_ES := 0; VMX_SREG_CS := 1; VMX_SREG_SS := 2;
  VMX_SREG_DS := 3; VMX_SREG_FS := 4; VMX_SREG_GS := 5;
  X86_CR0_PE := 0x1; X86_CR4_VMXE := 0x2000;
  X86_EFLAGS_CF := 0x1; X86_EFLAGS_PF := 0x4; X86_EFLAGS_AF := 0x10;
  X86_EFLAGS_ZF := 0x40; X86_EFLAGS_SF := 0x80; X86_EFLAGS_OF := 0x800;
  X86_EFLAGS_VM := 0x20000;
  eflags_vm_not_status := eq_refl;
  CPU_BASED_TPR_SHADOW := 0x00200000;
  CPU_BASED_UNCOND_IO_EXITING := 0x01000000;
  CPU_BASED_ACTIVATE_IO_BITMAP := 0x02000000;
  CPU_BASED_ACTIVATE_MSR_BITMAP := 0x10000000;
  CPU_BASED_ACTIVATE_SECONDARY_CONTROLS := 0x80000000;
  cpu_based_io_bits_u32 := ltac:(unfold is_u32; lia);
  cpu_based_io_bits_disjoint := eq_refl;
  cpu_based_uncond_io_nonzero := ltac:(lia);
  IO_BITMAP_A := 0x2000; IO_BITMAP_A_HIGH := 0x2001;
  IO_BITMAP_B := 0x2002; IO_BITMAP_B_HIGH := 0x2003;
  CPU_BASED_VM_EXEC_CONTROL := 0x4002;
  EXCEPTION_BITMAP := 0x4004;
  SECONDARY_VM_EXEC_CONTROL := 0x401e;
  VMX_INSTRUCTION_INFO := 0x440e;
  EXIT_QUALIFICATION := 0x6400;
  NVMX_LAUNCH_STATE := 0x6c20;
  io_bitmap_fields_distinct := ltac:(lia);
  VMCX_EADDR := 2 ^ 64 - 1;
  ENOMEM := 12;
  hvm_io_bitmap := 0x200000;
  nestedhvm_vcpu_iomap_get port80 portED :=
    0x300000 + (port80 + 2 * portED) * 0x2000;
  virt_to_maddr va := va
|}.
End Arch.

Module Sample.
Import Arch.

(** An instruction-information word from its fields (SDM bit positions). *)
Definition info_word (scaling reg1 addr_size memreg segment index_reg
    index_reg_invalid base_reg base_reg_invalid reg2 : Z) : Z :=
  scaling + reg1 * 2 ^ 3 + addr_size * 2 ^ 7 + memreg * 2 ^ 10
  + segment * 2 ^ 15 + index_reg * 2 ^ 18 + index_reg_invalid * 2 ^ 22
  + base_reg * 2 ^ 23 + base_reg_invalid * 2 ^ 27 + reg2 * 2 ^ 28.

(** [m64 [disp]]: a 64-bit memory operand at DS:disp, no base, no index. *)
Definition info_m64 : Z := info_word 0 0 2 0 3 0 1 0 1 0.
(** Register form: operand in RAX, field encoding in RCX. *)
Definition info_rax_rcx : Z := info_word 0 0 2 1 0 0 1 0 1 1.

Definition code_seg (cpl : Z) : segment_register :=
  {| sel := 0x8 + cpl; attr_l := 1; limit := 0xffffffff; base := 0 |}.
Definition data_seg : segment_register :=
  {| sel := 0x10; attr_l := 0; limit := 0xffffffff; base := 0x100000 |}.
Definition segments (cpl : Z) (seg : x86_segment) : segment_register :=
  match seg with x86_seg_cs => code_seg cpl | _ => data_seg end.

Definition zero_regs : cpu_user_regs :=
  Build_cpu_user_regs 0 0 0 0 0 0 0 0 0 0 0 0 0 0 0 0 0x2.

Definition zero_page : page := replicate 512 0.

(** A VVMCS whose I/O bitmap fields name the frames 0x20 and 0x21, with
    execution controls [ctl]. *)
Definition vvmcs_page (ctl : Z) : page :=
  __set_vvmcs
    (__set_vvmcs (__set_vvmcs zero_page IO_BITMAP_A 0x20000)
                 IO_BITMAP_B 0x21000)
    CPU_BASED_VM_EXEC_CONTROL ctl.

(** A VVMCS that asks for I/O bitmaps the guest has no frames for. *)
Definition vvmcs_page_no_bitmaps : page :=
  __set_vvmcs
    (__set_vvmcs (__set_vvmcs zero_page IO_BITMAP_A 0x50000)
                 IO_BITMAP_B 0x51000)
    CPU_BASED_VM_EXEC_CONTROL CPU_BASED_ACTIVATE_IO_BITMAP.

Definition frames : gmap Z page :=
  {[ 0x12345 := vvmcs_page 0;
     0x12346 := vvmcs_page_no_bitmaps;
     0x12347 := vvmcs_page CPU_BASED_UNCOND_IO_EXITING;
     0x12348 := vvmcs_page CPU_BASED_ACTIVATE_IO_BITMAP;
     0x20 := zero_page;
     0x21 := zero_page ]}.

(** The machine before nvmx_vcpu_initialise: a long-mode guest with
    CR0.PE and CR4.VMXE set, running at privilege level [cpl]. *)
Definition machine (cpl : Z) : vcpu :=
  {| regs := zero_regs;
     hvm := {| guest_cr0 := 0x80000011; guest_cr4 := 0x2000;
               hvm_long_mode_enabled := true;
               segment_registers := segments cpl;
               vmcs := ∅; launched := 1 |};
     nvcpu := {| nv_n1vmcx := false; nv_n2vmcx := None; nv_vvmcx := NULL;
                 nv_vvmcxaddr := 0; nv_vmentry_pending := false |};
     nvmx := {| vmxon_region_pa := 0; intr_info := 0; intr_error_code := 0;
                iobitmap0 := NULL; iobitmap1 := NULL |};
     env := {| mappings := ∅; next_mapping := 0x7000; guest_frames := frames;
               copy_from_guest := fun _ _ => None;
               copy_to_guest_ok := fun _ _ => true;
               guest_writes := []; injected := [] |} |}.

(** A VM exit for a VMX instruction: the hardware fills the instruction
    information and the exit qualification, the guest has loaded RAX and
    RCX, and [operand] is what its memory holds at the operand address. *)
Definition vmexit (info qual rax rcx operand cpl : Z) : exec unit :=
  modify (fun v =>
    {| regs := reg_write (reg_write (regs v) VMX_REG_RAX rax) VMX_REG_RCX rcx;
       hvm := {| guest_cr0 := guest_cr0 (hvm v); guest_cr4 := guest_cr4 (hvm v);
                 hvm_long_mode_enabled := hvm_long_mode_enabled (hvm v);
                 segment_registers := segments cpl;
                 vmcs := <[EXIT_QUALIFICATION := qual]>
                           (<[VMX_INSTRUCTION_INFO := info]> (vmcs (hvm v)));
                 launched := launched (hvm v) |};
       nvcpu := nvcpu v; nvmx := nvmx v;
       env := {| mappings := mappings (env v);
                 next_mapping := next_mapping (env v);
                 guest_frames := guest_frames (env v);
                 copy_from_guest := fun _ _ => Some operand;
                 copy_to_guest_ok := copy_to_guest_ok (env v);
                 guest_writes := guest_writes (env v);
                 injected := injected (env v) |} |}).

(** The state a run ends in; [machine 0] stands in for a host fault. *)
Definition final {A} (o : outcome A) : vcpu :=
  match o with Returns _ v => v | HostFault => machine 0 end.

(** Initialise, then VMXON with the region at 0x1000. *)
Definition vmxon_done : exec x86emul :=
  run nvmx_vcpu_initialise (Some ∅);
  run vmexit info_m64 0x40 0 0 0x1000 0;
  nvmx_handle_vmxon.

(** ... then VMPTRLD of the VVMCS at [gpa]. *)
Definition vmptrld_done (gpa : Z) : exec x86emul :=
  run vmxon_done;
  run vmexit info_m64 0x48 0 0 gpa 0;
  nvmx_handle_vmptrld.

(** After VMXON, an exit whose memory operand is [DS:RAX + RBX*4 + 0x20]
    with RAX = 0x1000 and RBX = 0x10. *)
Definition info_sib : Z := info_word 2 0 2 0 3 3 0 0 0 0.
Definition sib_operand : vcpu :=
  with_regs (fun regs => reg_write regs VMX_REG_RBX 0x10)
    (final ((run vmxon_done; vmexit info_sib 0x20 0x1000 0 0 0) (machine 0))).

Definition after_vmxon : vcpu := final (vmxon_done (machine 0)).
Definition after_vmptrld : vcpu := final (vmptrld_done 0x12345000 (machine 0)).
Definition after_vmptrld_no_bitmaps : vcpu :=
  final (vmptrld_done 0x12346000 (machine 0)).
(** After VMXON: an exit for a register-form VMREAD or VMWRITE whose
    field encoding (in RCX) is GUEST_CS_SELECTOR. *)
Definition vmread_exit : vcpu :=
  final ((run vmxon_done; vmexit info_rax_rcx 0 0x1234 0x0802 0 0) (machine 0)).

(** After initialisation: an exit for VMXON whose operand holds the
    misaligned address 0x12345001. *)
Definition vmxon_misaligned_exit : vcpu :=
  final ((run nvmx_vcpu_initialise (Some ∅);
          vmexit info_m64 0x40 0 0 0x12345001 0) (machine 0)).

(** After VMPTRLD: the guest has dropped to privilege level 3. *)
Definition user_mode_loaded : vcpu :=
  final ((run vmptrld_done 0x12345000; vmexit info_m64 0 0 0 0 3) (machine 0)).

Definition after_vmptrld_uncond_io : vcpu :=
  final (vmptrld_done 0x12347000 (machine 0)).
Definition after_vmptrld_io_bitmap : vcpu :=
  final (vmptrld_done 0x12348000 (machine 0)).
End Sample.

(** ** Descriptions used in the statements *)

(** The decision the privilege check takes, as three booleans on the
    state: the VMX-operation test of the flavour, the mode test, and the
    privilege-level test. *)
Definition vmx_test {hdr : Headers} (vmxop_check : bool) (v : vcpu) : bool :=
  if vmxop_check
  then nonzero (Z.land (guest_cr0 (hvm v)) X86_CR0_PE)
       && nonzero (Z.land (guest_cr4 (hvm v)) X86_CR4_VMXE)
  else nonzero (vmxon_region_pa (nvmx v)).

Definition mode_test {hdr : Headers} (v : vcpu) : bool :=
  negb (nonzero (Z.land (eflags (regs v)) X86_EFLAGS_VM))
  && negb (hvm_long_mode_enabled (hvm v)
           && (attr_l (segment_registers (hvm v) x86_seg_cs) =? 0)).

Definition cpl_test (v : vcpu) : bool :=
  negb (nonzero (Z.land (sel (segment_registers (hvm v) x86_seg_cs)) 3)).

Definition inject (trap : Z) (v : vcpu) : vcpu :=
  with_env (add_injected (trap, 0, 0)) v.

(** The operand of a memory-form instruction as the specification words
    it (section 4.2): the linear address
    seg.base + (base? reg[base] : 0) + (index? reg[index] * (1<<scaling) : 0)
    + disp in 64-bit arithmetic, the length 1 << (addr_size + 1), and the
    validation of segment and limit. *)
Definition exit_info {hdr : Headers} (v : vcpu) : vmx_inst_info :=
  inst_info_fields (default 0 (vmcs (hvm v) !! VMX_INSTRUCTION_INFO)).

Definition exit_disp {hdr : Headers} (v : vcpu) : Z :=
  default 0 (vmcs (hvm v) !! EXIT_QUALIFICATION).

Definition operand_segment {hdr : Headers} (v : vcpu) : segment_register :=
  segment_registers (hvm v) (sreg_to_index (segment (exit_info v))).

Definition operand_offset {hdr : Headers} (v : vcpu) : Z :=
  let info := exit_info v in
  (if base_reg_invalid info then 0 else reg_read (regs v) (base_reg info))
  + (if index_reg_invalid info then 0
     else reg_read (regs v) (index_reg info) * 2 ^ scaling info)
  + exit_disp v.

Definition operand_linear {hdr : Headers} (v : vcpu) : Z :=
  u64 (base (operand_segment v) + operand_offset v).

Definition operand_length {hdr : Headers} (v : vcpu) : Z :=
  2 ^ (addr_size (exit_info v) + 1).

Definition passes_validation {hdr : Headers} (v : vcpu) : bool :=
  let info := exit_info v in
  let offset := u64 (operand_offset v) in
  (segment info <=? 5)
  && (((offset <=? limit (operand_segment v))
       && (u64 (offset + operand_length v) <=? limit (operand_segment v)))
      || (hvm_long_mode_enabled (hvm v)
          && negb (segment info =? VMX_SREG_GS))).

(** The same in the specification's own terms, for the statement on the
    decoder: the segment register a segment field names, through the
    selectors VMX_SREG_ES .. VMX_SREG_GS and not through the table of the
    code; the six selectors are different numbers. *)
Definition named_segment {hdr : Headers} (s : Z) : option x86_segment :=
  if s =? VMX_SREG_ES then Some x86_seg_es
  else if s =? VMX_SREG_CS then Some x86_seg_cs
  else if s =? VMX_SREG_SS then Some x86_seg_ss
  else if s =? VMX_SREG_DS then Some x86_seg_ds
  else if s =? VMX_SREG_FS then Some x86_seg_fs
  else if s =? VMX_SREG_GS then Some x86_seg_gs
  else None.

Definition selectors_distinct {hdr : Headers} : bool :=
  bool_decide (NoDup [VMX_SREG_ES; VMX_SREG_CS; VMX_SREG_SS;
                      VMX_SREG_DS; VMX_SREG_FS; VMX_SREG_GS]).

(** seg.base + offset in 64-bit arithmetic, for the segment register
    [seg]. *)
Definition specified_linear {hdr : Headers} (v : vcpu) (seg : x86_segment)
    : Z :=
  u64 (base (segment_registers (hvm v) seg) + operand_offset v).

(** The validation of section 4.2 against the limit of [seg]: the segment
    field is at most 5, and outside long mode, or with GS, the offset and
    the offset plus the length are within the limit. *)
Definition validated {hdr : Headers} (v : vcpu) (seg : x86_segment) : bool :=
  let info := exit_info v in
  let offset := u64 (operand_offset v) in
  let lim := limit (segment_registers (hvm v) seg) in
  (segment info <=? 5)
  && (((offset <=? lim) && (u64 (offset + operand_length v) <=? lim))
      || (hvm_long_mode_enabled (hvm v)
          && negb (segment info =? VMX_SREG_GS))).

(** The operand a fetch of [len] bytes [bytes] leaves in an unsigned long
    that held [old]. *)
Definition fetched_into (old bytes len : Z) : Z :=
  Z.lor (Z.land old (Z.lnot (Z.ones (8 * len))))
        (Z.land bytes (Z.ones (8 * len))).

(** What the specification says of the composite controls (section 4.5):
    L1's word, the I/O policy bits, the word after stripping the five
    features and merging the host's, and the port bit of an I/O bitmap
    (section 6: bit N of byte N/8). *)
Definition hw {hdr : Headers} (v : vcpu) (field : Z) : option Z :=
  vmcs (hvm v) !! field.

Definition l1_ctl {hdr : Headers} (content : page) : Z :=
  u32 (__get_vvmcs content CPU_BASED_VM_EXEC_CONTROL).

Definition pio_ctl {hdr : Headers} (content : page) : Z :=
  Z.land (l1_ctl content)
         (Z.lor CPU_BASED_ACTIVATE_IO_BITMAP CPU_BASED_UNCOND_IO_EXITING).

Definition stripped_or_host {hdr : Headers} (content : page) (host_cntrl : Z)
    : Z :=
  Z.lor
    (Z.land (l1_ctl content)
       (Z.lnot (Z.lor (Z.lor (Z.lor (Z.lor CPU_BASED_TPR_SHADOW
                                           CPU_BASED_ACTIVATE_MSR_BITMAP)
                                    CPU_BASED_ACTIVATE_SECONDARY_CONTROLS)
                             CPU_BASED_ACTIVATE_IO_BITMAP)
                      CPU_BASED_UNCOND_IO_EXITING)))
    host_cntrl.

Definition port_intercepted (bitmap : page) (port : Z) : Z :=
  Z.b2z (Z.testbit (page_byte bitmap (port / 8)) (port mod 8)).

Definition shadow_bitmap {hdr : Headers} (bitmap : page) : Z :=
  nestedhvm_vcpu_iomap_get (port_intercepted bitmap 0x80)
                           (port_intercepted bitmap 0xed).

(** The VM-instruction status convention (section 6): the six arithmetic
    flags are cleared, then ZF is set for VMfailValid and CF for
    VMfailInvalid.  [reports res v] says the flags of [v] show [res]. *)
Definition status_mask {hdr : Headers} : Z :=
  Z.lor (Z.lor (Z.lor (Z.lor (Z.lor X86_EFLAGS_CF X86_EFLAGS_PF)
                             X86_EFLAGS_AF) X86_EFLAGS_ZF)
               X86_EFLAGS_SF) X86_EFLAGS_OF.

Definition status_flag {hdr : Headers} (res : vmx_ops_result) : Z :=
  match res with
  | VMSUCCEED => 0
  | VMFAIL_VALID => X86_EFLAGS_ZF
  | VMFAIL_INVALID => X86_EFLAGS_CF
  end.

Definition reports {hdr : Headers} (res : vmx_ops_result) (v : vcpu) : Prop :=
  Z.land (eflags (regs v)) status_mask = status_flag res.

(** The state vmreturn leaves. *)
Definition with_status {hdr : Headers} (res : vmx_ops_result) (v : vcpu)
    : vcpu :=
  with_regs (fun regs =>
    set_eflags regs
      (Z.lor (Z.land (eflags regs) (Z.lnot status_mask)) (status_flag res))) v.

(** LAUNCH_STATE of the current VVMCS, if its mapping is live. *)
Definition launch_state {hdr : Headers} (v : vcpu) : option Z :=
  match frame_of v (nv_vvmcx (nvcpu v)) with
  | Some (_, content) => Some (__get_vvmcs content NVMX_LAUNCH_STATE)
  | None => None
  end.

(** The privilege check of the non-VMXON flavour passes. *)
Definition gate_passes {hdr : Headers} (v : vcpu) : bool :=
  vmx_test false v && mode_test v && cpl_test v.

(** The invariant of section 3: the mapping of the current VVMCS exists
    exactly when its address is not the sentinel. *)
Definition vvmcs_invariant {hdr : Headers} (v : vcpu) : Prop :=
  not_null (nv_vvmcx (nvcpu v)) = negb (nv_vvmcxaddr (nvcpu v) =? VMCX_EADDR).

(** The required I/O bitmaps are mapped (section 4.5): when L1 asks for
    I/O-bitmap exiting in the controls of the VVMCS, both bitmaps are. *)
Definition io_bitmaps_as_required {hdr : Headers} (v : vcpu) (content : page)
    : bool :=
  negb (nonzero (Z.land (l1_ctl content) CPU_BASED_ACTIVATE_IO_BITMAP))
  || (not_null (iobitmap0 (nvmx v)) && not_null (iobitmap1 (nvmx v))).

(** The starting point of the VMLAUNCH/VMRESUME sequence: a VVMCS is
    loaded and reads LAUNCH_STATE = 0, the gate passes, the required I/O
    bitmaps are mapped. *)
Definition freshly_loaded {hdr : Headers} (v : vcpu) (gfn : Z) (content : page)
    : Prop :=
  frame_of v (nv_vvmcx (nvcpu v)) = Some (gfn, content)
  /\ length content = 512%nat
  /\ __get_vvmcs content NVMX_LAUNCH_STATE = 0
  /\ nv_vvmcxaddr (nvcpu v) <> VMCX_EADDR
  /\ gate_passes v = true
  /\ io_bitmaps_as_required v content = true.

(** Between the VMLAUNCH and the instructions after the L2 exit the
    scheduler, which is outside the file, makes the nested entry; of the
    nested state it is the reader of vm_entry_pending.  [pending] is what
    the flag holds when L1 runs again. *)
Definition after_l2_exit (pending : bool) (v : vcpu) : vcpu :=
  with_nvcpu (set_nv_vmentry_pending pending) v.

(** The sequence as the specification has it (section 8, property 7):
    VMRESUME reports VMfailValid, VMLAUNCH reports VMsucceed with the
    entry pending and LAUNCH_STATE 1, a second VMLAUNCH reports
    VMfailValid, VMRESUME reports VMsucceed with the entry pending. *)
Definition launch_resume_as_specified {hdr : Headers} (v : vcpu) : Prop :=
  exists rc1 v1 rc2 v2 rc3 v3 rc4 v4,
    nvmx_handle_vmresume v = Returns rc1 v1
    /\ reports VMFAIL_VALID v1
    /\ nvmx_handle_vmlaunch v1 = Returns rc2 v2
    /\ reports VMSUCCEED v2
    /\ nv_vmentry_pending (nvcpu v2) = true
    /\ launch_state v2 = Some 1
    /\ nvmx_handle_vmlaunch v2 = Returns rc3 v3
    /\ reports VMFAIL_VALID v3
    /\ nvmx_handle_vmresume v3 = Returns rc4 v4
    /\ reports VMSUCCEED v4
    /\ nv_vmentry_pending (nvcpu v4) = true.

(** The state a VMLAUNCH leaves when nvmx_vmresume made the entry
    pending: LAUNCH_STATE is written, EFLAGS are not. *)
Definition launched_state {hdr : Headers} (v : vcpu) (gfn : Z)
    (content : page) : vcpu :=
  with_env (fun e =>
    set_guest_frames
      (<[gfn := __set_vvmcs content NVMX_LAUNCH_STATE 1]> (guest_frames e)) e)
    (with_nvcpu (set_nv_vmentry_pending true) v).

(** The flags after VMRESUME then VMLAUNCH on the sample machine. *)
Definition flags_after_resume_launch (v : vcpu) : option Z :=
  match nvmx_handle_vmresume (hdr := Arch.intel) v with
  | Returns _ v1 =>
      match nvmx_handle_vmlaunch (hdr := Arch.intel) v1 with
      | Returns _ v2 =>
          Some (Z.land (eflags (regs v2)) (status_mask (hdr := Arch.intel)))
      | HostFault => None
      end
  | HostFault => None
  end.

(** What the decoder leaves in the caller's unsigned long that held
    [uninit]: a register operand replaces all of it, a memory operand of
    [len] bytes replaces its low [len] bytes. *)
Definition delivered (v : vcpu) (uninit : Z) (decode : vmx_inst_decoded)
    (operand : Z) : Prop :=
  match decode with
  | VMX_INST_MEMREG_TYPE_REG reg1 _ => operand = reg_read (regs v) reg1
  | VMX_INST_MEMREG_TYPE_MEMORY mem len _ =>
      exists bytes,
        copy_from_guest (env v) mem len = Some bytes
        /\ operand = Z.lor (Z.land uninit (Z.lnot (Z.ones (8 * len))))
                           (Z.land bytes (Z.ones (8 * len)))
  end.

(** The mappings left when the mapping behind a pointer is released. *)
Definition release (p : pointer) (m : gmap Z Z) : gmap Z Z :=
  match p with
  | Some a => delete a m
  | None => m
  end.

(** The mappings nvmx_purge_vvmcs leaves: the current VVMCS is released
    when its address is not the sentinel, then the two I/O bitmaps. *)
Definition purged_mappings {hdr : Headers} (v : vcpu) : gmap Z Z :=
  release (iobitmap1 (nvmx v))
    (release (iobitmap0 (nvmx v))
       (if nv_vvmcxaddr (nvcpu v) =? VMCX_EADDR then mappings (env v)
        else release (nv_vvmcx (nvcpu v)) (mappings (env v)))).

(** More sample machines: exits of the instructions whose handlers the
    further properties are about. *)
Module Scenario.
Import Arch Sample.

(** After initialisation: VMXON whose operand holds the address 0. *)
Definition vmxon_zero_exit : vcpu :=
  final ((run nvmx_vcpu_initialise (Some ∅);
          vmexit info_m64 0x40 0 0 0 0) (machine 0)).

(** After VMXON: VMPTRLD (or VMCLEAR, VMPTRST) with the operand [gpa]. *)
Definition after_vmxon_exit (gpa : Z) : vcpu :=
  final ((run vmxon_done; vmexit info_m64 0x48 0 0 gpa 0) (machine 0)).

(** After VMPTRLD of 0x12345000: the same instructions with [gpa]. *)
Definition loaded_exit (gpa : Z) : vcpu :=
  final ((run vmptrld_done 0x12345000; vmexit info_m64 0x48 0 0 gpa 0)
           (machine 0)).

(** After VMPTRLD of 0x12345000: a register-form VMREAD or VMWRITE with
    the operand register RAX = [rax] and the encoding RCX = [rcx]. *)
Definition loaded_reg_exit (rax rcx : Z) : vcpu :=
  final ((run vmptrld_done 0x12345000; vmexit info_rax_rcx 0 rax rcx 0 0)
           (machine 0)).

(** A protected-mode (not long-mode) guest after VMXON, with a memory
    operand at DS:[disp] and a DS limit of 0xffff. *)
Definition small_seg : segment_register :=
  {| sel := 0x10; attr_l := 0; limit := 0xffff; base := 0x100000 |}.
Definition protected_mode_exit (info disp : Z) : vcpu :=
  with_hvm (fun h =>
    {| guest_cr0 := guest_cr0 h; guest_cr4 := guest_cr4 h;
       hvm_long_mode_enabled := false;
       segment_registers := fun seg =>
         match seg with x86_seg_cs => code_seg 0 | _ => small_seg end;
       vmcs := vmcs h; launched := launched h |})
    (final ((run vmxon_done; vmexit info disp 0 0 0 0) (machine 0))).

(** After VMPTRLD of 0x12345000 (controls 0: no I/O-bitmap exiting) and a
    VMWRITE of 0x50000, a frame the guest does not have, to IO_BITMAP_A:
    bitmap A is not mapped, and none is required. *)
Definition bitmap_a_unmapped : vcpu :=
  final (nvmx_handle_vmwrite 0 (loaded_reg_exit 0x50000 0x2000)).

(** After VMXON: a 64-bit memory operand at FS:[0x48], where FS has a
    base of its own (0x200000) and the guest's memory holds [operand]. *)
Definition fs_seg : segment_register :=
  {| sel := 0x18; attr_l := 0; limit := 0xffffffff; base := 0x200000 |}.
Definition info_fs_m64 : Z := info_word 0 0 2 0 4 0 1 0 1 0.
Definition fs_operand_exit (operand : Z) : vcpu :=
  with_hvm (fun h =>
    {| guest_cr0 := guest_cr0 h; guest_cr4 := guest_cr4 h;
       hvm_long_mode_enabled := hvm_long_mode_enabled h;
       segment_registers := fun seg =>
         match seg with
         | x86_seg_cs => code_seg 0
         | x86_seg_fs => fs_seg
         | _ => data_seg
         end;
       vmcs := vmcs h; launched := launched h |})
    (final ((run vmxon_done; vmexit info_fs_m64 0x48 0 0 operand 0)
              (machine 0))).
End Scenario.

(** Exits whose operand the guest cannot read, or cannot write. *)
Module Faulting.
Import Arch Sample.

Definition set_copy (from : Z -> Z -> option Z) (to_ok : Z -> Z -> bool)
    (e : l0_env) : l0_env :=
  {| mappings := mappings e; next_mapping := next_mapping e;
     guest_frames := guest_frames e;
     copy_from_guest := from; copy_to_guest_ok := to_ok;
     guest_writes := guest_writes e; injected := injected e |}.

(** After VMPTRLD of 0x12345000: an exit with a memory operand that
    cannot be read. *)
Definition unreadable_exit : vcpu :=
  with_env (set_copy (fun _ _ => None) (fun _ _ => true))
    (Scenario.loaded_exit 0).

(** The same exit with an operand that holds [operand] and cannot be
    written. *)
Definition unwritable_exit (operand : Z) : vcpu :=
  with_env (set_copy (fun _ _ => Some operand) (fun _ _ => false))
    (Scenario.loaded_exit 0).

(** After VMPTRLD of 0x12345000: a VMREAD or VMWRITE with a memory
    operand holding [operand] and the encoding RAX = [rax]
    (reg2 of [info_m64] is RAX). *)
Definition loaded_mem_exit (operand rax : Z) : vcpu :=
  final ((run vmptrld_done 0x12345000; vmexit info_m64 0x48 rax 0 operand 0)
           (machine 0)).

(** [m32 [disp]]: a 32-bit memory operand at DS:disp, and the same exit
    with it: the guest's memory holds [operand] there. *)
Definition info_m32 : Z := info_word 0 0 1 0 3 0 1 0 1 0.
Definition loaded_m32_exit (operand rax : Z) : vcpu :=
  final ((run vmptrld_done 0x12345000; vmexit info_m32 0x48 rax 0 operand 0)
           (machine 0)).
End Faulting.

(** * Theorems *)

(** ** The codec *)

Section CodecFacts.
Context {hdr : Headers}.

Lemma lor_below a b k :
  0 <= k -> 0 <= a < 2 ^ k -> 0 <= b < 2 ^ k -> 0 <= Z.lor a b < 2 ^ k.
Proof.
  intros Hk Ha Hb.
  assert (Hnn : 0 <= Z.lor a b) by (apply Z.lor_nonneg; lia).
  split; [done|].
  destruct (Z.eq_dec (Z.lor a b) 0) as [->|Hne].
  { apply Z.pow_pos_nonneg; lia. }
  apply Z.log2_lt_pow2; [lia|].
  rewrite Z.log2_lor by lia.
  destruct (Z.eq_dec a 0) as [->|Ha0], (Z.eq_dec b 0) as [->|Hb0].
  - exfalso. by apply Hne.
  - assert (Z.log2 b < k) by (apply Z.log2_lt_pow2; lia).
    change (Z.log2 0) with 0. pose proof (Z.log2_nonneg b). lia.
  - assert (Z.log2 a < k) by (apply Z.log2_lt_pow2; lia).
    change (Z.log2 0) with 0. pose proof (Z.log2_nonneg a). lia.
  - assert (Z.log2 a < k) by (apply Z.log2_lt_pow2; lia).
    assert (Z.log2 b < k) by (apply Z.log2_lt_pow2; lia).
    lia.
Qed.

Lemma vvmcs_offset_range width type index :
  0 <= type < 4 -> 0 <= width < 4 ->
  0 <= vvmcs_offset width type index < 512.
Proof.
  intros Ht Hw. unfold vvmcs_offset.
  assert (Hi : 0 <= Z.land index 0x1f < 2 ^ 9).
  { change 0x1f with (Z.ones 5). rewrite Z.land_ones by lia.
    pose proof (Z.mod_pos_bound index (2 ^ 5)). lia. }
  assert (H5 : 0 <= Z.shiftl type 5 < 2 ^ 9)
    by (rewrite Z.shiftl_mul_pow2 by lia; lia).
  assert (H7 : 0 <= Z.shiftl width 7 < 2 ^ 9)
    by (rewrite Z.shiftl_mul_pow2 by lia; lia).
  pose proof (lor_below _ _ 9 ltac:(lia) Hi H5) as H1.
  pose proof (lor_below _ _ 9 ltac:(lia) H1 H7) as H2.
  change (2 ^ 9) with 512 in H2.
  destruct (_ =? 0); lia.
Qed.

Lemma enc_offset_range e : 0 <= enc_offset e < 512.
Proof.
  apply vvmcs_offset_range; [apply enc_type_range | apply enc_width_range].
Qed.

Lemma content_get_set (content : page) offset res :
  0 <= offset -> (Z.to_nat offset < length content)%nat ->
  content_get (content_set content offset res) offset = res.
Proof.
  intros _ Hlt. unfold content_get, content_set.
  by rewrite list_lookup_insert_eq.
Qed.

(** No field lands on slot 0: the one encoding that would is moved to
    slot 0x3f. *)
Lemma vvmcs_offset_nonzero width type index :
  vvmcs_offset width type index <> 0.
Proof.
  unfold vvmcs_offset.
  destruct (Z.eqb_spec
              (Z.lor (Z.lor (Z.land index 31) (Z.shiftl type 5))
                     (Z.shiftl width 7)) 0); lia.
Qed.

Lemma reg_read_write regs index value :
  reg_read (reg_write regs index value) index = value.
Proof. destruct regs, index; reflexivity. Qed.

Lemma land_mask_idem v m : Z.land (Z.land v m) m = Z.land v m.
Proof. by rewrite <- Z.land_assoc, Z.land_diag. Qed.

Lemma high_half_roundtrip old v :
  Z.shiftr (Z.lor (Z.land old 0xffffffff) (u64 (Z.shiftl v 32))) 32
  = Z.land v 0xffffffff.
Proof.
  unfold u64. apply Z.bits_inj'. intros n Hn.
  rewrite Z.shiftr_spec, Z.lor_spec, !Z.land_spec by lia.
  change 0xffffffff with (Z.ones 32).
  rewrite !Z.testbit_ones_nonneg by lia.
  destruct (Z.ltb_spec n 32) as [Hlt|Hge].
  - replace (n + 32 <? 32) with false by (symmetry; apply Z.ltb_ge; lia).
    rewrite andb_false_r, andb_true_r. simpl.
    rewrite Z.mod_pow2_bits_low by lia.
    rewrite Z.shiftl_spec by lia. f_equal. lia.
  - replace (n + 32 <? 32) with false by (symmetry; apply Z.ltb_ge; lia).
    rewrite !andb_false_r. simpl.
    apply Z.mod_pow2_bits_high. lia.
Qed.
End CodecFacts.

(** C6.  Writing a 64-bit value [v] at encoding [e] of a VVMCS page and
    reading [e] back yields [v] masked to the width of [e]: the low 16
    bits for a 16-bit field, the low 32 bits for a 32-bit field and for
    the high half of a 64-bit field (access_type = 1), and [v] itself for
    the low half of a 64-bit field and for a natural-width field. *)
Theorem codec_roundtrip {hdr : Headers} (vvmcs : page) (e v : Z) :
  length vvmcs = 512%nat -> is_u64 v ->
  __get_vvmcs (__set_vvmcs vvmcs e v) e = mask_for e v.
Proof.
  intros Hlen _.
  pose proof (enc_offset_range e) as Ho.
  unfold __get_vvmcs, __set_vvmcs, mask_for.
  rewrite content_get_set by lia.
  destruct (enc_width e =? VVMCS_WIDTH_16) eqn:E16.
  { apply land_mask_idem. }
  destruct (enc_width e =? VVMCS_WIDTH_64) eqn:E64.
  { apply Z.eqb_eq in E64. rewrite E64. simpl.
    destruct (nonzero (enc_access_type e)); [apply high_half_roundtrip | done]. }
  destruct (enc_width e =? VVMCS_WIDTH_32) eqn:E32.
  { apply land_mask_idem. }
  done.
Qed.

Lemma codec_roundtrip_witness :
  length Sample.zero_page = 512%nat /\ is_u64 0xAABBCCDD /\
  enc_width (Headers := Arch.intel) 0x0802 = VVMCS_WIDTH_16 /\
  __get_vvmcs (hdr := Arch.intel)
    (__set_vvmcs (hdr := Arch.intel) Sample.zero_page 0x0802 0xAABBCCDD) 0x0802
  = 0xCCDD.
Proof.
  split; [reflexivity|]. split; [unfold is_u64; lia|]. split; [reflexivity|].
  apply (codec_roundtrip (hdr := Arch.intel) Sample.zero_page 0x0802 0xAABBCCDD).
  - reflexivity.
  - unfold is_u64; lia.
Defined.

(** ** The privilege check *)

Lemma nonzero_true z : nonzero z = true <-> z <> 0.
Proof. unfold nonzero. destruct (Z.eqb_spec z 0); simpl; split; intros; congruence. Qed.

Lemma nonzero_false z : nonzero z = false <-> z = 0.
Proof. unfold nonzero. destruct (Z.eqb_spec z 0); simpl; split; intros; congruence. Qed.

Lemma land_3_positive z : (Z.land z 3 >? 0) = nonzero (Z.land z 3).
Proof.
  assert (0 <= Z.land z 3) by (apply Z.land_nonneg; lia).
  unfold nonzero. destruct (Z.eqb_spec (Z.land z 3) 0); simpl; lia.
Qed.

Lemma vmx_inst_check_privilege_eq {hdr : Headers} vmxop_check v :
  vmx_inst_check_privilege vmxop_check v =
  if negb (vmx_test vmxop_check v && mode_test v)
  then Returns X86EMUL_EXCEPTION (inject TRAP_invalid_op v)
  else if negb (cpl_test v)
  then Returns X86EMUL_EXCEPTION (inject TRAP_gp_fault v)
  else Returns X86EMUL_OKAY v.
Proof.
  unfold vmx_inst_check_privilege, vmx_test, mode_test, cpl_test, inject,
    invalid_op, gp_fault, hvm_inject_exception, hvm_get_segment_register,
    bind, ret, get_vcpu, modify.
  rewrite land_3_positive.
  destruct vmxop_check;
    repeat match goal with
           | |- context [nonzero ?z] => destruct (nonzero z)
           | |- context [hvm_long_mode_enabled ?h] =>
               destruct (hvm_long_mode_enabled h)
           | |- context [?a =? 0] => destruct (a =? 0)
           end; reflexivity.
Qed.

(** C7.  The privilege check, case by case: in the VMXON flavour a clear
    CR0.PE or CR4.VMXE, in the other flavour a zero vmxon_region_pa, and in
    both EFLAGS.VM set or long mode with CS.L clear, inject #UD (vector 6,
    error code 0) and return X86EMUL_EXCEPTION; when these tests pass, a
    non-zero CPL injects #GP(0) (vector 13) and returns X86EMUL_EXCEPTION;
    when every test passes the check returns X86EMUL_OKAY and injects
    nothing. *)
Theorem privilege_check_cases {hdr : Headers} (vmxop_check : bool) (v : vcpu) :
  let cs := segment_registers (hvm v) x86_seg_cs in
  let check := vmx_inst_check_privilege vmxop_check v in
  let ud := Returns X86EMUL_EXCEPTION (with_env (add_injected (6, 0, 0)) v) in
  let gp := Returns X86EMUL_EXCEPTION (with_env (add_injected (13, 0, 0)) v) in
  let vmx_ok :=
    if vmxop_check
    then Z.land (guest_cr0 (hvm v)) X86_CR0_PE <> 0
         /\ Z.land (guest_cr4 (hvm v)) X86_CR4_VMXE <> 0
    else vmxon_region_pa (nvmx v) <> 0 in
  let mode_ok :=
    Z.land (eflags (regs v)) X86_EFLAGS_VM = 0
    /\ ~ (hvm_long_mode_enabled (hvm v) = true /\ attr_l cs = 0) in
  (vmxop_check = true ->
   Z.land (guest_cr0 (hvm v)) X86_CR0_PE = 0
   \/ Z.land (guest_cr4 (hvm v)) X86_CR4_VMXE = 0 -> check = ud)
  /\ (vmxop_check = false -> vmxon_region_pa (nvmx v) = 0 -> check = ud)
  /\ (Z.land (eflags (regs v)) X86_EFLAGS_VM <> 0
      \/ (hvm_long_mode_enabled (hvm v) = true /\ attr_l cs = 0) -> check = ud)
  /\ (vmx_ok -> mode_ok -> Z.land (sel cs) 3 <> 0 -> check = gp)
  /\ (vmx_ok -> mode_ok -> Z.land (sel cs) 3 = 0 ->
      check = Returns X86EMUL_OKAY v).
Proof.
  intros cs check ud gp vmx_ok mode_ok.
  subst check. rewrite vmx_inst_check_privilege_eq.
  change (Returns X86EMUL_EXCEPTION (inject TRAP_invalid_op v)) with ud.
  change (Returns X86EMUL_EXCEPTION (inject TRAP_gp_fault v)) with gp.
  assert (Hvmx : vmx_test vmxop_check v = true <-> vmx_ok).
  { subst vmx_ok. unfold vmx_test. destruct vmxop_check.
    - rewrite andb_true_iff, !nonzero_true. tauto.
    - apply nonzero_true. }
  assert (Hmode : mode_test v = true <-> mode_ok).
  { subst mode_ok cs. unfold mode_test.
    rewrite andb_true_iff, !negb_true_iff, nonzero_false, andb_false_iff.
    destruct (hvm_long_mode_enabled (hvm v));
      destruct (Z.eqb_spec (attr_l (segment_registers (hvm v) x86_seg_cs)) 0);
      intuition congruence. }
  assert (Hcpl : cpl_test v = true <-> Z.land (sel cs) 3 = 0).
  { subst cs. unfold cpl_test. rewrite negb_true_iff. apply nonzero_false. }
  assert (Hud : vmx_test vmxop_check v && mode_test v = false ->
                (if negb (vmx_test vmxop_check v && mode_test v)
                 then ud
                 else if negb (cpl_test v) then gp
                      else Returns X86EMUL_OKAY v) = ud)
    by (intros ->; reflexivity).
  repeat split.
  - intros -> Hbits. apply Hud, andb_false_iff. left.
    apply not_true_is_false. rewrite Hvmx. subst vmx_ok. simpl. tauto.
  - intros -> Hpa. apply Hud, andb_false_iff. left.
    apply not_true_is_false. rewrite Hvmx. subst vmx_ok. simpl. tauto.
  - intros Hbad. apply Hud, andb_false_iff. right.
    apply not_true_is_false. rewrite Hmode. subst mode_ok. tauto.
  - intros Hv Hm Hc. apply Hvmx in Hv. apply Hmode in Hm. rewrite Hv, Hm. simpl.
    assert (cpl_test v = false) as ->; [|reflexivity].
    apply not_true_is_false. by rewrite Hcpl.
  - intros Hv Hm Hc. apply Hvmx in Hv. apply Hmode in Hm. apply Hcpl in Hc.
    by rewrite Hv, Hm, Hc.
Qed.

Lemma privilege_check_cases_witness :
  vmx_inst_check_privilege (hdr := Arch.intel) false
    (with_nvmx (set_vmxon_region_pa 0x1000) (Sample.machine 3))
  = Returns X86EMUL_EXCEPTION
      (with_env (add_injected (13, 0, 0))
         (with_nvmx (set_vmxon_region_pa 0x1000) (Sample.machine 3)))
  /\ vmx_inst_check_privilege (hdr := Arch.intel) false
       (with_nvmx (set_vmxon_region_pa 0x1000) (Sample.machine 0))
     = Returns X86EMUL_OKAY
         (with_nvmx (set_vmxon_region_pa 0x1000) (Sample.machine 0)).
Proof.
  split.
  - apply (privilege_check_cases (hdr := Arch.intel) false
             (with_nvmx (set_vmxon_region_pa 0x1000) (Sample.machine 3)));
      simpl; repeat split; try discriminate; try (intros [? ?]; discriminate).
  - apply (privilege_check_cases (hdr := Arch.intel) false
             (with_nvmx (set_vmxon_region_pa 0x1000) (Sample.machine 0)));
      simpl; repeat split; try discriminate; try (intros [? ?]; discriminate).
Defined.

(** ** The operand decoder *)

Lemma u64_add_u64_r a b : u64 (a + u64 b) = u64 (a + b).
Proof. unfold u64. apply Zplus_mod_idemp_r. Qed.

Lemma gtb_le_false a b : a <= b -> (a >? b) = false.
Proof. intros H. rewrite Z.gtb_ltb. by apply Z.ltb_ge. Qed.

Lemma shiftl_1 n : 0 <= n -> Z.shiftl 1 n = 2 ^ n.
Proof. intros Hn. rewrite Z.shiftl_mul_pow2 by done. lia. Qed.

(** The decoder on a memory-form operand once the privilege check has
    passed: validation, then the fetch of the operand. *)
Lemma decode_memory_eq {hdr : Headers} (poperandS : option Z)
    (vmxon_check : bool) (v : vcpu) :
  vmx_inst_check_privilege vmxon_check v = Returns X86EMUL_OKAY v ->
  memreg (exit_info v) = false ->
  decode_vmx_inst poperandS vmxon_check v =
  if passes_validation v then
    match poperandS with
    | None =>
        Returns (X86EMUL_OKAY,
                 Some (VMX_INST_MEMREG_TYPE_MEMORY (operand_linear v)
                         (operand_length v) (reg2 (exit_info v))), None) v
    | Some old =>
        match copy_from_guest (env v) (operand_linear v) (operand_length v)
        with
        | None => Returns (X86EMUL_EXCEPTION, None, Some old) v
        | Some bytes =>
            if operand_length v >? 8 then HostFault
            else
              Returns (X86EMUL_OKAY,
                       Some (VMX_INST_MEMREG_TYPE_MEMORY (operand_linear v)
                               (operand_length v) (reg2 (exit_info v))),
                       Some (Z.lor
                               (Z.land old
                                  (Z.lnot (Z.ones (8 * operand_length v))))
                               (Z.land bytes (Z.ones (8 * operand_length v)))))
                v
        end
    end
  else Returns (X86EMUL_EXCEPTION, None, poperandS) (inject TRAP_gp_fault v).
Proof.
  intros Hpriv Hmem.
  pose proof (inst_info_scaling_range
                (default 0 (vmcs (hvm v) !! VMX_INSTRUCTION_INFO))) as Hsc.
  pose proof (inst_info_addr_size_range
                (default 0 (vmcs (hvm v) !! VMX_INSTRUCTION_INFO))) as Has.
  unfold decode_vmx_inst, bind. rewrite Hpriv. cbn [is_okay negb].
  unfold __vmread, hvm_get_segment_register, bind, ret, get_vcpu.
  cbv beta iota zeta.
  fold (exit_info v) in *. rewrite Hmem.
  unfold passes_validation. cbv zeta.
  rewrite Z.gtb_ltb, Z.ltb_antisym.
  destruct (segment (exit_info v) <=? 5) eqn:Hseg; cbn [negb andb];
    [|reflexivity].
  apply Z.leb_le in Hseg.
  rewrite !shiftl_1 by lia.
  fold (exit_disp v). fold (operand_segment v).
  set (off := (if base_reg_invalid (exit_info v) then 0
               else reg_read (regs v) (base_reg (exit_info v)))
              + (if index_reg_invalid (exit_info v) then 0
                 else reg_read (regs v) (index_reg (exit_info v)))
                * 2 ^ scaling (exit_info v) + exit_disp v).
  assert (Hoff : off = operand_offset v).
  { subst off. unfold operand_offset.
    destruct (index_reg_invalid (exit_info v)); lia. }
  rewrite Hoff. fold (operand_length v) in *.
  rewrite u64_add_u64_r. fold (operand_linear v).
  rewrite !Z.gtb_ltb, !Z.ltb_antisym.
  destruct (u64 (operand_offset v) <=? limit (operand_segment v)),
    (u64 (u64 (operand_offset v) + operand_length v)
     <=? limit (operand_segment v)),
    (hvm_long_mode_enabled (hvm v)),
    (segment (exit_info v) =? VMX_SREG_GS);
    cbn [negb andb orb]; try reflexivity.
  all: destruct poperandS as [old|]; [|reflexivity].
  all: unfold hvm_copy_from_guest_virt, bind, get_vcpu.
  all: destruct (copy_from_guest (env v) (operand_linear v)
                   (operand_length v)); [|reflexivity].
  all: rewrite ?Z.gtb_ltb, ?Z.ltb_antisym.
  all: by destruct (operand_length v <=? 8).
Qed.

(** With distinct selectors, the table of the code gives the segment
    register the field names. *)
Lemma sreg_to_index_named {hdr : Headers} (s : Z) (seg : x86_segment) :
  selectors_distinct = true ->
  named_segment s = Some seg ->
  sreg_to_index s = seg.
Proof.
  unfold selectors_distinct. intros Hd%bool_decide_eq_true.
  rewrite !NoDup_cons, !not_elem_of_cons in Hd.
  destruct Hd as ((? & ? & ? & ? & ? & _) & (? & ? & ? & ? & _)
                  & (? & ? & ? & _) & (? & ? & _) & (? & _) & _).
  unfold named_segment, sreg_to_index.
  destruct (Z.eqb_spec s VMX_SREG_ES), (Z.eqb_spec s VMX_SREG_CS),
    (Z.eqb_spec s VMX_SREG_SS), (Z.eqb_spec s VMX_SREG_DS),
    (Z.eqb_spec s VMX_SREG_FS), (Z.eqb_spec s VMX_SREG_GS);
    intros [= <-]; congruence.
Qed.

(** C10.  For a memory-form operand (memreg clear) that passes the
    privilege check and the validation of segment and limit, the decoder
    produces the linear address
    seg.base + (0 if base-invalid else reg[base])
    + (0 if index-invalid else reg[index] * 2^scaling) + displacement,
    computed in 64-bit arithmetic, where seg is the segment register the
    segment field names, and the length 2^(addr_size + 1).  A caller that
    does not ask for the operand gets X86EMUL_OKAY with this decode; for
    one that does, the operand is fetched from exactly this address with
    this length, the decode is returned when the fetch succeeds, a failed
    fetch ends in X86EMUL_EXCEPTION, and a length above eight bytes does
    not fit the caller's unsigned long. *)
Theorem decode_memory_operand {hdr : Headers} (poperandS : option Z)
    (vmxon_check : bool) (v : vcpu) (seg : x86_segment) :
  selectors_distinct = true ->
  vmx_inst_check_privilege vmxon_check v = Returns X86EMUL_OKAY v ->
  memreg (exit_info v) = false ->
  named_segment (segment (exit_info v)) = Some seg ->
  validated v seg = true ->
  decode_vmx_inst poperandS vmxon_check v =
  match poperandS with
  | None =>
      Returns (X86EMUL_OKAY,
               Some (VMX_INST_MEMREG_TYPE_MEMORY (specified_linear v seg)
                       (operand_length v) (reg2 (exit_info v))),
               None) v
  | Some old =>
      match copy_from_guest (env v) (specified_linear v seg)
              (operand_length v) with
      | None => Returns (X86EMUL_EXCEPTION, None, Some old) v
      | Some bytes =>
          if operand_length v >? 8 then HostFault
          else
            Returns (X86EMUL_OKAY,
                     Some (VMX_INST_MEMREG_TYPE_MEMORY (specified_linear v seg)
                             (operand_length v) (reg2 (exit_info v))),
                     Some (fetched_into old bytes (operand_length v))) v
      end
  end.
Proof.
  intros Hdistinct Hpriv Hmem Hseg Hvalid.
  apply (sreg_to_index_named _ _ Hdistinct) in Hseg.
  assert (Hs : operand_segment v = segment_registers (hvm v) seg)
    by (unfold operand_segment; by rewrite Hseg).
  assert (Hv : passes_validation v = true)
    by (unfold passes_validation; rewrite Hs; exact Hvalid).
  assert (Hl : operand_linear v = specified_linear v seg)
    by (unfold operand_linear, specified_linear; by rewrite Hs).
  rewrite (decode_memory_eq poperandS vmxon_check v Hpriv Hmem).
  rewrite Hv, Hl. reflexivity.
Qed.

Lemma decode_memory_operand_witness :
  base (segment_registers (hvm Sample.sib_operand) x86_seg_ds) = 0x100000
  /\ decode_vmx_inst (hdr := Arch.intel) None false Sample.sib_operand
     = Returns (X86EMUL_OKAY,
                Some (VMX_INST_MEMREG_TYPE_MEMORY 0x101060 8 VMX_REG_RAX), None)
         Sample.sib_operand
  /\ base (segment_registers
             (hvm (Scenario.fs_operand_exit 0x1122334455667788)) x86_seg_fs)
     = 0x200000
  /\ decode_vmx_inst (hdr := Arch.intel) (Some 0) false
       (Scenario.fs_operand_exit 0x1122334455667788)
     = Returns (X86EMUL_OKAY,
                Some (VMX_INST_MEMREG_TYPE_MEMORY 0x200048 8 VMX_REG_RAX),
                Some 0x1122334455667788)
         (Scenario.fs_operand_exit 0x1122334455667788).
Proof.
  split; [reflexivity|].
  split.
  { apply (decode_memory_operand (hdr := Arch.intel) None false
             Sample.sib_operand x86_seg_ds); vm_compute; reflexivity. }
  split; [reflexivity|].
  apply (decode_memory_operand (hdr := Arch.intel) (Some 0) false
           (Scenario.fs_operand_exit 0x1122334455667788) x86_seg_fs);
    vm_compute; reflexivity.
Defined.

(** ** The composite execution controls *)

Lemma land_disjoint_bits a b n :
  Z.land a b = 0 -> Z.testbit a n && Z.testbit b n = false.
Proof. intros H. by rewrite <- Z.land_spec, H, Z.bits_0. Qed.

Lemma land_lnot_same x a : Z.land (Z.land x (Z.lnot a)) a = 0.
Proof.
  rewrite <- Z.land_assoc, (Z.land_comm (Z.lnot a)), Z.land_lnot_diag.
  apply Z.land_0_r.
Qed.

Lemma forced_bit_stays x u a :
  Z.land u a = 0 -> Z.land (Z.land (Z.lor x u) (Z.lnot a)) u = u.
Proof.
  intros H. apply Z.bits_inj'. intros n Hn.
  pose proof (land_disjoint_bits u a n H) as Hd.
  rewrite !Z.land_spec, Z.lor_spec, Z.lnot_spec by done.
  destruct (Z.testbit x n), (Z.testbit u n), (Z.testbit a n);
    simpl in *; congruence.
Qed.

Lemma port_test (byte port : Z) :
  0 <= port ->
  (if nonzero (Z.land byte (Z.shiftl 1 (Z.land port 0x7))) then 1 else 0)
  = Z.b2z (Z.testbit byte (port mod 8)).
Proof.
  intros Hp.
  change 0x7 with (Z.ones 3). rewrite Z.land_ones by lia.
  change (2 ^ 3) with 8.
  pose proof (Z.mod_pos_bound port 8 ltac:(lia)) as Hk.
  set (k := port mod 8) in *.
  rewrite shiftl_1 by lia.
  destruct (Z.testbit byte k) eqn:Hbit; simpl.
  - assert (nonzero (Z.land byte (2 ^ k)) = true) as ->; [|done].
    apply nonzero_true. intros H0.
    assert (Z.testbit (Z.land byte (2 ^ k)) k = true).
    { rewrite Z.land_spec, Hbit, Z.pow2_bits_true by lia. done. }
    rewrite H0, Z.bits_0 in H. discriminate.
  - assert (nonzero (Z.land byte (2 ^ k)) = false) as ->; [|done].
    apply nonzero_false. apply Z.bits_inj'. intros n Hn.
    rewrite Z.land_spec, Z.bits_0.
    destruct (Z.eq_dec n k) as [->|Hne].
    + by rewrite Hbit.
    + rewrite Z.pow2_bits_false by lia. apply andb_false_r.
Qed.

Lemma shadow_io_bitmap_eq {hdr : Headers} v g bitmap :
  frame_of v (iobitmap0 (nvmx v)) = Some (g, bitmap) ->
  _shadow_io_bitmap v = Returns (shadow_bitmap bitmap) v.
Proof.
  intros Hf. unfold _shadow_io_bitmap, bind, get_vcpu, load_page, ret, iobitmap.
  rewrite Z.eqb_refl, Hf.
  rewrite !port_test by lia.
  reflexivity.
Qed.

Lemma n2_exec_control_eq {hdr : Headers} v gfn content :
  frame_of v (nv_vvmcx (nvcpu v)) = Some (gfn, content) ->
  __n2_exec_control v = Returns (l1_ctl content) v.
Proof.
  intros Hf. unfold __n2_exec_control, get_vvmcs, load_page, bind, get_vcpu, ret.
  by rewrite Hf.
Qed.

(** C9.  With a VVMCS loaded, nvmx_update_exec_control writes to the
    hardware CPU_BASED_VM_EXEC_CONTROL L1's control word with TPR_SHADOW,
    ACTIVATE_MSR_BITMAP, ACTIVATE_SECONDARY_CONTROLS, ACTIVATE_IO_BITMAP and
    UNCOND_IO_EXITING stripped, OR host_cntrl, adjusted by the I/O policy:
    when L1's two I/O bits are exactly UNCOND_IO_EXITING the word has
    UNCOND_IO_EXITING set and ACTIVATE_IO_BITMAP clear (and the bitmap
    fields are left alone); when they are 0 the hardware IO_BITMAP_A/B
    are the host bitmap and its second page; otherwise they are the shadow
    bitmap selected by ports 0x80 and 0xED of L1's bitmap. *)
Theorem update_exec_control_policy {hdr : Headers} (host_cntrl : Z) (v : vcpu)
    (gfn : Z) (content : page) :
  frame_of v (nv_vvmcx (nvcpu v)) = Some (gfn, content) ->
  let pio := pio_ctl content in
  let merged := stripped_or_host content host_cntrl in
  (pio = CPU_BASED_UNCOND_IO_EXITING ->
   let word :=
     Z.land (Z.lor merged CPU_BASED_UNCOND_IO_EXITING)
            (Z.lnot CPU_BASED_ACTIVATE_IO_BITMAP) in
   exists v',
     nvmx_update_exec_control host_cntrl v = Returns tt v'
     /\ hw v' CPU_BASED_VM_EXEC_CONTROL = Some word
     /\ Z.land word CPU_BASED_UNCOND_IO_EXITING = CPU_BASED_UNCOND_IO_EXITING
     /\ Z.land word CPU_BASED_ACTIVATE_IO_BITMAP = 0
     /\ hw v' IO_BITMAP_A = hw v IO_BITMAP_A
     /\ hw v' IO_BITMAP_B = hw v IO_BITMAP_B)
  /\ (pio = 0 ->
      exists v',
        nvmx_update_exec_control host_cntrl v = Returns tt v'
        /\ hw v' CPU_BASED_VM_EXEC_CONTROL = Some merged
        /\ hw v' IO_BITMAP_A = Some (virt_to_maddr hvm_io_bitmap)
        /\ hw v' IO_BITMAP_B =
           Some (u64 (virt_to_maddr hvm_io_bitmap + PAGE_SIZE)))
  /\ (pio <> CPU_BASED_UNCOND_IO_EXITING -> pio <> 0 ->
      forall g bitmap,
        frame_of v (iobitmap0 (nvmx v)) = Some (g, bitmap) ->
        exists v',
          nvmx_update_exec_control host_cntrl v = Returns tt v'
          /\ hw v' CPU_BASED_VM_EXEC_CONTROL = Some merged
          /\ hw v' IO_BITMAP_A = Some (virt_to_maddr (shadow_bitmap bitmap))
          /\ hw v' IO_BITMAP_B =
             Some (u64 (virt_to_maddr (shadow_bitmap bitmap) + PAGE_SIZE))).
Proof.
  intros Hf pio merged.
  destruct io_bitmap_fields_distinct as (Hab & Hac & Hbc).
  assert (Hpio : Z.land
            (Z.lor CPU_BASED_ACTIVATE_IO_BITMAP CPU_BASED_UNCOND_IO_EXITING)
            (l1_ctl content) = pio)
    by (subst pio; unfold pio_ctl; apply Z.land_comm).
  unfold nvmx_update_exec_control, bind.
  rewrite (n2_exec_control_eq v gfn content Hf). rewrite Hpio.
  fold (stripped_or_host content host_cntrl). fold merged.
  repeat split.
  - intros Heq. rewrite Heq, Z.eqb_refl. simpl.
    eexists. split; [reflexivity|].
    unfold hw, __vmwrite, modify, with_hvm, set_vmcs; simpl.
    rewrite lookup_insert_eq, !lookup_insert_ne by done.
    repeat split.
    + apply forced_bit_stays, cpu_based_io_bits_disjoint.
    + apply land_lnot_same.
  - intros Heq. rewrite Heq.
    destruct (Z.eqb_spec 0 CPU_BASED_UNCOND_IO_EXITING) as [H0|_].
    { by destruct cpu_based_uncond_io_nonzero. }
    simpl. eexists. split; [reflexivity|].
    unfold hw, __vmwrite, modify, with_hvm, set_vmcs; simpl.
    rewrite !lookup_insert_eq, !lookup_insert_ne, !lookup_insert_eq by done.
    rewrite lookup_insert_ne, lookup_insert_eq by done.
    done.
  - intros Hne1 Hne0 g bitmap Hb.
    destruct (Z.eqb_spec pio CPU_BASED_UNCOND_IO_EXITING) as [|_]; [done|].
    destruct (Z.eqb_spec pio 0) as [|_]; [done|].
    unfold bind. rewrite (shadow_io_bitmap_eq v g bitmap Hb).
    simpl. eexists. split; [reflexivity|].
    unfold hw, __vmwrite, modify, with_hvm, set_vmcs; simpl.
    rewrite !lookup_insert_eq, !lookup_insert_ne, !lookup_insert_eq by done.
    rewrite lookup_insert_ne, lookup_insert_eq by done.
    done.
Qed.

Lemma update_exec_control_policy_witness :
  (frame_of Sample.after_vmptrld_uncond_io
     (nv_vvmcx (nvcpu Sample.after_vmptrld_uncond_io))
   = Some (0x12347, Sample.vvmcs_page 0x01000000)
   /\ exists v',
       nvmx_update_exec_control (hdr := Arch.intel) 0x02000084
         Sample.after_vmptrld_uncond_io = Returns tt v'
       /\ hw (hdr := Arch.intel) v' 0x4002 = Some 0x01000084)
  /\ (frame_of Sample.after_vmptrld (nv_vvmcx (nvcpu Sample.after_vmptrld))
      = Some (0x12345, Sample.vvmcs_page 0)
      /\ exists v',
          nvmx_update_exec_control (hdr := Arch.intel) 0x84 Sample.after_vmptrld
          = Returns tt v'
          /\ hw (hdr := Arch.intel) v' 0x4002 = Some 0x84
          /\ hw (hdr := Arch.intel) v' 0x2000 = Some 0x200000
          /\ hw (hdr := Arch.intel) v' 0x2002 = Some 0x201000)
  /\ (frame_of Sample.after_vmptrld_io_bitmap
        (nv_vvmcx (nvcpu Sample.after_vmptrld_io_bitmap))
      = Some (0x12348, Sample.vvmcs_page 0x02000000)
      /\ exists v',
          nvmx_update_exec_control (hdr := Arch.intel) 0x84
            Sample.after_vmptrld_io_bitmap = Returns tt v'
          /\ hw (hdr := Arch.intel) v' 0x4002 = Some 0x84
          /\ hw (hdr := Arch.intel) v' 0x2000 = Some 0x300000
          /\ hw (hdr := Arch.intel) v' 0x2002 = Some 0x301000).
Proof.
  split; [|split].
  - split; [vm_compute; reflexivity|].
    destruct (update_exec_control_policy (hdr := Arch.intel) 0x02000084
                Sample.after_vmptrld_uncond_io 0x12347
                (Sample.vvmcs_page 0x01000000)
                ltac:(vm_compute; reflexivity)) as (H & _ & _).
    destruct (H ltac:(vm_compute; reflexivity)) as (v' & Hrun & Hw & _).
    exists v'. split; [exact Hrun|]. exact Hw.
  - split; [vm_compute; reflexivity|].
    destruct (update_exec_control_policy (hdr := Arch.intel) 0x84
                Sample.after_vmptrld 0x12345 (Sample.vvmcs_page 0)
                ltac:(vm_compute; reflexivity)) as (_ & H & _).
    exact (H ltac:(vm_compute; reflexivity)).
  - split; [vm_compute; reflexivity|].
    destruct (update_exec_control_policy (hdr := Arch.intel) 0x84
                Sample.after_vmptrld_io_bitmap 0x12348
                (Sample.vvmcs_page 0x02000000)
                ltac:(vm_compute; reflexivity)) as (_ & _ & H).
    exact (H ltac:(vm_compute; discriminate) ltac:(vm_compute; discriminate)
             0x20 Sample.zero_page ltac:(vm_compute; reflexivity)).
Defined.

(** ** VM-instruction status and the handlers' building blocks *)

Section Blocks.
Context {hdr : Headers}.

Lemma vmreturn_eq res v : vmreturn res v = Returns tt (with_status res v).
Proof.
  unfold vmreturn, with_status, modify, with_regs, status_flag.
  destruct res; rewrite ?Z.lor_0_r; reflexivity.
Qed.

Lemma status_bits (e flag : Z) :
  Z.land flag status_mask = flag ->
  Z.land (Z.lor (Z.land e (Z.lnot status_mask)) flag) status_mask = flag.
Proof.
  intros Hsub. apply Z.bits_inj'. intros n Hn.
  assert (Hb : Z.testbit flag n && Z.testbit status_mask n = Z.testbit flag n)
    by (by rewrite <- Z.land_spec, Hsub).
  rewrite Z.land_spec, Z.lor_spec, Z.land_spec, Z.lnot_spec by done.
  destruct (Z.testbit e n), (Z.testbit flag n), (Z.testbit status_mask n);
    simpl in *; congruence.
Qed.

Lemma status_flag_in_mask res : Z.land (status_flag res) status_mask = status_flag res.
Proof.
  destruct res; unfold status_flag, status_mask.
  - apply Z.land_0_l.
  - apply Z.bits_inj'. intros n _. rewrite Z.land_spec, !Z.lor_spec.
    destruct (Z.testbit X86_EFLAGS_ZF n); [|done].
    by rewrite !orb_true_r.
  - apply Z.bits_inj'. intros n _. rewrite Z.land_spec, !Z.lor_spec.
    destruct (Z.testbit X86_EFLAGS_CF n); done.
Qed.

Lemma reports_with_status res v : reports res (with_status res v).
Proof.
  unfold reports, with_status, with_regs. simpl.
  destruct (regs v); simpl. apply status_bits, status_flag_in_mask.
Qed.

Lemma eflags_set_eflags r e : eflags (set_eflags r e) = e.
Proof. by destruct r. Qed.

(** vmreturn leaves EFLAGS.VM alone. *)
Lemma vm_flag_with_status res v :
  Z.land (eflags (regs (with_status res v))) X86_EFLAGS_VM
  = Z.land (eflags (regs v)) X86_EFLAGS_VM.
Proof.
  unfold with_status, with_regs. simpl. rewrite eflags_set_eflags.
  pose proof (status_flag_in_mask res) as Hsub.
  pose proof eflags_vm_not_status as Hvm. fold status_mask in Hvm.
  apply Z.bits_inj'. intros n Hn.
  pose proof (land_disjoint_bits _ _ n Hvm) as Hd.
  assert (Hb : Z.testbit (status_flag res) n && Z.testbit status_mask n
               = Z.testbit (status_flag res) n)
    by (by rewrite <- Z.land_spec, Hsub).
  rewrite !Z.land_spec, Z.lor_spec, Z.land_spec, Z.lnot_spec by done.
  destruct (Z.testbit (eflags (regs v)) n), (Z.testbit (status_flag res) n),
    (Z.testbit status_mask n), (Z.testbit X86_EFLAGS_VM n);
    simpl in *; congruence.
Qed.

Lemma gate_passes_with_status res v :
  gate_passes (with_status res v) = gate_passes v.
Proof.
  unfold gate_passes, mode_test. rewrite vm_flag_with_status. reflexivity.
Qed.

Lemma gate_passes_iff v :
  vmx_inst_check_privilege false v = Returns X86EMUL_OKAY v
  <-> gate_passes v = true.
Proof.
  rewrite vmx_inst_check_privilege_eq. unfold gate_passes.
  destruct (vmx_test false v), (mode_test v), (cpl_test v); simpl;
    split; intros H; try done; discriminate.
Qed.

Lemma gate_rejects v :
  gate_passes v = false ->
  exists trap, vmx_inst_check_privilege false v
               = Returns X86EMUL_EXCEPTION (inject trap v).
Proof.
  rewrite vmx_inst_check_privilege_eq. unfold gate_passes.
  destruct (vmx_test false v), (mode_test v), (cpl_test v); simpl;
    intros H; try discriminate; eauto.
Qed.

Lemma read_launched_eq v gfn content :
  frame_of v (nv_vvmcx (nvcpu v)) = Some (gfn, content) ->
  read_launched v = Returns (u32 (__get_vvmcs content NVMX_LAUNCH_STATE)) v.
Proof.
  intros Hf. unfold read_launched, get_vvmcs, load_page, bind, get_vcpu, ret.
  by rewrite Hf.
Qed.

Lemma read_launched_null v :
  frame_of v (nv_vvmcx (nvcpu v)) = None -> read_launched v = HostFault.
Proof.
  intros Hf. unfold read_launched, get_vvmcs, load_page, bind, get_vcpu, ret.
  by rewrite Hf.
Qed.

(** nvmx_vmresume when the gate passes: the entry becomes pending, or
    VMfailInvalid is written; the return code is X86EMUL_OKAY either way. *)
Lemma nvmx_vmresume_pending v gfn content :
  gate_passes v = true ->
  nv_vvmcxaddr (nvcpu v) <> VMCX_EADDR ->
  frame_of v (nv_vvmcx (nvcpu v)) = Some (gfn, content) ->
  io_bitmaps_as_required v content = true ->
  nvmx_vmresume v
  = Returns X86EMUL_OKAY (with_nvcpu (set_nv_vmentry_pending true) v).
Proof.
  intros Hg Ha Hf Hreq. apply gate_passes_iff in Hg.
  unfold nvmx_vmresume, bind. rewrite Hg. cbn [is_okay negb].
  unfold get_vcpu, iobitmap. cbv beta iota.
  change (0 =? 0) with true. change (1 =? 0) with false. cbv iota.
  destruct (Z.eqb_spec (nv_vvmcxaddr (nvcpu v)) VMCX_EADDR); [done|].
  cbn [negb]. unfold io_bitmaps_as_required in Hreq.
  destruct (not_null (iobitmap0 (nvmx v)) && not_null (iobitmap1 (nvmx v))).
  - reflexivity.
  - rewrite orb_false_r in Hreq. unfold bind.
    rewrite (n2_exec_control_eq v gfn content Hf). unfold ret.
    cbv beta iota. by rewrite Hreq.
Qed.

Lemma nvmx_vmresume_fail_invalid v gfn content :
  gate_passes v = true ->
  nv_vvmcxaddr (nvcpu v) <> VMCX_EADDR ->
  not_null (iobitmap0 (nvmx v)) && not_null (iobitmap1 (nvmx v)) = false ->
  frame_of v (nv_vvmcx (nvcpu v)) = Some (gfn, content) ->
  Z.land (l1_ctl content) CPU_BASED_ACTIVATE_IO_BITMAP <> 0 ->
  nvmx_vmresume v = Returns X86EMUL_OKAY (with_status VMFAIL_INVALID v).
Proof.
  intros Hg Ha Hb Hf Hctl. apply gate_passes_iff in Hg.
  unfold nvmx_vmresume, bind. rewrite Hg. simpl.
  unfold get_vcpu, iobitmap. simpl.
  destruct (Z.eqb_spec (nv_vvmcxaddr (nvcpu v)) VMCX_EADDR); [done|].
  simpl. rewrite Hb. unfold bind.
  rewrite (n2_exec_control_eq v gfn content Hf). simpl.
  apply nonzero_true in Hctl. rewrite Hctl. reflexivity.
Qed.

Lemma set_vvmcs_eq v p gfn content enc val :
  frame_of v p = Some (gfn, content) ->
  set_vvmcs p enc val v
  = Returns tt (with_env (fun e =>
      set_guest_frames
        (<[gfn := __set_vvmcs content enc val]> (guest_frames e)) e) v).
Proof.
  intros Hf. unfold set_vvmcs, load_page, store_page, bind.
  by rewrite Hf, Hf.
Qed.

Lemma frame_of_after_store v p gfn content new :
  frame_of v p = Some (gfn, content) ->
  frame_of (with_env (fun e =>
              set_guest_frames (<[gfn := new]> (guest_frames e)) e) v) p
  = Some (gfn, new).
Proof.
  unfold frame_of. destruct p as [a|]; [|done]. simpl.
  destruct (mappings (env v) !! a) as [g|]; [|done].
  destruct (guest_frames (env v) !! g); [|done].
  intros [= -> _]. by rewrite lookup_insert_eq.
Qed.

Lemma land_ones_small val k :
  0 <= k -> 0 <= val < 2 ^ k -> Z.land val (Z.ones k) = val.
Proof. intros Hk Hv. rewrite Z.land_ones by done. by apply Z.mod_small. Qed.

(** A small value written to LAUNCH_STATE reads back as written, whatever
    the width of the field. *)
Lemma get_set_launch_state content val :
  length content = 512%nat -> 0 <= val < 2 ^ 16 ->
  __get_vvmcs (__set_vvmcs content NVMX_LAUNCH_STATE val) NVMX_LAUNCH_STATE
  = val.
Proof.
  intros Hlen Hval.
  pose proof (enc_offset_range NVMX_LAUNCH_STATE) as Ho.
  assert (H16 : Z.land val 0xffff = val)
    by (apply (land_ones_small val 16); lia).
  assert (H32 : Z.land val 0xffffffff = val)
    by (apply (land_ones_small val 32); lia).
  unfold __get_vvmcs, __set_vvmcs.
  rewrite content_get_set by lia.
  destruct (enc_width NVMX_LAUNCH_STATE =? VVMCS_WIDTH_16).
  { by rewrite land_mask_idem. }
  destruct (enc_width NVMX_LAUNCH_STATE =? VVMCS_WIDTH_64).
  { destruct (nonzero (enc_access_type NVMX_LAUNCH_STATE)); [|done].
    by rewrite high_half_roundtrip. }
  destruct (enc_width NVMX_LAUNCH_STATE =? VVMCS_WIDTH_32).
  { by rewrite land_mask_idem. }
  done.
Qed.
End Blocks.

(** ** VMLAUNCH and VMRESUME *)

Lemma handle_vmresume_not_launched {hdr : Headers} v gfn content :
  frame_of v (nv_vvmcx (nvcpu v)) = Some (gfn, content) ->
  u32 (__get_vvmcs content NVMX_LAUNCH_STATE) = 0 ->
  nvmx_handle_vmresume v
  = Returns X86EMUL_EXCEPTION (with_status VMFAIL_VALID v).
Proof.
  intros Hf H0. unfold nvmx_handle_vmresume, bind.
  rewrite (read_launched_eq v gfn content Hf), H0. reflexivity.
Qed.

Lemma handle_vmlaunch_launched {hdr : Headers} v gfn content :
  frame_of v (nv_vvmcx (nvcpu v)) = Some (gfn, content) ->
  u32 (__get_vvmcs content NVMX_LAUNCH_STATE) <> 0 ->
  nvmx_handle_vmlaunch v
  = Returns X86EMUL_EXCEPTION (with_status VMFAIL_VALID v).
Proof.
  intros Hf H0. unfold nvmx_handle_vmlaunch, bind.
  rewrite (read_launched_eq v gfn content Hf).
  apply nonzero_true in H0. rewrite H0. reflexivity.
Qed.

Lemma handle_vmlaunch_enters {hdr : Headers} v gfn content :
  frame_of v (nv_vvmcx (nvcpu v)) = Some (gfn, content) ->
  u32 (__get_vvmcs content NVMX_LAUNCH_STATE) = 0 ->
  gate_passes v = true ->
  nv_vvmcxaddr (nvcpu v) <> VMCX_EADDR ->
  io_bitmaps_as_required v content = true ->
  nvmx_handle_vmlaunch v = Returns X86EMUL_OKAY (launched_state v gfn content).
Proof.
  intros Hf H0 Hg Ha Hreq. unfold nvmx_handle_vmlaunch, bind.
  rewrite (read_launched_eq v gfn content Hf), H0.
  change (nonzero 0) with false. cbv beta iota.
  rewrite (nvmx_vmresume_pending v gfn content Hg Ha Hf Hreq).
  cbn [is_okay]. unfold get_vcpu. cbv beta iota.
  rewrite (set_vvmcs_eq _ _ gfn content) by exact Hf.
  reflexivity.
Qed.

Lemma handle_vmresume_enters {hdr : Headers} v gfn content :
  frame_of v (nv_vvmcx (nvcpu v)) = Some (gfn, content) ->
  u32 (__get_vvmcs content NVMX_LAUNCH_STATE) <> 0 ->
  gate_passes v = true ->
  nv_vvmcxaddr (nvcpu v) <> VMCX_EADDR ->
  io_bitmaps_as_required v content = true ->
  nvmx_handle_vmresume v
  = Returns X86EMUL_OKAY (with_nvcpu (set_nv_vmentry_pending true) v).
Proof.
  intros Hf H0 Hg Ha Hreq. unfold nvmx_handle_vmresume, bind.
  rewrite (read_launched_eq v gfn content Hf).
  apply nonzero_true in H0. rewrite H0. cbn [negb].
  apply (nvmx_vmresume_pending v gfn content Hg Ha Hf Hreq).
Qed.

Lemma content_get_set_other (content : page) o1 o2 res :
  0 <= o1 -> 0 <= o2 -> o1 <> o2 ->
  content_get (content_set content o1 res) o2 = content_get content o2.
Proof.
  intros H1 H2 Hne. unfold content_get, content_set.
  rewrite list_lookup_insert_ne; [done | lia].
Qed.

(** A write to LAUNCH_STATE leaves L1's execution controls as they are
    when the two fields have slots of their own. *)
Lemma l1_ctl_after_launch_state {hdr : Headers} (content : page) (val : Z) :
  enc_offset NVMX_LAUNCH_STATE <> enc_offset CPU_BASED_VM_EXEC_CONTROL ->
  l1_ctl (__set_vvmcs content NVMX_LAUNCH_STATE val) = l1_ctl content.
Proof.
  intros Hne.
  pose proof (enc_offset_range NVMX_LAUNCH_STATE).
  pose proof (enc_offset_range CPU_BASED_VM_EXEC_CONTROL).
  unfold l1_ctl. f_equal.
  unfold __get_vvmcs at 1. unfold __set_vvmcs.
  rewrite content_get_set_other by lia. reflexivity.
Qed.

(** C3, as the code has it.  From a state where a VVMCS is loaded with
    LAUNCH_STATE = 0, the gate passes and the required I/O bitmaps are
    mapped (LAUNCH_STATE and the execution controls being two slots):
    VMRESUME writes VMfailValid (ZF set); then VMLAUNCH returns
    X86EMUL_OKAY, makes the entry pending and sets LAUNCH_STATE to 1, and
    writes no status (EFLAGS stay as the failed VMRESUME left them).
    After the L2 exit, whatever vm_entry_pending then holds, a second
    VMLAUNCH writes VMfailValid and leaves the flag alone; then VMRESUME
    returns X86EMUL_OKAY and sets vm_entry_pending, again without writing
    a status.  With the flag left set, the last two steps follow the
    VMLAUNCH directly. *)
Theorem launch_resume_sequence {hdr : Headers} (v : vcpu) (gfn : Z)
    (content : page) :
  enc_offset NVMX_LAUNCH_STATE <> enc_offset CPU_BASED_VM_EXEC_CONTROL ->
  freshly_loaded v gfn content ->
  exists rc1 v1 v2,
    nvmx_handle_vmresume v = Returns rc1 v1
    /\ reports VMFAIL_VALID v1
    /\ nvmx_handle_vmlaunch v1 = Returns X86EMUL_OKAY v2
    /\ eflags (regs v2) = eflags (regs v1)
    /\ nv_vmentry_pending (nvcpu v2) = true
    /\ launch_state v2 = Some 1
    /\ after_l2_exit true v2 = v2
    /\ forall pending, exists rc3 v3 v4,
         nvmx_handle_vmlaunch (after_l2_exit pending v2) = Returns rc3 v3
         /\ reports VMFAIL_VALID v3
         /\ nv_vmentry_pending (nvcpu v3) = pending
         /\ launch_state v3 = Some 1
         /\ nvmx_handle_vmresume v3 = Returns X86EMUL_OKAY v4
         /\ eflags (regs v4) = eflags (regs v3)
         /\ nv_vmentry_pending (nvcpu v4) = true.
Proof.
  intros Hslot (Hf & Hlen & Hls & Ha & Hg & Hreq).
  set (v1 := with_status VMFAIL_VALID v).
  set (v2 := launched_state v1 gfn content).
  set (content' := __set_vvmcs content NVMX_LAUNCH_STATE 1).
  assert (Hone : __get_vvmcs content' NVMX_LAUNCH_STATE = 1)
    by (apply get_set_launch_state; [done | lia]).
  assert (Hf2 : frame_of v2 (nv_vvmcx (nvcpu v2)) = Some (gfn, content')).
  { apply (frame_of_after_store
             (with_nvcpu (set_nv_vmentry_pending true) v1)
             (nv_vvmcx (nvcpu v)) gfn content). exact Hf. }
  assert (Hg1 : gate_passes v1 = true)
    by (subst v1; by rewrite gate_passes_with_status).
  assert (Hreq' : forall w, nvmx w = nvmx v ->
                            io_bitmaps_as_required w content' = true).
  { intros w Hw. unfold io_bitmaps_as_required in *.
    subst content'. by rewrite l1_ctl_after_launch_state, Hw. }
  exists X86EMUL_EXCEPTION, v1, v2.
  split; [apply (handle_vmresume_not_launched v gfn content Hf);
          by rewrite Hls|].
  split; [apply reports_with_status|].
  split; [apply (handle_vmlaunch_enters v1 gfn content); try done;
          by rewrite Hls|].
  split; [reflexivity|]. split; [reflexivity|].
  split; [unfold launch_state; by rewrite Hf2, Hone|].
  split; [reflexivity|].
  intros pending.
  set (v3 := with_status VMFAIL_VALID (after_l2_exit pending v2)).
  assert (Hf3 : frame_of v3 (nv_vvmcx (nvcpu v3)) = Some (gfn, content'))
    by exact Hf2.
  exists X86EMUL_EXCEPTION, v3, (with_nvcpu (set_nv_vmentry_pending true) v3).
  split; [apply (handle_vmlaunch_launched _ gfn content'); [exact Hf2|];
          by rewrite Hone|].
  split; [apply reports_with_status|].
  split; [reflexivity|].
  split; [unfold launch_state; by rewrite Hf3, Hone|].
  split; [|split; reflexivity].
  apply (handle_vmresume_enters v3 gfn content' Hf3).
  - by rewrite Hone.
  - subst v3. rewrite gate_passes_with_status. exact Hg1.
  - exact Ha.
  - by apply Hreq'.
Qed.

Lemma sample_freshly_loaded :
  freshly_loaded (hdr := Arch.intel) Sample.after_vmptrld 0x12345
    (Sample.vvmcs_page 0).
Proof.
  unfold freshly_loaded. repeat split; try (vm_compute; reflexivity).
  vm_compute. discriminate.
Defined.

Lemma launch_resume_sequence_witness :
  freshly_loaded (hdr := Arch.intel) Sample.after_vmptrld 0x12345
    (Sample.vvmcs_page 0)
  /\ (exists rc1 v1 v2,
        nvmx_handle_vmresume (hdr := Arch.intel) Sample.after_vmptrld
          = Returns rc1 v1
        /\ reports (hdr := Arch.intel) VMFAIL_VALID v1
        /\ nvmx_handle_vmlaunch (hdr := Arch.intel) v1
           = Returns X86EMUL_OKAY v2
        /\ eflags (regs v2) = eflags (regs v1)
        /\ nv_vmentry_pending (nvcpu v2) = true
        /\ launch_state (hdr := Arch.intel) v2 = Some 1
        /\ after_l2_exit true v2 = v2
        /\ forall pending, exists rc3 v3 v4,
             nvmx_handle_vmlaunch (hdr := Arch.intel)
               (after_l2_exit pending v2) = Returns rc3 v3
             /\ reports (hdr := Arch.intel) VMFAIL_VALID v3
             /\ nv_vmentry_pending (nvcpu v3) = pending
             /\ launch_state (hdr := Arch.intel) v3 = Some 1
             /\ nvmx_handle_vmresume (hdr := Arch.intel) v3
                = Returns X86EMUL_OKAY v4
             /\ eflags (regs v4) = eflags (regs v3)
             /\ nv_vmentry_pending (nvcpu v4) = true)
  /\ iobitmap0 (nvmx Scenario.bitmap_a_unmapped) = NULL
  /\ exists rc1 v1 v2,
      nvmx_handle_vmresume (hdr := Arch.intel) Scenario.bitmap_a_unmapped
        = Returns rc1 v1
      /\ nvmx_handle_vmlaunch (hdr := Arch.intel) v1 = Returns X86EMUL_OKAY v2
      /\ nv_vmentry_pending (nvcpu v2) = true.
Proof.
  split; [exact sample_freshly_loaded|].
  split.
  { apply (launch_resume_sequence (hdr := Arch.intel) Sample.after_vmptrld
             0x12345 (Sample.vvmcs_page 0));
      [vm_compute; discriminate | exact sample_freshly_loaded]. }
  split; [reflexivity|].
  destruct (launch_resume_sequence (hdr := Arch.intel)
              Scenario.bitmap_a_unmapped 0x12345
              (__set_vvmcs (hdr := Arch.intel) (Sample.vvmcs_page 0)
                 0x2000 0x50000))
    as (rc1 & v1 & v2 & H1 & _ & H2 & _ & Hp & _).
  - vm_compute. discriminate.
  - unfold freshly_loaded. repeat split; try (vm_compute; reflexivity).
    vm_compute. discriminate.
  - exists rc1, v1, v2. split; [exact H1|]. split; [exact H2|]. exact Hp.
Defined.

(** C3 fails as stated: on the sample machine, right after VMPTRLD, the
    VMLAUNCH that follows the failed VMRESUME leaves ZF set, so the flags
    do not show VMsucceed. *)
Lemma launch_resume_not_as_specified :
  freshly_loaded (hdr := Arch.intel) Sample.after_vmptrld 0x12345
    (Sample.vvmcs_page 0)
  /\ ~ launch_resume_as_specified (hdr := Arch.intel) Sample.after_vmptrld.
Proof.
  split; [exact sample_freshly_loaded|].
  intros (rc1 & v1 & rc2 & v2 & rc3 & v3 & rc4 & v4 & H1 & _ & H2 & Hok & _).
  assert (E : flags_after_resume_launch Sample.after_vmptrld = Some 0x40)
    by (vm_compute; reflexivity).
  unfold flags_after_resume_launch in E. rewrite H1, H2 in E.
  unfold reports in Hok. rewrite Hok in E. discriminate.
Qed.

(** ** Handlers without a current VVMCS *)

(** A decode that returns X86EMUL_OKAY has not changed the state. *)
Lemma decode_okay_state {hdr : Headers} poperandS chk v decode operand v' :
  decode_vmx_inst poperandS chk v = Returns (X86EMUL_OKAY, decode, operand) v' ->
  v' = v.
Proof.
  unfold decode_vmx_inst, bind.
  rewrite vmx_inst_check_privilege_eq.
  destruct (negb (vmx_test chk v && mode_test v)); simpl; [discriminate|].
  destruct (negb (cpl_test v)); simpl; [discriminate|].
  unfold __vmread, bind, get_vcpu, ret. simpl.
  destruct (memreg _); [congruence|].
  destruct (_ >? 5); simpl; [discriminate|].
  match goal with |- context [if ?b then _ else _] => destruct b end;
    simpl; [discriminate|].
  destruct poperandS as [old|]; [|congruence].
  unfold hvm_copy_from_guest_virt, bind, get_vcpu.
  destruct (copy_from_guest _ _ _); simpl; [|discriminate].
  destruct (_ >? 8); simpl; [discriminate|congruence].
Qed.

(** C1 fails on the code.  With nv_vvmcx NULL (the state
    nvmx_vcpu_initialise and VMXON leave), VMRESUME and VMLAUNCH
    dereference the NULL pointer before any check, and VMREAD and VMWRITE
    do so as soon as the decoder accepts the instruction: none of the four
    ends by a fault injected into the guest, a status or success. *)
Theorem no_current_vvmcs_host_fault {hdr : Headers} (v : vcpu) :
  nv_vvmcx (nvcpu v) = NULL ->
  nvmx_handle_vmresume v = HostFault
  /\ nvmx_handle_vmlaunch v = HostFault
  /\ (forall decode operand v',
        decode_vmx_inst None false v
          = Returns (X86EMUL_OKAY, Some decode, operand) v' ->
        nvmx_handle_vmread v = HostFault)
  /\ (forall uninit decode operand v',
        decode_vmx_inst (Some uninit) false v
          = Returns (X86EMUL_OKAY, Some decode, Some operand) v' ->
        nvmx_handle_vmwrite uninit v = HostFault).
Proof.
  intros Hnull.
  assert (Hf : frame_of v (nv_vvmcx (nvcpu v)) = None) by (by rewrite Hnull).
  repeat split.
  - unfold nvmx_handle_vmresume, bind. by rewrite read_launched_null.
  - unfold nvmx_handle_vmlaunch, bind. by rewrite read_launched_null.
  - intros decode operand v' Hdec.
    pose proof (decode_okay_state _ _ _ _ _ _ Hdec) as ->.
    unfold nvmx_handle_vmread, bind. rewrite Hdec. simpl.
    unfold get_vvmcs, load_page, bind. by rewrite Hf.
  - intros uninit decode operand v' Hdec.
    pose proof (decode_okay_state _ _ _ _ _ _ Hdec) as ->.
    unfold nvmx_handle_vmwrite, bind. rewrite Hdec. simpl.
    unfold set_vvmcs, load_page, bind. by rewrite Hf.
Qed.

Lemma no_current_vvmcs_host_fault_witness :
  nv_vvmcx (nvcpu Sample.vmread_exit) = NULL
  /\ vmxon_region_pa (nvmx Sample.vmread_exit) = 0x1000
  /\ gate_passes (hdr := Arch.intel) Sample.vmread_exit = true
  /\ nvmx_handle_vmresume (hdr := Arch.intel) Sample.vmread_exit = HostFault
  /\ nvmx_handle_vmlaunch (hdr := Arch.intel) Sample.vmread_exit = HostFault
  /\ nvmx_handle_vmread (hdr := Arch.intel) Sample.vmread_exit = HostFault
  /\ nvmx_handle_vmwrite (hdr := Arch.intel) 0 Sample.vmread_exit = HostFault.
Proof.
  split; [reflexivity|]. split; [reflexivity|]. split; [reflexivity|].
  destruct (no_current_vvmcs_host_fault (hdr := Arch.intel)
              Sample.vmread_exit eq_refl) as (H1 & H2 & H3 & H4).
  split; [exact H1|]. split; [exact H2|]. split.
  - apply (H3 (VMX_INST_MEMREG_TYPE_REG VMX_REG_RAX VMX_REG_RCX) None
              Sample.vmread_exit).
    vm_compute. reflexivity.
  - apply (H4 0 (VMX_INST_MEMREG_TYPE_REG VMX_REG_RAX VMX_REG_RCX) 0x1234
              Sample.vmread_exit).
    vm_compute. reflexivity.
Defined.

(** ** The purge path and the invariant *)

Lemma purge_iobitmap_nvcpu {hdr : Headers} i v :
  exists v', purge_iobitmap i v = Returns tt v' /\ nvcpu v' = nvcpu v.
Proof.
  unfold purge_iobitmap, bind, get_vcpu.
  destruct (not_null (iobitmap (nvmx v) i)); [|by eexists].
  destruct (iobitmap (nvmx v) i); simpl; by eexists.
Qed.

(** C2 fails on the code.  nvmx_purge_vvmcs always returns, sets
    nv_vvmcxaddr to VMCX_EADDR and leaves nv_vvmcx as it was (the
    statement [nvcpu->nv_vvmcx == NULL;] compares instead of assigning): a
    state with a current VVMCS is left with a stale pointer next to the
    sentinel address, which breaks the invariant. *)
Theorem purge_keeps_stale_pointer {hdr : Headers} (v : vcpu) :
  not_null (nv_vvmcx (nvcpu v)) = true ->
  exists v',
    nvmx_purge_vvmcs v = Returns tt v'
    /\ nv_vvmcx (nvcpu v') = nv_vvmcx (nvcpu v)
    /\ nv_vvmcxaddr (nvcpu v') = VMCX_EADDR
    /\ ~ vvmcs_invariant v'.
Proof.
  intros Hp.
  assert (Hgen : exists v',
    nvmx_purge_vvmcs v = Returns tt v'
    /\ nv_vvmcx (nvcpu v') = nv_vvmcx (nvcpu v)
    /\ nv_vvmcxaddr (nvcpu v') = VMCX_EADDR).
  { assert (Hclear : __clear_current_vvmcs v = Returns tt v).
    { unfold __clear_current_vvmcs, __vmpclear, bind, get_vcpu, ret.
      by destruct (nv_n2vmcx (nvcpu v)). }
    assert (Hunmap : exists w,
      (if negb (nv_vvmcxaddr (nvcpu v) =? VMCX_EADDR)
       then hvm_unmap_guest_frame (nv_vvmcx (nvcpu v))
       else ret tt) v = Returns tt w
      /\ nvcpu w = nvcpu v).
    { destruct (negb _); [|by exists v].
      unfold hvm_unmap_guest_frame.
      destruct (nv_vvmcx (nvcpu v)) as [a|]; [|discriminate Hp].
      eexists. split; reflexivity. }
    destruct Hunmap as (w & Hunmap & Hw).
    destruct (purge_iobitmap_nvcpu 0
                (with_nvcpu (set_nv_vvmcxaddr VMCX_EADDR) w)) as (w1 & Hp0 & H1).
    destruct (purge_iobitmap_nvcpu 1 w1) as (w2 & Hp1 & H2).
    exists w2. split.
    - unfold nvmx_purge_vvmcs, bind. rewrite Hclear.
      unfold get_vcpu. cbv beta iota. rewrite Hunmap.
      unfold modify. cbv beta iota. by rewrite Hp0.
    - rewrite H2, H1. simpl. by rewrite Hw. }
  destruct Hgen as (v' & Hrun & Hptr & Haddr).
  exists v'. repeat split; try done.
  unfold vvmcs_invariant. rewrite Hptr, Hp, Haddr, Z.eqb_refl. discriminate.
Qed.

Lemma purge_keeps_stale_pointer_witness :
  vvmcs_invariant (hdr := Arch.intel) Sample.after_vmptrld
  /\ not_null (nv_vvmcx (nvcpu Sample.after_vmptrld)) = true
  /\ exists v',
      nvmx_purge_vvmcs (hdr := Arch.intel) Sample.after_vmptrld = Returns tt v'
      /\ nv_vvmcx (nvcpu v') = Some 0x7000
      /\ nv_vvmcxaddr (nvcpu v') = 2 ^ 64 - 1
      /\ ~ vvmcs_invariant (hdr := Arch.intel) v'.
Proof.
  split; [reflexivity|]. split; [reflexivity|].
  exact (purge_keeps_stale_pointer (hdr := Arch.intel) Sample.after_vmptrld
           eq_refl).
Defined.

(** The same through the instruction handlers: initialise, VMXON,
    VMPTRLD, VMXOFF.  The invariant holds up to the VMXOFF and fails
    after it; the pointer kept is no longer a mapping. *)
Lemma vmxoff_breaks_invariant :
  vvmcs_invariant (hdr := Arch.intel) Sample.after_vmxon
  /\ vvmcs_invariant (hdr := Arch.intel) Sample.after_vmptrld
  /\ match nvmx_handle_vmxoff (hdr := Arch.intel) Sample.after_vmptrld with
     | Returns rc v' =>
         rc = X86EMUL_OKAY
         /\ nv_vvmcx (nvcpu v') = Some 0x7000
         /\ nv_vvmcxaddr (nvcpu v') = VMCX_EADDR (Headers := Arch.intel)
         /\ frame_of v' (nv_vvmcx (nvcpu v')) = None
     | HostFault => False
     end.
Proof. vm_compute. repeat split; reflexivity. Qed.

(** ** VMLAUNCH on the VMfailInvalid path *)

(** C4 fails on the code.  When nvmx_vmresume takes its VMfailInvalid
    branch (I/O-bitmap exiting requested, a bitmap not mapped) it still
    returns X86EMUL_OKAY, so nvmx_handle_vmlaunch goes on to write
    LAUNCH_STATE = 1: the handler reports VMfailInvalid and leaves the
    entry not pending, but LAUNCH_STATE does not stay 0. *)
Theorem vmlaunch_fail_invalid_sets_launch_state {hdr : Headers} (v : vcpu)
    (gfn : Z) (content : page) :
  frame_of v (nv_vvmcx (nvcpu v)) = Some (gfn, content) ->
  length content = 512%nat ->
  __get_vvmcs content NVMX_LAUNCH_STATE = 0 ->
  gate_passes v = true ->
  nv_vvmcxaddr (nvcpu v) <> VMCX_EADDR ->
  not_null (iobitmap0 (nvmx v)) && not_null (iobitmap1 (nvmx v)) = false ->
  Z.land (l1_ctl content) CPU_BASED_ACTIVATE_IO_BITMAP <> 0 ->
  exists v',
    nvmx_handle_vmlaunch v = Returns X86EMUL_OKAY v'
    /\ reports VMFAIL_INVALID v'
    /\ nv_vmentry_pending (nvcpu v') = nv_vmentry_pending (nvcpu v)
    /\ launch_state v = Some 0
    /\ launch_state v' = Some 1.
Proof.
  intros Hf Hlen Hls Hg Ha Hb Hctl.
  set (v1 := with_status VMFAIL_INVALID v).
  exists (with_env (fun e =>
            set_guest_frames
              (<[gfn := __set_vvmcs content NVMX_LAUNCH_STATE 1]>
                 (guest_frames e)) e) v1).
  repeat split.
  - unfold nvmx_handle_vmlaunch, bind.
    rewrite (read_launched_eq v gfn content Hf), Hls.
    change (nonzero (u32 0)) with false. cbv beta iota.
    rewrite (nvmx_vmresume_fail_invalid v gfn content Hg Ha Hb Hf Hctl).
    cbn [is_okay]. unfold get_vcpu. cbv beta iota.
    rewrite (set_vvmcs_eq _ _ gfn content) by exact Hf.
    reflexivity.
  - apply (reports_with_status VMFAIL_INVALID v).
  - unfold launch_state. by rewrite Hf, Hls.
  - unfold launch_state.
    rewrite (frame_of_after_store v1 (nv_vvmcx (nvcpu v)) gfn content)
      by exact Hf.
    rewrite get_set_launch_state by (done || lia). done.
Qed.

Lemma vmlaunch_fail_invalid_sets_launch_state_witness :
  gate_passes (hdr := Arch.intel) Sample.after_vmptrld_no_bitmaps = true
  /\ iobitmap0 (nvmx Sample.after_vmptrld_no_bitmaps) = NULL
  /\ exists v',
      nvmx_handle_vmlaunch (hdr := Arch.intel) Sample.after_vmptrld_no_bitmaps
        = Returns X86EMUL_OKAY v'
      /\ reports (hdr := Arch.intel) VMFAIL_INVALID v'
      /\ nv_vmentry_pending (nvcpu v') = false
      /\ launch_state (hdr := Arch.intel) Sample.after_vmptrld_no_bitmaps
         = Some 0
      /\ launch_state (hdr := Arch.intel) v' = Some 1.
Proof.
  split; [reflexivity|]. split; [reflexivity|].
  apply (vmlaunch_fail_invalid_sets_launch_state (hdr := Arch.intel)
           Sample.after_vmptrld_no_bitmaps 0x12346
           Sample.vvmcs_page_no_bitmaps);
    try (vm_compute; reflexivity); vm_compute; discriminate.
Defined.

(** ** The order of the privilege check *)

(** C5 fails on the code for VMRESUME and VMLAUNCH.  Both read
    LAUNCH_STATE from the VVMCS first; when that read decides the outcome
    (VMRESUME of a VVMCS that is not launched, VMLAUNCH of one that is)
    the handler writes VMfailValid to EFLAGS and returns
    X86EMUL_EXCEPTION although the gate would reject: nothing is
    injected. *)
Theorem launch_state_read_before_gate {hdr : Headers} (v : vcpu) (gfn : Z)
    (content : page) :
  gate_passes v = false ->
  frame_of v (nv_vvmcx (nvcpu v)) = Some (gfn, content) ->
  (exists trap,
     vmx_inst_check_privilege false v
     = Returns X86EMUL_EXCEPTION (inject trap v))
  /\ (u32 (__get_vvmcs content NVMX_LAUNCH_STATE) = 0 ->
   exists v',
     nvmx_handle_vmresume v = Returns X86EMUL_EXCEPTION v'
     /\ injected (env v') = injected (env v)
     /\ reports VMFAIL_VALID v')
  /\ (u32 (__get_vvmcs content NVMX_LAUNCH_STATE) <> 0 ->
      exists v',
        nvmx_handle_vmlaunch v = Returns X86EMUL_EXCEPTION v'
        /\ injected (env v') = injected (env v)
        /\ reports VMFAIL_VALID v').
Proof.
  intros Hg Hf. split; [by apply gate_rejects|].
  split; intros Hls; exists (with_status VMFAIL_VALID v).
  - split; [by apply (handle_vmresume_not_launched v gfn content)|].
    split; [reflexivity | apply reports_with_status].
  - split; [by apply (handle_vmlaunch_launched v gfn content)|].
    split; [reflexivity | apply reports_with_status].
Qed.

Lemma launch_state_read_before_gate_witness :
  gate_passes (hdr := Arch.intel) Sample.user_mode_loaded = false
  /\ vmx_inst_check_privilege (hdr := Arch.intel) false Sample.user_mode_loaded
     = Returns X86EMUL_EXCEPTION (inject 13 Sample.user_mode_loaded)
  /\ exists v',
      nvmx_handle_vmresume (hdr := Arch.intel) Sample.user_mode_loaded
        = Returns X86EMUL_EXCEPTION v'
      /\ injected (env v') = []
      /\ reports (hdr := Arch.intel) VMFAIL_VALID v'.
Proof.
  split; [reflexivity|]. split; [vm_compute; reflexivity|].
  destruct (launch_state_read_before_gate (hdr := Arch.intel)
              Sample.user_mode_loaded 0x12345 (Sample.vvmcs_page 0)
              eq_refl ltac:(vm_compute; reflexivity)) as (_ & H & _).
  exact (H eq_refl).
Defined.

(** The seven other handlers do start with the gate: when it rejects,
    each returns what the gate returned, in the state the gate left. *)
Lemma gate_first_in_other_handlers {hdr : Headers} (v v' : vcpu) :
  (vmx_inst_check_privilege true v = Returns X86EMUL_EXCEPTION v' ->
   nvmx_handle_vmxon v = Returns X86EMUL_EXCEPTION v')
  /\ (vmx_inst_check_privilege false v = Returns X86EMUL_EXCEPTION v' ->
      nvmx_handle_vmxoff v = Returns X86EMUL_EXCEPTION v'
      /\ nvmx_handle_vmptrld v = Returns X86EMUL_EXCEPTION v'
      /\ nvmx_handle_vmptrst v = Returns X86EMUL_EXCEPTION v'
      /\ nvmx_handle_vmclear v = Returns X86EMUL_EXCEPTION v'
      /\ nvmx_handle_vmread v = Returns X86EMUL_EXCEPTION v'
      /\ forall uninit,
           nvmx_handle_vmwrite uninit v = Returns X86EMUL_EXCEPTION v').
Proof.
  split; intros H.
  - unfold nvmx_handle_vmxon, decode_vmx_inst, bind. by rewrite H.
  - unfold nvmx_handle_vmxoff, nvmx_handle_vmptrld, nvmx_handle_vmptrst,
      nvmx_handle_vmclear, nvmx_handle_vmread, nvmx_handle_vmwrite,
      decode_vmx_inst, bind.
    by rewrite H.
Qed.

(** ** VMXON and the alignment of its operand *)

(** C8 fails on the code.  nvmx_handle_vmxon records whatever address the
    decoder fetched and reports VMsucceed; the low twelve bits are never
    looked at. *)
Theorem vmxon_records_any_gpa {hdr : Headers} (v : vcpu)
    (decode : vmx_inst_decoded) (gpa : Z) :
  decode_vmx_inst (Some 0) true v
    = Returns (X86EMUL_OKAY, Some decode, Some gpa) v ->
  nv_n2vmcx (nvcpu v) <> None ->
  exists v',
    nvmx_handle_vmxon v = Returns X86EMUL_OKAY v'
    /\ vmxon_region_pa (nvmx v') = gpa
    /\ reports VMSUCCEED v'.
Proof.
  intros Hdec Hn2.
  unfold nvmx_handle_vmxon, bind. rewrite Hdec. simpl.
  destruct (nv_n2vmcx (nvcpu v)) as [shadow|] eqn:E; [|done].
  eexists. split; [reflexivity|]. split; [reflexivity|].
  unfold reports. simpl. rewrite eflags_set_eflags.
  apply land_lnot_same.
Qed.

Lemma vmxon_records_any_gpa_witness :
  Z.land 0x12345001 0xfff <> 0
  /\ exists v',
      nvmx_handle_vmxon (hdr := Arch.intel) Sample.vmxon_misaligned_exit
        = Returns X86EMUL_OKAY v'
      /\ vmxon_region_pa (nvmx v') = 0x12345001
      /\ reports (hdr := Arch.intel) VMSUCCEED v'.
Proof.
  split; [vm_compute; discriminate|].
  apply (vmxon_records_any_gpa (hdr := Arch.intel)
           Sample.vmxon_misaligned_exit
           (VMX_INST_MEMREG_TYPE_MEMORY 0x100040 8 VMX_REG_RAX) 0x12345001).
  - vm_compute. reflexivity.
  - vm_compute. discriminate.
Defined.

(** * Further properties of vvmx.c *)

(** ** Slots of the VVMCS page *)

Lemma vvmcs_offset_sum width type index :
  0 <= type < 4 -> 0 <= width < 4 -> 0 <= index < 32 ->
  vvmcs_offset width type index
  = if index + 32 * type + 128 * width =? 0 then 0x3f
    else index + 32 * type + 128 * width.
Proof.
  intros Ht Hw Hi.
  assert (T : type = 0 \/ type = 1 \/ type = 2 \/ type = 3) by lia.
  assert (W : width = 0 \/ width = 1 \/ width = 2 \/ width = 3) by lia.
  assert (I : (index = 0 \/ index = 1 \/ index = 2 \/ index = 3
               \/ index = 4 \/ index = 5 \/ index = 6 \/ index = 7)
              \/ (index = 8 \/ index = 9 \/ index = 10 \/ index = 11
                  \/ index = 12 \/ index = 13 \/ index = 14 \/ index = 15)
              \/ (index = 16 \/ index = 17 \/ index = 18 \/ index = 19
                  \/ index = 20 \/ index = 21 \/ index = 22 \/ index = 23)
              \/ (index = 24 \/ index = 25 \/ index = 26 \/ index = 27
                  \/ index = 28 \/ index = 29 \/ index = 30 \/ index = 31))
    by lia.
  clear Ht Hw Hi.
  destruct T as [->|[->|[->| ->]]]; destruct W as [->|[->|[->| ->]]];
    repeat (destruct I as [I|I]); subst index; reflexivity.
Qed.

(** X1.  Whatever the nine index bits of an encoding hold, the slot
    vvmcs_offset computes from a two-bit type and a two-bit width lies
    inside the 512-slot page and is never slot 0. *)
Theorem vvmcs_offset_in_page (width type index : Z) :
  0 <= type < 4 -> 0 <= width < 4 ->
  0 < vvmcs_offset width type index < 512.
Proof.
  intros Ht Hw.
  pose proof (vvmcs_offset_range width type index Ht Hw).
  pose proof (vvmcs_offset_nonzero width type index).
  lia.
Qed.

Lemma vvmcs_offset_in_page_witness :
  0 <= 3 < 4 /\ 0 <= 3 < 4 /\ 0 < vvmcs_offset 3 3 0x1ff < 512.
Proof.
  split; [lia|]. split; [lia|].
  apply (vvmcs_offset_in_page 3 3 0x1ff); lia.
Defined.

(** X2.  Two fields (width, type, five-bit index) share a slot only when
    they are the same field, or when one is the field that would sit on
    slot 0 and the other is width 0, type 1, index 31: the remapping to
    0x3f lands on that field's slot. *)
Theorem vvmcs_offset_collision (w t i w' t' i' : Z) :
  0 <= t < 4 -> 0 <= w < 4 -> 0 <= i < 32 ->
  0 <= t' < 4 -> 0 <= w' < 4 -> 0 <= i' < 32 ->
  vvmcs_offset w t i = vvmcs_offset w' t' i' ->
  (w = w' /\ t = t' /\ i = i')
  \/ (w = 0 /\ t = 0 /\ i = 0 /\ w' = 0 /\ t' = 1 /\ i' = 31)
  \/ (w = 0 /\ t = 1 /\ i = 31 /\ w' = 0 /\ t' = 0 /\ i' = 0).
Proof.
  intros Ht Hw Hi Ht' Hw' Hi'.
  rewrite (vvmcs_offset_sum w t i), (vvmcs_offset_sum w' t' i') by done.
  destruct (Z.eqb_spec (i + 32 * t + 128 * w) 0),
    (Z.eqb_spec (i' + 32 * t' + 128 * w') 0); lia.
Qed.

Lemma vvmcs_offset_collision_witness :
  vvmcs_offset 0 0 0 = vvmcs_offset 0 1 31
  /\ ((0 = 0 /\ 0 = 1 /\ 0 = 31)
      \/ (0 = 0 /\ 0 = 0 /\ 0 = 0 /\ 0 = 0 /\ 1 = 1 /\ 31 = 31)
      \/ (0 = 0 /\ 0 = 1 /\ 0 = 31 /\ 0 = 0 /\ 1 = 0 /\ 31 = 0)).
Proof.
  split; [reflexivity|].
  apply (vvmcs_offset_collision 0 0 0 0 1 31); try lia. reflexivity.
Defined.

(** ** The codec, field against field *)

Lemma length_content_set (content : page) offset res :
  length (content_set content offset res) = length content.
Proof. apply length_insert. Qed.

(** X3.  __set_vvmcs keeps the size of the page and changes one slot: a
    field on another slot reads as before. *)
Theorem set_vvmcs_other_field {hdr : Headers} (vvmcs : page) (e1 e2 v : Z) :
  enc_offset e1 <> enc_offset e2 ->
  length (__set_vvmcs vvmcs e1 v) = length vvmcs
  /\ __get_vvmcs (__set_vvmcs vvmcs e1 v) e2 = __get_vvmcs vvmcs e2.
Proof.
  intros Hne.
  pose proof (enc_offset_range e1). pose proof (enc_offset_range e2).
  split.
  - unfold __set_vvmcs, content_set. apply length_insert.
  - unfold __get_vvmcs at 1. unfold __set_vvmcs.
    rewrite content_get_set_other by lia. reflexivity.
Qed.

Lemma set_vvmcs_other_field_witness :
  enc_offset (hdr := Arch.intel) 0x6c20 <> enc_offset (hdr := Arch.intel) 0x4002
  /\ length (__set_vvmcs (hdr := Arch.intel) (Sample.vvmcs_page 0x84) 0x6c20 1)
     = 512%nat
  /\ __get_vvmcs (hdr := Arch.intel)
       (__set_vvmcs (hdr := Arch.intel) (Sample.vvmcs_page 0x84) 0x6c20 1)
       0x4002 = 0x84.
Proof.
  split; [vm_compute; discriminate|].
  apply (set_vvmcs_other_field (hdr := Arch.intel) (Sample.vvmcs_page 0x84)
           0x6c20 0x4002 1).
  vm_compute. discriminate.
Defined.

Lemma low_half_kept lo w :
  Z.land (Z.lor (Z.land lo 0xffffffff) (u64 (Z.shiftl w 32))) 0xffffffff
  = Z.land lo 0xffffffff.
Proof.
  unfold u64. apply Z.bits_inj'. intros n Hn.
  rewrite !Z.land_spec, Z.lor_spec, Z.land_spec.
  change 0xffffffff with (Z.ones 32).
  rewrite Z.testbit_ones_nonneg by lia.
  destruct (Z.ltb_spec n 32) as [Hlt|Hge].
  - rewrite Z.mod_pow2_bits_low by lia.
    rewrite Z.shiftl_spec by lia. rewrite (Z.testbit_neg_r w) by lia.
    by rewrite orb_false_r, !andb_true_r.
  - by rewrite !andb_false_r.
Qed.

(** X4.  For a 64-bit field, writing the low encoding (access_type 0) and
    then the high one (access_type 1) keeps the low 32 bits of the first
    value; the high encoding reads the low 32 bits of the second. *)
Theorem set_vvmcs_low_then_high {hdr : Headers} (vvmcs : page)
    (e_lo e_hi v w : Z) :
  length vvmcs = 512%nat ->
  enc_width e_lo = VVMCS_WIDTH_64 -> enc_width e_hi = VVMCS_WIDTH_64 ->
  enc_offset e_lo = enc_offset e_hi ->
  enc_access_type e_lo = 0 -> enc_access_type e_hi <> 0 ->
  let after := __set_vvmcs (__set_vvmcs vvmcs e_lo v) e_hi w in
  Z.land (__get_vvmcs after e_lo) 0xffffffff = Z.land v 0xffffffff
  /\ __get_vvmcs after e_hi = Z.land w 0xffffffff.
Proof.
  intros Hlen Wlo Whi Hoff Alo Ahi after. subst after.
  pose proof (enc_offset_range e_lo) as Ho.
  apply nonzero_true in Ahi.
  unfold __get_vvmcs, __set_vvmcs.
  rewrite Wlo, Whi, Alo, Ahi, <- Hoff.
  change (VVMCS_WIDTH_64 =? VVMCS_WIDTH_16) with false.
  change (VVMCS_WIDTH_64 =? VVMCS_WIDTH_64) with true.
  change (nonzero 0) with false. cbv iota.
  rewrite !content_get_set by (rewrite ?length_content_set; lia).
  split; [apply low_half_kept | apply high_half_roundtrip].
Qed.

Lemma set_vvmcs_low_then_high_witness :
  let after :=
    __set_vvmcs (hdr := Arch.intel)
      (__set_vvmcs (hdr := Arch.intel) Sample.zero_page 0x2000
         0x1122334455667788)
      0x2001 0xaabbccdd in
  __get_vvmcs (hdr := Arch.intel) after 0x2000 = 0xaabbccdd55667788
  /\ Z.land (__get_vvmcs (hdr := Arch.intel) after 0x2000) 0xffffffff
     = Z.land 0x1122334455667788 0xffffffff
  /\ __get_vvmcs (hdr := Arch.intel) after 0x2001
     = Z.land 0xaabbccdd 0xffffffff.
Proof.
  split; [reflexivity|].
  apply (set_vvmcs_low_then_high (hdr := Arch.intel) Sample.zero_page
           0x2000 0x2001 0x1122334455667788 0xaabbccdd);
    try reflexivity.
  discriminate.
Defined.

(** X5.  The low encoding of a 64-bit field is not a half write: it
    replaces the whole slot, so a high half written before it is lost and
    the high encoding then reads bits 32..63 of the low write. *)
Theorem set_vvmcs_high_then_low {hdr : Headers} (vvmcs : page)
    (e_lo e_hi v w : Z) :
  length vvmcs = 512%nat ->
  enc_width e_lo = VVMCS_WIDTH_64 -> enc_width e_hi = VVMCS_WIDTH_64 ->
  enc_offset e_lo = enc_offset e_hi ->
  enc_access_type e_lo = 0 -> enc_access_type e_hi <> 0 ->
  let after := __set_vvmcs (__set_vvmcs vvmcs e_hi w) e_lo v in
  __get_vvmcs after e_lo = v
  /\ __get_vvmcs after e_hi = Z.shiftr v 32.
Proof.
  intros Hlen Wlo Whi Hoff Alo Ahi after. subst after.
  pose proof (enc_offset_range e_lo) as Ho.
  apply nonzero_true in Ahi.
  unfold __get_vvmcs, __set_vvmcs.
  rewrite Wlo, Whi, Alo, Ahi, <- Hoff.
  change (VVMCS_WIDTH_64 =? VVMCS_WIDTH_16) with false.
  change (VVMCS_WIDTH_64 =? VVMCS_WIDTH_64) with true.
  change (nonzero 0) with false. cbv iota.
  rewrite !content_get_set by (rewrite ?length_content_set; lia).
  done.
Qed.

Lemma set_vvmcs_high_then_low_witness :
  let after :=
    __set_vvmcs (hdr := Arch.intel)
      (__set_vvmcs (hdr := Arch.intel) Sample.zero_page 0x2001 0xaabbccdd)
      0x2000 0x55667788 in
  __get_vvmcs (hdr := Arch.intel) after 0x2000 = 0x55667788
  /\ __get_vvmcs (hdr := Arch.intel) after 0x2001 = 0.
Proof.
  apply (set_vvmcs_high_then_low (hdr := Arch.intel) Sample.zero_page
           0x2000 0x2001 0x55667788 0xaabbccdd);
    try reflexivity.
  discriminate.
Defined.

(** ** The register file *)

(** X6.  reg_write changes the register it names and nothing else:
    reading it back gives the value, every other general register and
    EFLAGS read as before. *)
Theorem reg_write_frame (regs : cpu_user_regs) (i j : vmx_regs_enc)
    (value : Z) :
  reg_read (reg_write regs i value) i = value
  /\ (i <> j -> reg_read (reg_write regs i value) j = reg_read regs j)
  /\ eflags (reg_write regs i value) = eflags regs.
Proof.
  destruct regs. repeat split.
  - destruct i; reflexivity.
  - intros Hne. destruct i, j; try reflexivity; by destruct Hne.
  - destruct i; reflexivity.
Qed.

(** ** vmreturn *)

Lemma status_overwritten {hdr : Headers} (e : Z) (r1 r2 : vmx_ops_result) :
  Z.lor (Z.land (Z.lor (Z.land e (Z.lnot status_mask)) (status_flag r1))
                (Z.lnot status_mask)) (status_flag r2)
  = Z.lor (Z.land e (Z.lnot status_mask)) (status_flag r2).
Proof.
  pose proof (status_flag_in_mask r1) as Hsub.
  apply Z.bits_inj'. intros n Hn.
  assert (Hb : Z.testbit (status_flag r1) n && Z.testbit status_mask n
               = Z.testbit (status_flag r1) n)
    by (by rewrite <- Z.land_spec, Hsub).
  rewrite !Z.lor_spec, !Z.land_spec, Z.lor_spec, Z.land_spec, !Z.lnot_spec
    by done.
  destruct (Z.testbit e n), (Z.testbit (status_flag r1) n),
    (Z.testbit status_mask n), (Z.testbit (status_flag r2) n);
    simpl in *; congruence.
Qed.

Lemma other_flags_kept {hdr : Headers} (e : Z) (res : vmx_ops_result) :
  Z.land (Z.lor (Z.land e (Z.lnot status_mask)) (status_flag res))
         (Z.lnot status_mask)
  = Z.land e (Z.lnot status_mask).
Proof.
  pose proof (status_flag_in_mask res) as Hsub.
  apply Z.bits_inj'. intros n Hn.
  assert (Hb : Z.testbit (status_flag res) n && Z.testbit status_mask n
               = Z.testbit (status_flag res) n)
    by (by rewrite <- Z.land_spec, Hsub).
  rewrite !Z.land_spec, Z.lor_spec, Z.land_spec, !Z.lnot_spec by done.
  destruct (Z.testbit e n), (Z.testbit (status_flag res) n),
    (Z.testbit status_mask n); simpl in *; congruence.
Qed.

Lemma reg_read_set_eflags regs e r :
  reg_read (set_eflags regs e) r = reg_read regs r.
Proof. destruct regs, r; reflexivity. Qed.

(** X7.  vmreturn always returns; afterwards the six arithmetic flags
    show the status, every other bit of EFLAGS, every general register
    and the rest of the vCPU are as before; and a status written earlier
    leaves no trace: after two calls only the second status counts. *)
Theorem vmreturn_effect {hdr : Headers} (res : vmx_ops_result) (v : vcpu) :
  exists v',
    vmreturn res v = Returns tt v'
    /\ reports res v'
    /\ Z.land (eflags (regs v')) (Z.lnot status_mask)
       = Z.land (eflags (regs v)) (Z.lnot status_mask)
    /\ (forall r, reg_read (regs v') r = reg_read (regs v) r)
    /\ hvm v' = hvm v /\ nvcpu v' = nvcpu v /\ nvmx v' = nvmx v
    /\ env v' = env v
    /\ forall earlier,
         (run vmreturn earlier; vmreturn res) v = Returns tt v'.
Proof.
  exists (with_status res v). rewrite vmreturn_eq.
  split; [done|]. split; [apply reports_with_status|].
  unfold with_status, with_regs; simpl.
  split; [rewrite eflags_set_eflags; apply other_flags_kept|].
  split; [intros r; apply reg_read_set_eflags|].
  repeat (split; [reflexivity|]).
  intros earlier. unfold bind. rewrite !vmreturn_eq.
  unfold with_status, with_regs; simpl. do 2 f_equal.
  rewrite eflags_set_eflags.
  destruct (regs v); simpl. f_equal. apply status_overwritten.
Qed.

(** ** Shadowed controls *)

(** X8.  With a VVMCS loaded, set_shadow_control writes to the hardware
    field the union of the host's bits and of the low 32 bits of L1's
    value of the same field (a bit is set exactly when either side sets
    it) and leaves every other hardware field alone. *)
Theorem set_shadow_control_union {hdr : Headers} (field host_value : Z)
    (v : vcpu) (gfn : Z) (content : page) :
  frame_of v (nv_vvmcx (nvcpu v)) = Some (gfn, content) ->
  exists v' word,
    set_shadow_control field host_value v = Returns tt v'
    /\ hw v' field = Some word
    /\ (forall n, 0 <= n ->
          Z.testbit word n
          = (Z.testbit (__get_vvmcs content field) n && (n <? 32))
            || Z.testbit host_value n)
    /\ (forall other, other <> field -> hw v' other = hw v other).
Proof.
  intros Hf.
  exists (with_hvm (fun h =>
            set_vmcs (<[field := Z.lor (u32 (__get_vvmcs content field))
                                       host_value]> (vmcs h)) h) v).
  exists (Z.lor (u32 (__get_vvmcs content field)) host_value).
  split; [|split; [|split]].
  - unfold set_shadow_control, __shadow_control, get_vvmcs, load_page, bind,
      get_vcpu, ret.
    rewrite Hf. reflexivity.
  - unfold hw. simpl. apply lookup_insert_eq.
  - intros n Hn. rewrite Z.lor_spec. f_equal. unfold u32.
    destruct (Z.ltb_spec n 32).
    + rewrite Z.mod_pow2_bits_low by lia. by rewrite andb_true_r.
    + rewrite Z.mod_pow2_bits_high by lia. by rewrite andb_false_r.
  - intros other Hne. unfold hw. simpl. by apply lookup_insert_ne.
Qed.

Lemma set_shadow_control_union_witness :
  frame_of Sample.after_vmptrld_uncond_io
    (nv_vvmcx (nvcpu Sample.after_vmptrld_uncond_io))
  = Some (0x12347, Sample.vvmcs_page 0x01000000)
  /\ exists v' word,
      set_shadow_control (hdr := Arch.intel) 0x4002 0x84
        Sample.after_vmptrld_uncond_io = Returns tt v'
      /\ hw (hdr := Arch.intel) v' 0x4002 = Some word
      /\ (forall n, 0 <= n ->
            Z.testbit word n
            = (Z.testbit
                 (__get_vvmcs (hdr := Arch.intel)
                    (Sample.vvmcs_page 0x01000000) 0x4002) n
               && (n <? 32))
              || Z.testbit 0x84 n)
      /\ (forall other, other <> 0x4002 ->
            hw (hdr := Arch.intel) v' other
            = hw (hdr := Arch.intel) Sample.after_vmptrld_uncond_io other).
Proof.
  split; [vm_compute; reflexivity|].
  apply (set_shadow_control_union (hdr := Arch.intel) 0x4002 0x84
           Sample.after_vmptrld_uncond_io 0x12347
           (Sample.vvmcs_page 0x01000000)).
  vm_compute. reflexivity.
Defined.

(** X9.  _shadow_io_bitmap looks at two bits of L1's bitmap A only: bit
    0 of byte 0x10 (port 0x80; bit 0 of the third 64-bit word) and bit 5
    of byte 0x1d (port 0xED; bit 45 of the fourth word); they select the
    nested I/O bitmap.  Bitmap B is not read. *)
Theorem shadow_io_bitmap_two_bits {hdr : Headers} (v : vcpu) (g : Z)
    (bitmap : page) :
  frame_of v (iobitmap0 (nvmx v)) = Some (g, bitmap) ->
  _shadow_io_bitmap v
  = Returns (nestedhvm_vcpu_iomap_get
               (Z.b2z (Z.testbit (content_get bitmap 2) 0))
               (Z.b2z (Z.testbit (content_get bitmap 3) 45))) v.
Proof.
  intros Hf. rewrite (shadow_io_bitmap_eq v g bitmap Hf).
  unfold shadow_bitmap, port_intercepted, page_byte.
  change (0x80 / 8) with 16. change (0xed / 8) with 29.
  change (0x80 mod 8) with 0. change (0xed mod 8) with 5.
  change (16 / 8) with 2. change (29 / 8) with 3.
  change (8 * (16 mod 8)) with 0. change (8 * (29 mod 8)) with 40.
  change 0xff with (Z.ones 8).
  rewrite !Z.land_spec, !Z.shiftr_spec, !Z.testbit_ones_nonneg by lia.
  change (0 <? 8) with true. change (5 <? 8) with true.
  by rewrite !andb_true_r.
Qed.

Lemma shadow_io_bitmap_two_bits_witness :
  frame_of Sample.after_vmptrld
    (iobitmap0 (nvmx Sample.after_vmptrld)) = Some (0x20, Sample.zero_page)
  /\ _shadow_io_bitmap (hdr := Arch.intel) Sample.after_vmptrld
     = Returns 0x300000 Sample.after_vmptrld.
Proof.
  split; [vm_compute; reflexivity|].
  apply (shadow_io_bitmap_two_bits (hdr := Arch.intel) Sample.after_vmptrld
           0x20 Sample.zero_page).
  vm_compute. reflexivity.
Defined.

(** ** The check of VMLAUNCH/VMRESUME and the controls of the entry *)

Lemma land_pow2_cases x k :
  0 <= k -> Z.land x (2 ^ k) = 0 \/ Z.land x (2 ^ k) = 2 ^ k.
Proof.
  intros Hk. destruct (Z.testbit x k) eqn:Hbit; [right|left];
    apply Z.bits_inj'; intros n Hn;
    rewrite Z.land_spec, ?Z.bits_0;
    destruct (Z.eq_dec n k) as [->|Hne];
    rewrite ?Hbit, ?Z.pow2_bits_true, ?(Z.pow2_bits_false k n) by lia;
    try done; apply andb_false_r.
Qed.

Lemma update_exec_control_returns {hdr : Headers} host_cntrl v gfn content :
  frame_of v (nv_vvmcx (nvcpu v)) = Some (gfn, content) ->
  pio_ctl content = CPU_BASED_UNCOND_IO_EXITING
  \/ pio_ctl content = 0
  \/ frame_of v (iobitmap0 (nvmx v)) <> None ->
  exists v', nvmx_update_exec_control host_cntrl v = Returns tt v'.
Proof.
  intros Hf Hcase.
  assert (Hpio : Z.land
            (Z.lor CPU_BASED_ACTIVATE_IO_BITMAP CPU_BASED_UNCOND_IO_EXITING)
            (l1_ctl content) = pio_ctl content)
    by (unfold pio_ctl; apply Z.land_comm).
  unfold nvmx_update_exec_control, bind.
  rewrite (n2_exec_control_eq v gfn content Hf), Hpio.
  destruct (Z.eqb_spec (pio_ctl content) CPU_BASED_UNCOND_IO_EXITING) as [|N1].
  { eexists. reflexivity. }
  destruct (Z.eqb_spec (pio_ctl content) 0) as [|N0].
  { eexists. reflexivity. }
  destruct Hcase as [|[|Hb]]; [done | done |].
  destruct (frame_of v (iobitmap0 (nvmx v))) as [[g bitmap]|] eqn:Hbm; [|done].
  unfold bind. rewrite (shadow_io_bitmap_eq v g bitmap Hbm).
  eexists. reflexivity.
Qed.

(** X10.  The test nvmx_vmresume makes before it sets the entry pending
    is the one nvmx_update_exec_control relies on: when a call made the
    entry pending (UNCOND_IO_EXITING being a single bit, and a non-NULL
    bitmap A being a live mapping), the controls of the entry can be
    computed, without a read through a missing I/O bitmap. *)
Theorem exec_control_after_pending_entry {hdr : Headers} (host_cntrl : Z)
    (v v' : vcpu) (gfn : Z) (content : page) (k : Z) :
  0 <= k -> CPU_BASED_UNCOND_IO_EXITING = 2 ^ k ->
  frame_of v (nv_vvmcx (nvcpu v)) = Some (gfn, content) ->
  (not_null (iobitmap0 (nvmx v)) = true ->
   frame_of v (iobitmap0 (nvmx v)) <> None) ->
  nv_vmentry_pending (nvcpu v) = false ->
  nvmx_vmresume v = Returns X86EMUL_OKAY v' ->
  nv_vmentry_pending (nvcpu v') = true ->
  exists v'', nvmx_update_exec_control host_cntrl v' = Returns tt v''.
Proof.
  intros Hk Hbit Hf Hlive Hnp Hrun Hp.
  unfold nvmx_vmresume, bind in Hrun.
  rewrite vmx_inst_check_privilege_eq in Hrun.
  destruct (negb (vmx_test false v && mode_test v)); [discriminate|].
  destruct (negb (cpl_test v)); [discriminate|].
  simpl in Hrun. unfold get_vcpu, iobitmap in Hrun. simpl in Hrun.
  destruct (nv_vvmcxaddr (nvcpu v) =? VMCX_EADDR); simpl in Hrun.
  { injection Hrun as <-. simpl in Hp. congruence. }
  destruct (not_null (iobitmap0 (nvmx v))) eqn:B0;
    destruct (not_null (iobitmap1 (nvmx v))) eqn:B1; simpl in Hrun.
  { injection Hrun as <-.
    apply (update_exec_control_returns host_cntrl _ gfn content); [exact Hf|].
    right. right. by apply Hlive. }
  all: unfold bind in Hrun;
    rewrite (n2_exec_control_eq v gfn content Hf) in Hrun; simpl in Hrun;
    destruct (nonzero (Z.land (l1_ctl content) CPU_BASED_ACTIVATE_IO_BITMAP))
      eqn:Hctl; simpl in Hrun;
    [injection Hrun as <-; simpl in Hp; congruence|];
    injection Hrun as <-;
    apply (update_exec_control_returns host_cntrl _ gfn content);
    [exact Hf|];
    apply nonzero_false in Hctl;
    assert (Hp2 : pio_ctl content
                  = Z.land (l1_ctl content) CPU_BASED_UNCOND_IO_EXITING)
      by (unfold pio_ctl; rewrite Z.land_lor_distr_r, Hctl; apply Z.lor_0_l);
    rewrite Hp2, Hbit;
    destruct (land_pow2_cases (l1_ctl content) k Hk) as [->| ->]; auto.
Qed.

Lemma exec_control_after_pending_entry_witness :
  CPU_BASED_UNCOND_IO_EXITING (Headers := Arch.intel) = 2 ^ 24
  /\ nv_vmentry_pending (nvcpu Sample.after_vmptrld_uncond_io) = false
  /\ nvmx_vmresume (hdr := Arch.intel) Sample.after_vmptrld_uncond_io
     = Returns X86EMUL_OKAY
         (with_nvcpu (set_nv_vmentry_pending true)
            Sample.after_vmptrld_uncond_io)
  /\ exists v'',
      nvmx_update_exec_control (hdr := Arch.intel) 0x84
        (with_nvcpu (set_nv_vmentry_pending true)
           Sample.after_vmptrld_uncond_io) = Returns tt v''.
Proof.
  split; [reflexivity|]. split; [reflexivity|].
  split; [vm_compute; reflexivity|].
  apply (exec_control_after_pending_entry (hdr := Arch.intel) 0x84
           Sample.after_vmptrld_uncond_io _ 0x12347
           (Sample.vvmcs_page 0x01000000) 24).
  - lia.
  - reflexivity.
  - vm_compute. reflexivity.
  - intros _. vm_compute. discriminate.
  - reflexivity.
  - vm_compute. reflexivity.
  - reflexivity.
Defined.

(** ** Initialisation and the purge *)

(** X11.  nvmx_vcpu_initialise with a shadow page returns 0 and leaves no
    current VVMCS (NULL mapping, sentinel address: the invariant holds),
    no I/O bitmap and VMX off, so that the privilege check of every
    instruction but VMXON injects #UD; without a page it returns -ENOMEM
    and initialises nothing: the address, the mapping and
    vmxon_region_pa are whatever they were. *)
Theorem vcpu_initialise_effect {hdr : Headers} (shadow : gmap Z Z) (v : vcpu) :
  (exists v',
     nvmx_vcpu_initialise (Some shadow) v = Returns 0 v'
     /\ nv_n2vmcx (nvcpu v') = Some shadow
     /\ nv_vvmcx (nvcpu v') = NULL
     /\ nv_vvmcxaddr (nvcpu v') = VMCX_EADDR
     /\ vvmcs_invariant v'
     /\ iobitmap0 (nvmx v') = NULL /\ iobitmap1 (nvmx v') = NULL
     /\ vmxon_region_pa (nvmx v') = 0
     /\ env v' = env v
     /\ vmx_inst_check_privilege false v'
        = Returns X86EMUL_EXCEPTION (inject TRAP_invalid_op v'))
  /\ (exists v',
        nvmx_vcpu_initialise None v = Returns (- ENOMEM) v'
        /\ nv_n2vmcx (nvcpu v') = None
        /\ nv_vvmcx (nvcpu v') = nv_vvmcx (nvcpu v)
        /\ nv_vvmcxaddr (nvcpu v') = nv_vvmcxaddr (nvcpu v)
        /\ nvmx v' = nvmx v).
Proof.
  split.
  - eexists. split; [reflexivity|]. simpl.
    repeat (split; [reflexivity|]).
    split; [unfold vvmcs_invariant; simpl; by rewrite Z.eqb_refl|].
    repeat (split; [reflexivity|]).
    rewrite vmx_inst_check_privilege_eq. reflexivity.
  - eexists. split; [reflexivity|]. simpl. done.
Qed.

Lemma lookup_release_same (a : Z) (m : gmap Z Z) : release (Some a) m !! a = None.
Proof. apply lookup_delete_eq. Qed.

Lemma lookup_release_None (p : pointer) (m : gmap Z Z) (a : Z) :
  m !! a = None -> release p m !! a = None.
Proof.
  intros H. destruct p as [b|]; [|done]. simpl.
  destruct (decide (b = a)) as [->|Hne].
  - apply lookup_delete_eq.
  - by rewrite lookup_delete_ne.
Qed.

Lemma lookup_release_other (p : pointer) (m : gmap Z Z) (a : Z) :
  p <> Some a -> release p m !! a = m !! a.
Proof.
  intros H. destruct p as [b|]; [|done]. simpl.
  apply lookup_delete_ne. congruence.
Qed.

(** nvmx_purge_vvmcs, field by field. *)
Lemma purge_spec {hdr : Headers} (v : vcpu) :
  exists v',
    nvmx_purge_vvmcs v = Returns tt v'
    /\ regs v' = regs v /\ hvm v' = hvm v
    /\ nv_n1vmcx (nvcpu v') = nv_n1vmcx (nvcpu v)
    /\ nv_n2vmcx (nvcpu v') = nv_n2vmcx (nvcpu v)
    /\ nv_vvmcx (nvcpu v') = nv_vvmcx (nvcpu v)
    /\ nv_vvmcxaddr (nvcpu v') = VMCX_EADDR
    /\ nv_vmentry_pending (nvcpu v') = nv_vmentry_pending (nvcpu v)
    /\ vmxon_region_pa (nvmx v') = vmxon_region_pa (nvmx v)
    /\ intr_info (nvmx v') = intr_info (nvmx v)
    /\ intr_error_code (nvmx v') = intr_error_code (nvmx v)
    /\ iobitmap0 (nvmx v') = NULL /\ iobitmap1 (nvmx v') = NULL
    /\ mappings (env v') = purged_mappings v
    /\ next_mapping (env v') = next_mapping (env v)
    /\ guest_frames (env v') = guest_frames (env v)
    /\ guest_writes (env v') = guest_writes (env v)
    /\ injected (env v') = injected (env v)
    /\ copy_from_guest (env v') = copy_from_guest (env v)
    /\ copy_to_guest_ok (env v') = copy_to_guest_ok (env v).
Proof.
  unfold nvmx_purge_vvmcs, purged_mappings, bind.
  assert (Hclear : __clear_current_vvmcs v = Returns tt v).
  { unfold __clear_current_vvmcs, __vmpclear, bind, get_vcpu, ret.
    by destruct (nv_n2vmcx (nvcpu v)). }
  rewrite Hclear. unfold get_vcpu. cbv beta iota.
  unfold purge_iobitmap, bind, get_vcpu, modify, iobitmap.
  destruct v as [r h [n1 n2 vv addr pend] [pa ii ie b0 b1] e]. simpl.
  destruct (addr =? VMCX_EADDR); simpl;
    destruct vv as [a|], b0 as [a0|], b1 as [a1|]; simpl;
    eexists; (split; [reflexivity|]); simpl; repeat split; reflexivity.
Qed.

Lemma purge_noop {hdr : Headers} (v : vcpu) :
  nv_vvmcxaddr (nvcpu v) = VMCX_EADDR ->
  iobitmap0 (nvmx v) = NULL -> iobitmap1 (nvmx v) = NULL ->
  nvmx_purge_vvmcs v = Returns tt v.
Proof.
  intros Haddr Hb0 Hb1.
  destruct (purge_spec v)
    as (v' & Hrun & Hr & Hh & H1 & H2 & Hvv & Haddr' & Hpend & Hpa
        & Hii & Hie & Hb0' & Hb1' & Hmap & Hnext & Hgf & Hgw & Hinj
        & Hcf & Hct).
  rewrite Hrun. f_equal.
  unfold purged_mappings in Hmap.
  rewrite Hb0, Hb1, Haddr, Z.eqb_refl in Hmap. simpl in Hmap.
  rewrite <- Haddr in Haddr'. rewrite <- Hb0 in Hb0'. rewrite <- Hb1 in Hb1'.
  clear - Hr Hh H1 H2 Hvv Haddr' Hpend Hpa Hii Hie Hb0' Hb1' Hmap
            Hnext Hgf Hgw Hinj Hcf Hct.
  destruct v' as [r' h' [a1' a2' a3' a4' a5'] [c1' c2' c3' c4' c5']
                    [e1' e2' e3' e4' e5' e6' e7']],
    v as [r h [a1 a2 a3 a4 a5] [c1 c2 c3 c4 c5] [e1 e2 e3 e4 e5 e6 e7]].
  simpl in *. by subst.
Qed.

(** X12.  nvmx_purge_vvmcs never goes through a pointer and always
    returns.  It releases the mapping of the current VVMCS (when the
    address is not the sentinel) and of both I/O bitmaps, leaves every
    other mapping and all guest frames as they were, and NULLs the bitmap
    pointers; purging again changes nothing. *)
Theorem purge_releases_mappings {hdr : Headers} (v : vcpu) :
  exists v',
    nvmx_purge_vvmcs v = Returns tt v'
    /\ (nv_vvmcxaddr (nvcpu v) <> VMCX_EADDR ->
        frame_of v' (nv_vvmcx (nvcpu v)) = None)
    /\ frame_of v' (iobitmap0 (nvmx v)) = None
    /\ frame_of v' (iobitmap1 (nvmx v)) = None
    /\ (forall a,
          nv_vvmcx (nvcpu v) <> Some a -> iobitmap0 (nvmx v) <> Some a ->
          iobitmap1 (nvmx v) <> Some a ->
          mappings (env v') !! a = mappings (env v) !! a)
    /\ guest_frames (env v') = guest_frames (env v)
    /\ iobitmap0 (nvmx v') = NULL /\ iobitmap1 (nvmx v') = NULL
    /\ nvmx_purge_vvmcs v' = Returns tt v'.
Proof.
  destruct (purge_spec v)
    as (v' & Hrun & Hr & Hh & H1 & H2 & Hvv & Haddr & Hpend & Hpa & Hii & Hie
        & Hb0 & Hb1 & Hmap & Hnext & Hgf & Hgw & Hinj & Hcf & Hct).
  exists v'. split; [exact Hrun|].
  split.
  { intros Hne. unfold frame_of.
    destruct (nv_vvmcx (nvcpu v)) as [a|] eqn:E; [|done].
    rewrite Hmap. unfold purged_mappings. rewrite E.
    destruct (Z.eqb_spec (nv_vvmcxaddr (nvcpu v)) VMCX_EADDR); [done|].
    rewrite (lookup_release_None _ _ a); [done|].
    apply lookup_release_None, lookup_release_same. }
  split.
  { unfold frame_of. destruct (iobitmap0 (nvmx v)) as [a|] eqn:B0; [|done].
    rewrite Hmap. unfold purged_mappings. rewrite B0.
    rewrite lookup_release_None; [done|]. apply lookup_release_same. }
  split.
  { unfold frame_of. destruct (iobitmap1 (nvmx v)) as [a|] eqn:B1; [|done].
    rewrite Hmap. unfold purged_mappings. rewrite B1.
    by rewrite lookup_release_same. }
  split.
  { intros a Nv N0 N1. rewrite Hmap. unfold purged_mappings.
    rewrite !lookup_release_other by done.
    destruct (_ =? _); [done|]. by rewrite lookup_release_other. }
  split; [exact Hgf|]. split; [exact Hb0|]. split; [exact Hb1|].
  by apply purge_noop.
Qed.

(** ** VMXOFF and VMXON *)

Lemma gate_rejects_vmx_off {hdr : Headers} (v : vcpu) :
  vmxon_region_pa (nvmx v) = 0 ->
  vmx_inst_check_privilege false v
  = Returns X86EMUL_EXCEPTION (inject TRAP_invalid_op v).
Proof.
  intros H0. rewrite vmx_inst_check_privilege_eq.
  unfold vmx_test. rewrite H0. reflexivity.
Qed.

(** X13.  When the privilege check passes, VMXOFF reports VMsucceed,
    zeroes vmxon_region_pa and drops the current VVMCS and the I/O
    bitmaps; from then on the privilege check of every instruction but
    VMXON injects #UD, a second VMXOFF included. *)
Theorem vmxoff_turns_vmx_off {hdr : Headers} (v : vcpu) :
  gate_passes v = true ->
  exists v',
    nvmx_handle_vmxoff v = Returns X86EMUL_OKAY v'
    /\ reports VMSUCCEED v'
    /\ vmxon_region_pa (nvmx v') = 0
    /\ nv_vvmcxaddr (nvcpu v') = VMCX_EADDR
    /\ iobitmap0 (nvmx v') = NULL /\ iobitmap1 (nvmx v') = NULL
    /\ injected (env v') = injected (env v)
    /\ vmx_inst_check_privilege false v'
       = Returns X86EMUL_EXCEPTION (inject TRAP_invalid_op v')
    /\ nvmx_handle_vmxoff v'
       = Returns X86EMUL_EXCEPTION (inject TRAP_invalid_op v').
Proof.
  intros Hg. apply gate_passes_iff in Hg.
  destruct (purge_spec v)
    as (v1 & Hrun & Hr & Hh & H1 & H2 & Hvv & Haddr & Hpend & Hpa & Hii & Hie
        & Hb0 & Hb1 & Hmap & Hnext & Hgf & Hgw & Hinj & Hcf & Hct).
  exists (with_status VMSUCCEED (with_nvmx (set_vmxon_region_pa 0) v1)).
  assert (Hoff : vmx_inst_check_privilege false
                   (with_status VMSUCCEED
                      (with_nvmx (set_vmxon_region_pa 0) v1))
                 = Returns X86EMUL_EXCEPTION
                     (inject TRAP_invalid_op
                        (with_status VMSUCCEED
                           (with_nvmx (set_vmxon_region_pa 0) v1))))
    by (by apply gate_rejects_vmx_off).
  split.
  { unfold nvmx_handle_vmxoff, bind. rewrite Hg. cbn [is_okay negb].
    rewrite Hrun. unfold modify. cbv beta iota. by rewrite vmreturn_eq. }
  split; [apply reports_with_status|].
  split; [reflexivity|].
  split; [exact Haddr|]. split; [exact Hb0|]. split; [exact Hb1|].
  split; [exact Hinj|]. split; [exact Hoff|].
  unfold nvmx_handle_vmxoff, bind. by rewrite Hoff.
Qed.

Lemma vmxoff_turns_vmx_off_witness :
  gate_passes (hdr := Arch.intel) Sample.after_vmptrld = true
  /\ exists v',
      nvmx_handle_vmxoff (hdr := Arch.intel) Sample.after_vmptrld
        = Returns X86EMUL_OKAY v'
      /\ reports (hdr := Arch.intel) VMSUCCEED v'
      /\ vmxon_region_pa (nvmx v') = 0
      /\ nv_vvmcxaddr (nvcpu v') = VMCX_EADDR (Headers := Arch.intel)
      /\ iobitmap0 (nvmx v') = NULL /\ iobitmap1 (nvmx v') = NULL
      /\ injected (env v') = injected (env Sample.after_vmptrld)
      /\ vmx_inst_check_privilege (hdr := Arch.intel) false v'
         = Returns X86EMUL_EXCEPTION (inject TRAP_invalid_op v')
      /\ nvmx_handle_vmxoff (hdr := Arch.intel) v'
         = Returns X86EMUL_EXCEPTION (inject TRAP_invalid_op v').
Proof.
  split; [reflexivity|].
  exact (vmxoff_turns_vmx_off (hdr := Arch.intel) Sample.after_vmptrld
           eq_refl).
Defined.

(** X14.  A VMXON the decoder accepts copies the loaded VMCS into the
    shadow page and clears the launched flag of the loaded one; it leaves
    the current VVMCS and the I/O bitmaps as they are (also on a second
    VMXON).  With the operand 0 it still returns X86EMUL_OKAY, but VMX
    stays off: the next privilege check of another instruction injects
    #UD. *)
Theorem vmxon_snapshot {hdr : Headers} (v : vcpu) (decode : vmx_inst_decoded)
    (gpa : Z) :
  decode_vmx_inst (Some 0) true v
    = Returns (X86EMUL_OKAY, Some decode, Some gpa) v ->
  nv_n2vmcx (nvcpu v) <> None ->
  exists v',
    nvmx_handle_vmxon v = Returns X86EMUL_OKAY v'
    /\ nv_n2vmcx (nvcpu v') = Some (vmcs (hvm v))
    /\ vmcs (hvm v') = vmcs (hvm v)
    /\ launched (hvm v') = 0
    /\ nv_vvmcx (nvcpu v') = nv_vvmcx (nvcpu v)
    /\ nv_vvmcxaddr (nvcpu v') = nv_vvmcxaddr (nvcpu v)
    /\ iobitmap0 (nvmx v') = iobitmap0 (nvmx v)
    /\ iobitmap1 (nvmx v') = iobitmap1 (nvmx v)
    /\ env v' = env v
    /\ (gpa = 0 ->
        vmx_inst_check_privilege false v'
        = Returns X86EMUL_EXCEPTION (inject TRAP_invalid_op v')).
Proof.
  intros Hdec Hn2.
  unfold nvmx_handle_vmxon, bind. rewrite Hdec. simpl.
  destruct (nv_n2vmcx (nvcpu v)) as [shadow|] eqn:E; [|done].
  eexists. split; [reflexivity|]. simpl.
  repeat (split; [reflexivity|]).
  intros ->. by apply gate_rejects_vmx_off.
Qed.

Lemma vmxon_snapshot_witness :
  exists v',
    nvmx_handle_vmxon (hdr := Arch.intel) Scenario.vmxon_zero_exit
      = Returns X86EMUL_OKAY v'
    /\ nv_n2vmcx (nvcpu v') = Some (vmcs (hvm Scenario.vmxon_zero_exit))
    /\ vmcs (hvm v') = vmcs (hvm Scenario.vmxon_zero_exit)
    /\ launched (hvm v') = 0
    /\ nv_vvmcx (nvcpu v') = nv_vvmcx (nvcpu Scenario.vmxon_zero_exit)
    /\ nv_vvmcxaddr (nvcpu v') = nv_vvmcxaddr (nvcpu Scenario.vmxon_zero_exit)
    /\ iobitmap0 (nvmx v') = iobitmap0 (nvmx Scenario.vmxon_zero_exit)
    /\ iobitmap1 (nvmx v') = iobitmap1 (nvmx Scenario.vmxon_zero_exit)
    /\ env v' = env Scenario.vmxon_zero_exit
    /\ (0 = 0 ->
        vmx_inst_check_privilege (hdr := Arch.intel) false v'
        = Returns X86EMUL_EXCEPTION (inject TRAP_invalid_op v')).
Proof.
  apply (vmxon_snapshot (hdr := Arch.intel) Scenario.vmxon_zero_exit
           (VMX_INST_MEMREG_TYPE_MEMORY 0x100040 8 VMX_REG_RAX) 0).
  - vm_compute. reflexivity.
  - vm_compute. discriminate.
Defined.

(** ** VMPTRLD *)

(** X15.  VMPTRLD of the VMXON region or of an address with any of the
    low twelve bits set reports VMfailInvalid and changes nothing else:
    the VVMCS that was current stays current and mapped. *)
Theorem vmptrld_rejects {hdr : Headers} (v : vcpu) (decode : vmx_inst_decoded)
    (gpa : Z) :
  decode_vmx_inst (Some 0) false v
    = Returns (X86EMUL_OKAY, Some decode, Some gpa) v ->
  gpa = vmxon_region_pa (nvmx v) \/ Z.land gpa 0xfff <> 0 ->
  nvmx_handle_vmptrld v = Returns X86EMUL_OKAY (with_status VMFAIL_INVALID v)
  /\ reports VMFAIL_INVALID (with_status VMFAIL_INVALID v)
  /\ nvcpu (with_status VMFAIL_INVALID v) = nvcpu v
  /\ nvmx (with_status VMFAIL_INVALID v) = nvmx v
  /\ env (with_status VMFAIL_INVALID v) = env v.
Proof.
  intros Hdec Hbad.
  split; [|split; [apply reports_with_status | done]].
  unfold nvmx_handle_vmptrld, bind. rewrite Hdec. simpl.
  assert ((gpa =? vmxon_region_pa (nvmx v)) || nonzero (Z.land gpa 0xfff)
          = true) as ->.
  { apply orb_true_iff. destruct Hbad as [->|Hlow].
    - left. apply Z.eqb_refl.
    - right. by apply nonzero_true. }
  reflexivity.
Qed.

Lemma vmptrld_rejects_witness :
  Z.land 0x12345001 0xfff <> 0
  /\ nvmx_handle_vmptrld (hdr := Arch.intel) (Scenario.loaded_exit 0x12345001)
     = Returns X86EMUL_OKAY
         (with_status (hdr := Arch.intel) VMFAIL_INVALID
            (Scenario.loaded_exit 0x12345001))
  /\ nv_vvmcxaddr (nvcpu (Scenario.loaded_exit 0x12345001)) = 0x12345000.
Proof.
  split; [vm_compute; discriminate|].
  split; [|reflexivity].
  apply (vmptrld_rejects (hdr := Arch.intel) (Scenario.loaded_exit 0x12345001)
           (VMX_INST_MEMREG_TYPE_MEMORY 0x100048 8 VMX_REG_RAX) 0x12345001).
  - vm_compute. reflexivity.
  - right. vm_compute. discriminate.
Defined.

(** X16.  VMPTRLD of the address that is already current neither purges
    nor maps: it reports VMsucceed and changes nothing else. *)
Theorem vmptrld_current_again {hdr : Headers} (v : vcpu)
    (decode : vmx_inst_decoded) (gpa : Z) :
  decode_vmx_inst (Some 0) false v
    = Returns (X86EMUL_OKAY, Some decode, Some gpa) v ->
  gpa <> vmxon_region_pa (nvmx v) -> Z.land gpa 0xfff = 0 ->
  nv_vvmcxaddr (nvcpu v) = gpa -> gpa <> VMCX_EADDR ->
  nvmx_handle_vmptrld v = Returns X86EMUL_OKAY (with_status VMSUCCEED v).
Proof.
  intros Hdec Hne Hal Hcur Hvalid.
  unfold nvmx_handle_vmptrld, bind. rewrite Hdec.
  unfold get_vcpu. cbv beta iota.
  destruct (Z.eqb_spec gpa (vmxon_region_pa (nvmx v))); [done|].
  apply nonzero_false in Hal. rewrite Hal. cbn [orb].
  rewrite Hcur, Z.eqb_refl. cbn [negb].
  unfold ret at 1. cbv beta iota. rewrite Hcur.
  destruct (Z.eqb_spec gpa VMCX_EADDR); [done|].
  unfold ret at 1. cbv beta iota. by rewrite vmreturn_eq.
Qed.

Lemma vmptrld_current_again_witness :
  nv_vvmcxaddr (nvcpu (Scenario.loaded_exit 0x12345000)) = 0x12345000
  /\ nvmx_handle_vmptrld (hdr := Arch.intel) (Scenario.loaded_exit 0x12345000)
     = Returns X86EMUL_OKAY
         (with_status (hdr := Arch.intel) VMSUCCEED
            (Scenario.loaded_exit 0x12345000)).
Proof.
  split; [reflexivity|].
  apply (vmptrld_current_again (hdr := Arch.intel)
           (Scenario.loaded_exit 0x12345000)
           (VMX_INST_MEMREG_TYPE_MEMORY 0x100048 8 VMX_REG_RAX) 0x12345000).
  - vm_compute. reflexivity.
  - vm_compute. discriminate.
  - reflexivity.
  - reflexivity.
  - vm_compute. discriminate.
Defined.

(** X17.  VMPTRLD does not check what hvm_map_guest_frame_rw returns.
    For an accepted address that is not the current one and whose frame
    the guest does not have, the mapping is NULL and map_io_bitmap_all
    reads IO_BITMAP_A through it: the handler does not return. *)
Theorem vmptrld_missing_frame {hdr : Headers} (v : vcpu)
    (decode : vmx_inst_decoded) (gpa : Z) :
  decode_vmx_inst (Some 0) false v
    = Returns (X86EMUL_OKAY, Some decode, Some gpa) v ->
  gpa <> vmxon_region_pa (nvmx v) -> Z.land gpa 0xfff = 0 ->
  nv_vvmcxaddr (nvcpu v) <> gpa ->
  guest_frames (env v) !! Z.shiftr gpa PAGE_SHIFT = None ->
  nvmx_handle_vmptrld v = HostFault.
Proof.
  intros Hdec Hne Hal Hcur Hmiss.
  destruct (purge_spec v)
    as (v1 & Hrun & Hr & Hh & H1 & H2 & Hvv & Haddr & Hpend & Hpa & Hii & Hie
        & Hb0 & Hb1 & Hmap & Hnext & Hgf & Hgw & Hinj & Hcf & Hct).
  unfold nvmx_handle_vmptrld, bind. rewrite Hdec. simpl.
  destruct (Z.eqb_spec gpa (vmxon_region_pa (nvmx v))); [done|].
  apply nonzero_false in Hal. rewrite Hal. simpl.
  unfold get_vcpu. simpl.
  destruct (Z.eqb_spec (nv_vvmcxaddr (nvcpu v)) gpa); [done|]. simpl.
  rewrite Hrun, Haddr, Z.eqb_refl.
  unfold bind, hvm_map_guest_frame_rw, hvm_map_guest_frame.
  rewrite Hgf, Hmiss. unfold modify. simpl.
  unfold map_io_bitmap_all, __map_io_bitmap, bind, get_vcpu. simpl.
  unfold iobitmap. rewrite Z.eqb_refl, Hb0. simpl.
  reflexivity.
Qed.

Lemma vmptrld_missing_frame_witness :
  guest_frames (env (Scenario.after_vmxon_exit 0x77777000))
    !! Z.shiftr 0x77777000 PAGE_SHIFT = None
  /\ nvmx_handle_vmptrld (hdr := Arch.intel)
       (Scenario.after_vmxon_exit 0x77777000) = HostFault.
Proof.
  split; [vm_compute; reflexivity|].
  apply (vmptrld_missing_frame (hdr := Arch.intel)
           (Scenario.after_vmxon_exit 0x77777000)
           (VMX_INST_MEMREG_TYPE_MEMORY 0x100048 8 VMX_REG_RAX) 0x77777000).
  - vm_compute. reflexivity.
  - vm_compute. discriminate.
  - reflexivity.
  - vm_compute. discriminate.
  - vm_compute. reflexivity.
Defined.

(** ** Mapping the I/O bitmaps *)

Lemma frame_of_eq (v : vcpu) (a gfn : Z) (content : page) :
  mappings (env v) !! a = Some gfn ->
  guest_frames (env v) !! gfn = Some content ->
  frame_of v (Some a) = Some (gfn, content).
Proof. intros Hm Hg. unfold frame_of. by rewrite Hm, Hg. Qed.

Lemma map_io_bitmap_spec {hdr : Headers} (v : vcpu) (reg idx a gfn : Z)
    (content : page) :
  idx = (if reg =? IO_BITMAP_A then 0 else 1) ->
  nv_vvmcx (nvcpu v) = Some a ->
  mappings (env v) !! a = Some gfn ->
  guest_frames (env v) !! gfn = Some content ->
  iobitmap (nvmx v) idx <> Some a ->
  exists v',
    __map_io_bitmap reg v = Returns tt v'
    /\ regs v' = regs v /\ hvm v' = hvm v /\ nvcpu v' = nvcpu v
    /\ vmxon_region_pa (nvmx v') = vmxon_region_pa (nvmx v)
    /\ iobitmap (nvmx v') (1 - idx) = iobitmap (nvmx v) (1 - idx)
    /\ guest_frames (env v') = guest_frames (env v)
    /\ guest_writes (env v') = guest_writes (env v)
    /\ injected (env v') = injected (env v)
    /\ next_mapping (env v) <= next_mapping (env v')
    /\ (forall b, b <> next_mapping (env v) ->
                  iobitmap (nvmx v) idx <> Some b ->
                  mappings (env v') !! b = mappings (env v) !! b)
    /\ match guest_frames (env v)
               !! Z.shiftr (__get_vvmcs content reg) PAGE_SHIFT with
       | Some _ =>
           iobitmap (nvmx v') idx = Some (next_mapping (env v))
           /\ mappings (env v') !! next_mapping (env v)
              = Some (Z.shiftr (__get_vvmcs content reg) PAGE_SHIFT)
           /\ next_mapping (env v') = next_mapping (env v) + 1
       | None =>
           iobitmap (nvmx v') idx = NULL
           /\ next_mapping (env v') = next_mapping (env v)
       end.
Proof.
  intros Hidx Hvv Hm Hg Hne.
  assert (Hi : idx = 0 \/ idx = 1)
    by (rewrite Hidx; destruct (reg =? IO_BITMAP_A); auto).
  unfold __map_io_bitmap, bind, get_vcpu. cbv beta iota zeta.
  rewrite <- Hidx.
  set (target := Z.shiftr (__get_vvmcs content reg) PAGE_SHIFT).
  destruct (iobitmap (nvmx v) idx) as [old|] eqn:Eold;
    cbn [not_null hvm_unmap_guest_frame]; unfold modify, ret;
    cbv beta iota;
    unfold get_vvmcs, bind, load_page, ret.
  - assert (Hoa : old <> a) by congruence.
    rewrite Hvv.
    erewrite frame_of_eq;
      [| cbn; rewrite lookup_delete_ne; [exact Hm|done] | exact Hg].
    cbv beta iota.
    unfold hvm_map_guest_frame_ro, hvm_map_guest_frame, modify.
    cbn [env with_env guest_frames set_mappings next_mapping mappings].
    fold target.
    destruct (guest_frames (env v) !! target) as [c|] eqn:Et;
      eexists; (split; [reflexivity|]);
      cbn [regs hvm nvcpu nvmx env with_env with_nvmx guest_frames
           set_mappings next_mapping mappings guest_writes injected];
      (destruct Hi as [-> | ->]; cbn;
       repeat (split; [first [reflexivity | lia]|])).
    all: try (split; [| first [done | by rewrite lookup_insert_eq]]).
    all: intros b Hb Hbo.
    all: rewrite ?lookup_insert_ne by done.
    all: rewrite lookup_delete_ne; [done | congruence].
  - rewrite Hvv. erewrite frame_of_eq; [| exact Hm | exact Hg].
    cbv beta iota.
    unfold hvm_map_guest_frame_ro, hvm_map_guest_frame, modify.
    fold target.
    destruct (guest_frames (env v) !! target) as [c|] eqn:Et;
      eexists; (split; [reflexivity|]);
      cbn [regs hvm nvcpu nvmx env with_env with_nvmx guest_frames
           set_mappings next_mapping mappings guest_writes injected];
      (destruct Hi as [-> | ->]; cbn;
       repeat (split; [first [reflexivity | lia]|])).
    all: try (split; [| first [done | by rewrite lookup_insert_eq]]).
    all: try done.
    all: intros b Hb Hbo.
    all: by rewrite lookup_insert_ne.
Qed.

Lemma map_io_bitmap_releases {hdr : Headers} (v v' : vcpu)
    (reg idx a gfn old : Z) (content : page) :
  idx = (if reg =? IO_BITMAP_A then 0 else 1) ->
  nv_vvmcx (nvcpu v) = Some a ->
  mappings (env v) !! a = Some gfn ->
  guest_frames (env v) !! gfn = Some content ->
  iobitmap (nvmx v) idx = Some old ->
  old <> a -> old <> next_mapping (env v) ->
  __map_io_bitmap reg v = Returns tt v' ->
  mappings (env v') !! old = None.
Proof.
  intros Hidx Hvv Hm Hg Hold Hoa Hfresh.
  unfold __map_io_bitmap, bind, get_vcpu. cbv beta iota zeta.
  rewrite <- Hidx, Hold.
  cbn [not_null hvm_unmap_guest_frame]. unfold modify.
  cbv beta iota. unfold get_vvmcs, load_page, bind, ret.
  rewrite Hvv.
  erewrite frame_of_eq;
    [| cbn; rewrite lookup_delete_ne; [exact Hm | done] | exact Hg].
  cbv beta iota.
  unfold hvm_map_guest_frame_ro, hvm_map_guest_frame, modify.
  cbn [env with_env guest_frames set_mappings next_mapping mappings].
  destruct (guest_frames (env v)
              !! Z.shiftr (__get_vvmcs content reg) PAGE_SHIFT);
    intros [= <-]; cbn.
  - rewrite lookup_insert_ne by done. by rewrite lookup_delete_eq.
  - by rewrite lookup_delete_eq.
Qed.

(** X18.  VMPTRLD of an accepted address that is not the current one,
    in a frame the guest has, makes that frame the current VVMCS and
    maps the two I/O bitmaps from the addresses its IO_BITMAP_A and
    IO_BITMAP_B fields hold; a bitmap whose frame the guest does not have
    is left NULL, and VMsucceed is reported all the same. *)
Theorem vmptrld_loads {hdr : Headers} (v : vcpu) (decode : vmx_inst_decoded)
    (gpa : Z) (content : page) :
  decode_vmx_inst (Some 0) false v
    = Returns (X86EMUL_OKAY, Some decode, Some gpa) v ->
  gpa <> vmxon_region_pa (nvmx v) -> Z.land gpa 0xfff = 0 ->
  nv_vvmcxaddr (nvcpu v) <> gpa ->
  guest_frames (env v) !! Z.shiftr gpa PAGE_SHIFT = Some content ->
  exists v',
    nvmx_handle_vmptrld v = Returns X86EMUL_OKAY v'
    /\ reports VMSUCCEED v'
    /\ nv_vvmcxaddr (nvcpu v') = gpa
    /\ frame_of v' (nv_vvmcx (nvcpu v'))
       = Some (Z.shiftr gpa PAGE_SHIFT, content)
    /\ frame_of v' (iobitmap0 (nvmx v'))
       = pair (Z.shiftr (__get_vvmcs content IO_BITMAP_A) PAGE_SHIFT)
           <$> guest_frames (env v)
                 !! Z.shiftr (__get_vvmcs content IO_BITMAP_A) PAGE_SHIFT
    /\ frame_of v' (iobitmap1 (nvmx v'))
       = pair (Z.shiftr (__get_vvmcs content IO_BITMAP_B) PAGE_SHIFT)
           <$> guest_frames (env v)
                 !! Z.shiftr (__get_vvmcs content IO_BITMAP_B) PAGE_SHIFT
    /\ guest_frames (env v') = guest_frames (env v)
    /\ vmxon_region_pa (nvmx v') = vmxon_region_pa (nvmx v)
    /\ injected (env v') = injected (env v).
Proof.
  intros Hdec Hne Hal Hcur Hframe.
  destruct (purge_spec v)
    as (v1 & Hrun & Hr & Hh & H1 & H2 & Hvv & Haddr & Hpend & Hpa & Hii & Hie
        & Hb0 & Hb1 & Hmap & Hnext & Hgf & Hgw & Hinj & Hcf & Hct).
  set (gfn := Z.shiftr gpa PAGE_SHIFT) in *.
  set (a := next_mapping (env v1)).
  set (v2 := with_nvcpu (set_nv_vvmcxaddr gpa)
               (with_nvcpu (set_nv_vvmcx (Some a))
                  (with_env (fun e =>
                     set_mappings (<[a := gfn]> (mappings e)) (a + 1) e) v1))).
  destruct (map_io_bitmap_spec v2 IO_BITMAP_A 0 a gfn content)
    as (v3 & Hrun3 & Hr3 & Hh3 & Hn3 & Hpa3 & Hoth3 & Hgf3 & Hgw3 & Hinj3
        & Hle3 & Hkeep3 & Hnew3).
  { by rewrite Z.eqb_refl. }
  { reflexivity. }
  { cbn. by rewrite lookup_insert_eq. }
  { cbn. by rewrite Hgf. }
  { cbn. unfold iobitmap. cbn. by rewrite Hb0. }
  assert (Hidx : 1 = (if IO_BITMAP_B =? IO_BITMAP_A then 0 else 1)).
  { destruct (Z.eqb_spec IO_BITMAP_B IO_BITMAP_A) as [E|]; [|done].
    destruct io_bitmap_fields_distinct as (Hd & _). by symmetry in E. }
  assert (Hb13 : iobitmap1 (nvmx v3) = NULL).
  { change (iobitmap (nvmx v3) (1 - 0) = NULL). by rewrite Hoth3. }
  assert (Ha3 : mappings (env v3) !! a = Some gfn).
  { rewrite Hkeep3.
    - cbn. by rewrite lookup_insert_eq.
    - cbn. lia.
    - cbn. unfold iobitmap. cbn. by rewrite Hb0. }
  destruct (map_io_bitmap_spec v3 IO_BITMAP_B 1 a gfn content)
    as (v4 & Hrun4 & Hr4 & Hh4 & Hn4 & Hpa4 & Hoth4 & Hgf4 & Hgw4 & Hinj4
        & Hle4 & Hkeep4 & Hnew4).
  { exact Hidx. }
  { by rewrite Hn3. }
  { exact Ha3. }
  { rewrite Hgf3. cbn. by rewrite Hgf. }
  { unfold iobitmap. cbn. by rewrite Hb13. }
  assert (Hnext2 : next_mapping (env v2) = a + 1) by reflexivity.
  assert (Hgf2 : guest_frames (env v2) = guest_frames (env v))
    by (cbn; exact Hgf).
  change (iobitmap (nvmx v4) (1 - 1)) with (iobitmap0 (nvmx v4)) in Hoth4.
  change (iobitmap (nvmx v3) (1 - 1)) with (iobitmap0 (nvmx v3)) in Hoth4.
  change (iobitmap (nvmx v3) 0) with (iobitmap0 (nvmx v3)) in Hnew3.
  change (iobitmap (nvmx v4) 1) with (iobitmap1 (nvmx v4)) in Hnew4.
  change (iobitmap (nvmx v3) 1) with (iobitmap1 (nvmx v3)) in Hkeep4.
  rewrite Hgf2 in Hnew3. rewrite Hgf3, Hgf2 in Hnew4.
  exists (with_status VMSUCCEED v4).
  split.
  { unfold nvmx_handle_vmptrld, bind. rewrite Hdec.
    unfold get_vcpu. cbv beta iota.
    destruct (Z.eqb_spec gpa (vmxon_region_pa (nvmx v))); [done|].
    apply nonzero_false in Hal. rewrite Hal. cbn [orb].
    destruct (Z.eqb_spec (nv_vvmcxaddr (nvcpu v)) gpa); [done|].
    cbn [negb]. rewrite Hrun, Haddr, Z.eqb_refl.
    unfold hvm_map_guest_frame_rw, hvm_map_guest_frame.
    rewrite Hgf. fold gfn. rewrite Hframe.
    unfold modify. cbv beta iota zeta.
    fold a. fold v2.
    unfold map_io_bitmap_all, bind. rewrite Hrun3, Hrun4.
    by rewrite vmreturn_eq. }
  split; [apply reports_with_status|].
  split; [cbn; by rewrite Hn4, Hn3|].
  split.
  { change (frame_of v4 (nv_vvmcx (nvcpu v4)) = Some (gfn, content)).
    rewrite Hn4, Hn3. apply frame_of_eq.
    - rewrite Hkeep4; [exact Ha3 | lia | by rewrite Hb13].
    - by rewrite Hgf4, Hgf3, Hgf2. }
  split.
  { change (frame_of v4 (iobitmap0 (nvmx v4))
            = pair (Z.shiftr (__get_vvmcs content IO_BITMAP_A) PAGE_SHIFT)
                <$> guest_frames (env v)
                   !! Z.shiftr (__get_vvmcs content IO_BITMAP_A) PAGE_SHIFT).
    rewrite Hoth4.
    destruct (guest_frames (env v)
                !! Z.shiftr (__get_vvmcs content IO_BITMAP_A) PAGE_SHIFT)
      as [c|] eqn:E.
    - destruct Hnew3 as (Hp & Hm3 & Hn).
      rewrite Hp. cbn. apply frame_of_eq.
      + rewrite Hkeep4; [exact Hm3 | lia | by rewrite Hb13].
      + by rewrite Hgf4, Hgf3, Hgf2.
    - destruct Hnew3 as (Hp & Hn). by rewrite Hp. }
  split.
  { change (frame_of v4 (iobitmap1 (nvmx v4))
            = pair (Z.shiftr (__get_vvmcs content IO_BITMAP_B) PAGE_SHIFT)
                <$> guest_frames (env v)
                   !! Z.shiftr (__get_vvmcs content IO_BITMAP_B) PAGE_SHIFT).
    destruct (guest_frames (env v)
                !! Z.shiftr (__get_vvmcs content IO_BITMAP_B) PAGE_SHIFT)
      as [c|] eqn:E.
    - destruct Hnew4 as (Hp & Hm4 & Hn).
      rewrite Hp. cbn. apply frame_of_eq; [exact Hm4|].
      by rewrite Hgf4, Hgf3, Hgf2.
    - destruct Hnew4 as (Hp & Hn). by rewrite Hp. }
  split; [cbn; by rewrite Hgf4, Hgf3, Hgf2|].
  split; [cbn; by rewrite Hpa4, Hpa3|].
  cbn. by rewrite Hinj4, Hinj3.
Qed.

Lemma vmptrld_loads_witness :
  nv_vvmcxaddr (nvcpu (Scenario.loaded_exit 0x12346000)) = 0x12345000
  /\ exists v',
      nvmx_handle_vmptrld (hdr := Arch.intel) (Scenario.loaded_exit 0x12346000)
        = Returns X86EMUL_OKAY v'
      /\ nv_vvmcxaddr (nvcpu v') = 0x12346000
      /\ frame_of v' (nv_vvmcx (nvcpu v'))
         = Some (0x12346, Sample.vvmcs_page_no_bitmaps)
      /\ frame_of v' (iobitmap0 (nvmx v')) = None.
Proof.
  split; [reflexivity|].
  destruct (vmptrld_loads (hdr := Arch.intel)
              (Scenario.loaded_exit 0x12346000)
              (VMX_INST_MEMREG_TYPE_MEMORY 0x100048 8 VMX_REG_RAX)
              0x12346000 Sample.vvmcs_page_no_bitmaps)
    as (v' & Hrun & _ & Haddr & Hvv & Hb0 & _).
  - vm_compute. reflexivity.
  - vm_compute. discriminate.
  - reflexivity.
  - vm_compute. discriminate.
  - vm_compute. reflexivity.
  - exists v'. split; [exact Hrun|]. split; [exact Haddr|].
    split; [exact Hvv|]. rewrite Hb0. vm_compute. reflexivity.
Defined.

(** ** The decoder's other outcomes *)

(** X19.  A memory operand that fails the validation (a segment field
    above 5, or an offset or end beyond the segment limit outside long
    mode or with GS) makes the decoder inject exactly one #GP(0) and
    return X86EMUL_EXCEPTION; the caller's operand is not written and
    guest memory is not read. *)
Theorem decode_rejects_operand {hdr : Headers} (poperandS : option Z)
    (vmxon_check : bool) (v : vcpu) :
  vmx_inst_check_privilege vmxon_check v = Returns X86EMUL_OKAY v ->
  memreg (exit_info v) = false ->
  passes_validation v = false ->
  decode_vmx_inst poperandS vmxon_check v
  = Returns (X86EMUL_EXCEPTION, None, poperandS) (inject TRAP_gp_fault v)
  /\ injected (env (inject TRAP_gp_fault v))
     = injected (env v) ++ [(TRAP_gp_fault, 0, 0)].
Proof.
  intros Hpriv Hmem Hval. split; [|reflexivity].
  rewrite decode_memory_eq by done. by rewrite Hval.
Qed.

Lemma decode_rejects_operand_witness :
  passes_validation (hdr := Arch.intel)
    (Scenario.protected_mode_exit Sample.info_m64 0xfffc) = false
  /\ decode_vmx_inst (hdr := Arch.intel) (Some 0) false
       (Scenario.protected_mode_exit Sample.info_m64 0xfffc)
     = Returns (X86EMUL_EXCEPTION, None, Some 0)
         (inject TRAP_gp_fault
            (Scenario.protected_mode_exit Sample.info_m64 0xfffc)).
Proof.
  split; [vm_compute; reflexivity|].
  apply (decode_rejects_operand (hdr := Arch.intel) (Some 0) false
           (Scenario.protected_mode_exit Sample.info_m64 0xfffc)).
  - vm_compute. reflexivity.
  - vm_compute. reflexivity.
  - vm_compute. reflexivity.
Defined.

(** X20.  When the operand cannot be read from guest memory, the decoder
    returns X86EMUL_EXCEPTION and changes nothing: no exception is
    injected and no status flag is set.  VMPTRLD, VMCLEAR, VMWRITE and
    also VMPTRST, which only stores to its operand, then return
    X86EMUL_EXCEPTION in the unchanged state. *)
Theorem decode_copy_failure {hdr : Headers} (v : vcpu) :
  vmx_inst_check_privilege false v = Returns X86EMUL_OKAY v ->
  memreg (exit_info v) = false ->
  passes_validation v = true ->
  copy_from_guest (env v) (operand_linear v) (operand_length v) = None ->
  (forall old, decode_vmx_inst (Some old) false v
               = Returns (X86EMUL_EXCEPTION, None, Some old) v)
  /\ nvmx_handle_vmptrld v = Returns X86EMUL_EXCEPTION v
  /\ nvmx_handle_vmclear v = Returns X86EMUL_EXCEPTION v
  /\ nvmx_handle_vmptrst v = Returns X86EMUL_EXCEPTION v
  /\ (forall uninit,
        nvmx_handle_vmwrite uninit v = Returns X86EMUL_EXCEPTION v).
Proof.
  intros Hpriv Hmem Hval Hcopy.
  assert (Hdec : forall old, decode_vmx_inst (Some old) false v
                 = Returns (X86EMUL_EXCEPTION, None, Some old) v).
  { intros old. rewrite decode_memory_eq by done. by rewrite Hval, Hcopy. }
  split; [exact Hdec|].
  unfold nvmx_handle_vmptrld, nvmx_handle_vmclear, nvmx_handle_vmptrst,
    nvmx_handle_vmwrite, bind.
  rewrite (Hdec 0). repeat (split; [reflexivity|]).
  intros uninit. by rewrite (Hdec uninit).
Qed.

Lemma decode_copy_failure_witness :
  copy_from_guest (env Faulting.unreadable_exit)
    (operand_linear (hdr := Arch.intel) Faulting.unreadable_exit)
    (operand_length (hdr := Arch.intel) Faulting.unreadable_exit) = None
  /\ nvmx_handle_vmptrst (hdr := Arch.intel) Faulting.unreadable_exit
     = Returns X86EMUL_EXCEPTION Faulting.unreadable_exit.
Proof.
  split; [reflexivity|].
  apply (decode_copy_failure (hdr := Arch.intel) Faulting.unreadable_exit).
  - vm_compute. reflexivity.
  - vm_compute. reflexivity.
  - vm_compute. reflexivity.
  - reflexivity.
Defined.

(** ** VMCLEAR *)

(** X21.  VMCLEAR of the current VVMCS writes LAUNCH_STATE = 0 into its
    guest frame and nothing else into guest memory, then drops it: the
    address becomes VMCX_EADDR, the mappings of the VVMCS and of the I/O
    bitmaps are released, and VMsucceed is reported. *)
Theorem vmclear_current {hdr : Headers} (v : vcpu)
    (decode : vmx_inst_decoded) (gpa gfn : Z) (content : page) :
  decode_vmx_inst (Some 0) false v
    = Returns (X86EMUL_OKAY, Some decode, Some gpa) v ->
  Z.land gpa 0xfff = 0 ->
  nv_vvmcxaddr (nvcpu v) = gpa -> gpa <> VMCX_EADDR ->
  frame_of v (nv_vvmcx (nvcpu v)) = Some (gfn, content) ->
  length content = 512%nat ->
  exists v',
    nvmx_handle_vmclear v = Returns X86EMUL_OKAY v'
    /\ reports VMSUCCEED v'
    /\ nv_vvmcxaddr (nvcpu v') = VMCX_EADDR
    /\ iobitmap0 (nvmx v') = NULL /\ iobitmap1 (nvmx v') = NULL
    /\ mappings (env v') = purged_mappings v
    /\ guest_frames (env v')
       = <[gfn := __set_vvmcs content NVMX_LAUNCH_STATE 0]>
           (guest_frames (env v))
    /\ __get_vvmcs (__set_vvmcs content NVMX_LAUNCH_STATE 0) NVMX_LAUNCH_STATE
       = 0
    /\ vmxon_region_pa (nvmx v') = vmxon_region_pa (nvmx v).
Proof.
  intros Hdec Hal Hcur Hvalid Hframe Hlen.
  set (v0 := with_env (fun e =>
               set_guest_frames
                 (<[gfn := __set_vvmcs content NVMX_LAUNCH_STATE 0]>
                    (guest_frames e)) e) v).
  destruct (purge_spec v0)
    as (v1 & Hrun & Hr & Hh & H1 & H2 & Hvv & Haddr & Hpend & Hpa & Hii & Hie
        & Hb0 & Hb1 & Hmap & Hnext & Hgf & Hgw & Hinj & Hcf & Hct).
  exists (with_status VMSUCCEED v1).
  split.
  { unfold nvmx_handle_vmclear, bind. rewrite Hdec.
    unfold get_vcpu. cbv beta iota.
    apply nonzero_false in Hal. rewrite Hal.
    rewrite Hcur, Z.eqb_refl. cbn [negb andb].
    destruct (Z.eqb_spec gpa VMCX_EADDR); [done|]. cbn [negb].
    rewrite (set_vvmcs_eq v _ gfn content) by done.
    fold v0. rewrite Hrun. by rewrite vmreturn_eq. }
  split; [apply reports_with_status|].
  split; [exact Haddr|]. split; [exact Hb0|]. split; [exact Hb1|].
  split; [exact Hmap|]. split; [exact Hgf|].
  split; [by apply get_set_launch_state|].
  exact Hpa.
Qed.

Lemma vmclear_current_witness :
  nv_vvmcxaddr (nvcpu (Scenario.loaded_exit 0x12345000)) = 0x12345000
  /\ exists v',
      nvmx_handle_vmclear (hdr := Arch.intel) (Scenario.loaded_exit 0x12345000)
        = Returns X86EMUL_OKAY v'
      /\ nv_vvmcxaddr (nvcpu v') = VMCX_EADDR (Headers := Arch.intel).
Proof.
  split; [reflexivity|].
  destruct (vmclear_current (hdr := Arch.intel)
              (Scenario.loaded_exit 0x12345000)
              (VMX_INST_MEMREG_TYPE_MEMORY 0x100048 8 VMX_REG_RAX)
              0x12345000 0x12345 (Sample.vvmcs_page 0))
    as (v' & Hrun & _ & Haddr & _).
  - vm_compute. reflexivity.
  - reflexivity.
  - reflexivity.
  - vm_compute. discriminate.
  - vm_compute. reflexivity.
  - reflexivity.
  - exists v'. by split.
Defined.

(** X22.  VMCLEAR of an aligned address other than the current VVMCS,
    while one is current, only reports VMsucceed: the VVMCS named by the
    operand is not touched in guest memory (its LAUNCH_STATE is not
    cleared), and the current one stays loaded. *)
Theorem vmclear_other {hdr : Headers} (v : vcpu)
    (decode : vmx_inst_decoded) (gpa : Z) :
  decode_vmx_inst (Some 0) false v
    = Returns (X86EMUL_OKAY, Some decode, Some gpa) v ->
  Z.land gpa 0xfff = 0 ->
  gpa <> nv_vvmcxaddr (nvcpu v) -> nv_vvmcxaddr (nvcpu v) <> VMCX_EADDR ->
  nvmx_handle_vmclear v = Returns X86EMUL_OKAY (with_status VMSUCCEED v)
  /\ guest_frames (env (with_status VMSUCCEED v)) = guest_frames (env v)
  /\ nvcpu (with_status VMSUCCEED v) = nvcpu v.
Proof.
  intros Hdec Hal Hne Hcur. split; [|done].
  unfold nvmx_handle_vmclear, bind. rewrite Hdec.
  unfold get_vcpu. cbv beta iota.
  apply nonzero_false in Hal. rewrite Hal.
  destruct (Z.eqb_spec gpa (nv_vvmcxaddr (nvcpu v))); [done|].
  destruct (Z.eqb_spec (nv_vvmcxaddr (nvcpu v)) VMCX_EADDR); [done|].
  cbn [negb andb]. by rewrite vmreturn_eq.
Qed.

Lemma vmclear_other_witness :
  nv_vvmcxaddr (nvcpu (Scenario.loaded_exit 0x12347000)) = 0x12345000
  /\ nvmx_handle_vmclear (hdr := Arch.intel) (Scenario.loaded_exit 0x12347000)
     = Returns X86EMUL_OKAY
         (with_status (hdr := Arch.intel) VMSUCCEED
            (Scenario.loaded_exit 0x12347000)).
Proof.
  split; [reflexivity|].
  apply (vmclear_other (hdr := Arch.intel) (Scenario.loaded_exit 0x12347000)
           (VMX_INST_MEMREG_TYPE_MEMORY 0x100048 8 VMX_REG_RAX) 0x12347000).
  - vm_compute. reflexivity.
  - reflexivity.
  - vm_compute. discriminate.
  - vm_compute. discriminate.
Defined.

(** ** VMPTRST and VMREAD *)

(** X23.  VMPTRST stores nv_vvmcxaddr (VMCX_EADDR when no VVMCS is
    current) at the decoded address with the decoded length and reports
    VMsucceed; when the store fails it returns X86EMUL_EXCEPTION without
    a status flag, an injected exception or any other change. *)
Theorem vmptrst_stores {hdr : Headers} (v : vcpu) (mem len : Z)
    (reg2 : vmx_regs_enc) (gpa : Z) :
  decode_vmx_inst (Some 0) false v
    = Returns (X86EMUL_OKAY, Some (VMX_INST_MEMREG_TYPE_MEMORY mem len reg2),
               Some gpa) v ->
  len <= 8 ->
  nvmx_handle_vmptrst v
  = if copy_to_guest_ok (env v) mem len
    then Returns X86EMUL_OKAY
           (with_status VMSUCCEED
              (with_env (add_guest_write (mem, nv_vvmcxaddr (nvcpu v), len))
                 v))
    else Returns X86EMUL_EXCEPTION v.
Proof.
  intros Hdec Hlen.
  unfold nvmx_handle_vmptrst, bind. rewrite Hdec.
  unfold get_vcpu. cbv beta iota.
  unfold copy_to_decoded_mem, hvm_copy_to_guest_virt, bind, get_vcpu.
  destruct (copy_to_guest_ok (env v) mem len); [|reflexivity].
  rewrite (gtb_le_false len 8) by done.
  unfold modify, ret. cbv beta iota. cbn [negb].
  by rewrite vmreturn_eq.
Qed.

Lemma vmptrst_stores_witness :
  nvmx_handle_vmptrst (hdr := Arch.intel) (Scenario.loaded_exit 0)
  = Returns X86EMUL_OKAY
      (with_status (hdr := Arch.intel) VMSUCCEED
         (with_env (add_guest_write (0x100048, 0x12345000, 8))
            (Scenario.loaded_exit 0)))
  /\ nvmx_handle_vmptrst (hdr := Arch.intel) (Faulting.unwritable_exit 0)
     = Returns X86EMUL_EXCEPTION (Faulting.unwritable_exit 0).
Proof.
  split.
  - apply (vmptrst_stores (hdr := Arch.intel) (Scenario.loaded_exit 0)
             0x100048 8 VMX_REG_RAX 0); [vm_compute; reflexivity | lia].
  - apply (vmptrst_stores (hdr := Arch.intel) (Faulting.unwritable_exit 0)
             0x100048 8 VMX_REG_RAX 0); [vm_compute; reflexivity | lia].
Defined.

(** X24.  A register-form VMREAD with a current VVMCS takes the field
    encoding from the low 32 bits of reg2, puts the value of the field
    into reg1 and reports VMsucceed; guest memory is neither read nor
    written, and no other register changes. *)
Theorem vmread_register_form {hdr : Headers} (v : vcpu) (gfn : Z)
    (content : page) :
  gate_passes v = true ->
  memreg (exit_info v) = true ->
  frame_of v (nv_vvmcx (nvcpu v)) = Some (gfn, content) ->
  exists v',
    nvmx_handle_vmread v = Returns X86EMUL_OKAY v'
    /\ reports VMSUCCEED v'
    /\ reg_read (regs v') (reg1 (exit_info v))
       = __get_vvmcs content
           (u32 (reg_read (regs v) (reg2 (exit_info v))))
    /\ (forall r, r <> reg1 (exit_info v) ->
                  reg_read (regs v') r = reg_read (regs v) r)
    /\ hvm v' = hvm v /\ nvcpu v' = nvcpu v /\ nvmx v' = nvmx v
    /\ env v' = env v.
Proof.
  intros Hgate Hmem Hframe. apply gate_passes_iff in Hgate.
  set (value := __get_vvmcs content
                  (u32 (reg_read (regs v) (reg2 (exit_info v))))).
  exists (with_status VMSUCCEED
            (with_regs (fun regs => reg_write regs (reg1 (exit_info v)) value)
               v)).
  split.
  { unfold nvmx_handle_vmread, decode_vmx_inst, bind. rewrite Hgate.
    cbn [is_okay negb].
    unfold __vmread, bind, ret, get_vcpu. cbv beta iota zeta.
    fold (exit_info v). rewrite Hmem. cbv beta iota.
    cbn [decoded_reg2].
    unfold get_vvmcs, load_page, bind, ret. rewrite Hframe.
    cbv beta iota. fold value. unfold modify.
    by rewrite vmreturn_eq. }
  split; [apply reports_with_status|].
  split.
  { unfold with_status, with_regs. cbn [regs].
    by rewrite reg_read_set_eflags, reg_read_write. }
  split; [|done].
  intros r Hr. unfold with_status, with_regs. cbn [regs].
  rewrite reg_read_set_eflags.
  destruct (regs v), r, (reg1 (exit_info v)); try reflexivity; done.
Qed.

Lemma vmread_register_form_witness :
  gate_passes (hdr := Arch.intel) (Scenario.loaded_reg_exit 0 0x2000) = true
  /\ exists v',
      nvmx_handle_vmread (hdr := Arch.intel) (Scenario.loaded_reg_exit 0 0x2000)
        = Returns X86EMUL_OKAY v'
      /\ reg_read (regs v') VMX_REG_RAX = 0x20000.
Proof.
  split; [reflexivity|].
  destruct (vmread_register_form (hdr := Arch.intel)
              (Scenario.loaded_reg_exit 0 0x2000) 0x12345
              (Sample.vvmcs_page 0))
    as (v' & Hrun & _ & Hval & _).
  - reflexivity.
  - reflexivity.
  - vm_compute. reflexivity.
  - exists v'. split; [exact Hrun|]. exact Hval.
Defined.

(** X25.  A memory-form VMREAD with a current VVMCS stores the value of
    the field at the decoded address with the decoded length and reports
    VMsucceed; when the store fails it returns X86EMUL_EXCEPTION and
    changes nothing. *)
Theorem vmread_memory_form {hdr : Headers} (v : vcpu) (mem len : Z)
    (reg2 : vmx_regs_enc) (gfn : Z) (content : page) :
  decode_vmx_inst None false v
    = Returns (X86EMUL_OKAY, Some (VMX_INST_MEMREG_TYPE_MEMORY mem len reg2),
               None) v ->
  len <= 8 ->
  frame_of v (nv_vvmcx (nvcpu v)) = Some (gfn, content) ->
  nvmx_handle_vmread v
  = if copy_to_guest_ok (env v) mem len
    then Returns X86EMUL_OKAY
           (with_status VMSUCCEED
              (with_env
                 (add_guest_write
                    (mem, __get_vvmcs content (u32 (reg_read (regs v) reg2)),
                     len)) v))
    else Returns X86EMUL_EXCEPTION v.
Proof.
  intros Hdec Hlen Hframe.
  unfold nvmx_handle_vmread, bind. rewrite Hdec.
  unfold get_vcpu. cbv beta iota. cbn [decoded_reg2].
  unfold get_vvmcs, load_page, bind, ret. rewrite Hframe. cbv beta iota.
  unfold hvm_copy_to_guest_virt, bind, get_vcpu.
  destruct (copy_to_guest_ok (env v) mem len); [|reflexivity].
  rewrite (gtb_le_false len 8) by done.
  unfold modify, ret. cbv beta iota. cbn [negb].
  by rewrite vmreturn_eq.
Qed.

Lemma vmread_memory_form_witness :
  nvmx_handle_vmread (hdr := Arch.intel) (Faulting.loaded_mem_exit 0 0x2002)
  = Returns X86EMUL_OKAY
      (with_status (hdr := Arch.intel) VMSUCCEED
         (with_env (add_guest_write (0x100048, 0x21000, 8))
            (Faulting.loaded_mem_exit 0 0x2002))).
Proof.
  apply (vmread_memory_form (hdr := Arch.intel)
           (Faulting.loaded_mem_exit 0 0x2002) 0x100048 8 VMX_REG_RAX
           0x12345 (Sample.vvmcs_page 0)).
  - vm_compute. reflexivity.
  - lia.
  - vm_compute. reflexivity.
Defined.

(** ** VMWRITE *)

(** The operand of an accepted decode, by the form of the instruction. *)
Lemma decode_delivers {hdr : Headers} (uninit : Z) (chk : bool) (v v' : vcpu)
    (decode : vmx_inst_decoded) (operand : Z) :
  decode_vmx_inst (Some uninit) chk v
    = Returns (X86EMUL_OKAY, Some decode, Some operand) v' ->
  delivered v uninit decode operand.
Proof.
  unfold decode_vmx_inst, bind.
  rewrite vmx_inst_check_privilege_eq.
  destruct (negb (vmx_test chk v && mode_test v)); simpl; [discriminate|].
  destruct (negb (cpl_test v)); simpl; [discriminate|].
  unfold __vmread, bind, get_vcpu, ret. simpl.
  destruct (memreg _); [by intros [= <- <- <-]|].
  destruct (_ >? 5); simpl; [discriminate|].
  match goal with |- context [if ?b then _ else _] => destruct b end;
    simpl; [discriminate|].
  unfold hvm_copy_from_guest_virt, bind, get_vcpu.
  destruct (copy_from_guest _ _ _) as [bytes|] eqn:Hcopy; simpl;
    [|discriminate].
  destruct (_ >? 8); simpl; [discriminate|].
  intros [= <- <- <-]. simpl. by exists bytes.
Qed.

(** X26.  VMWRITE with a current VVMCS writes the operand the decoder
    delivers into the field named by the low 32 bits of reg2, in the guest
    frame of the VVMCS, and reports VMsucceed.  The handler does not
    initialise its operand: above a memory operand shorter than eight
    bytes, the value written has the bytes the variable held before.  The
    I/O bitmaps are looked at only when the whole 64-bit register equals
    one of the four IO_BITMAP encodings; otherwise nothing else changes. *)
Theorem vmwrite_field {hdr : Headers} (uninit : Z) (v : vcpu)
    (decode : vmx_inst_decoded) (operand gfn : Z) (content : page) :
  decode_vmx_inst (Some uninit) false v
    = Returns (X86EMUL_OKAY, Some decode, Some operand) v ->
  frame_of v (nv_vvmcx (nvcpu v)) = Some (gfn, content) ->
  reg_read (regs v) (decoded_reg2 decode) <> IO_BITMAP_A ->
  reg_read (regs v) (decoded_reg2 decode) <> IO_BITMAP_A_HIGH ->
  reg_read (regs v) (decoded_reg2 decode) <> IO_BITMAP_B ->
  reg_read (regs v) (decoded_reg2 decode) <> IO_BITMAP_B_HIGH ->
  exists v',
    nvmx_handle_vmwrite uninit v = Returns X86EMUL_OKAY v'
    /\ delivered v uninit decode operand
    /\ reports VMSUCCEED v'
    /\ frame_of v' (nv_vvmcx (nvcpu v'))
       = Some (gfn,
               __set_vvmcs content
                 (u32 (reg_read (regs v) (decoded_reg2 decode))) operand)
    /\ guest_frames (env v')
       = <[gfn := __set_vvmcs content
                    (u32 (reg_read (regs v) (decoded_reg2 decode))) operand]>
           (guest_frames (env v))
    /\ mappings (env v') = mappings (env v)
    /\ nvcpu v' = nvcpu v /\ nvmx v' = nvmx v /\ hvm v' = hvm v.
Proof.
  intros Hdec Hframe HA HAH HB HBH.
  set (enc := reg_read (regs v) (decoded_reg2 decode)) in *.
  set (v1 := with_env (fun e =>
               set_guest_frames
                 (<[gfn := __set_vvmcs content (u32 enc) operand]>
                    (guest_frames e)) e) v).
  exists (with_status VMSUCCEED v1).
  split.
  { unfold nvmx_handle_vmwrite, bind. rewrite Hdec.
    unfold get_vcpu. cbv beta iota zeta. fold enc.
    rewrite (set_vvmcs_eq v _ gfn content) by done. fold v1.
    destruct (Z.eqb_spec enc IO_BITMAP_A); [done|].
    destruct (Z.eqb_spec enc IO_BITMAP_A_HIGH); [done|].
    destruct (Z.eqb_spec enc IO_BITMAP_B); [done|].
    destruct (Z.eqb_spec enc IO_BITMAP_B_HIGH); [done|].
    cbn [orb]. unfold ret at 1. cbv beta iota.
    by rewrite vmreturn_eq. }
  split; [exact (decode_delivers _ _ _ _ _ _ Hdec)|].
  split; [apply reports_with_status|].
  split; [|done].
  change (frame_of v1 (nv_vvmcx (nvcpu v))
          = Some (gfn, __set_vvmcs content (u32 enc) operand)).
  by apply (frame_of_after_store v _ gfn content).
Qed.

Lemma vmwrite_field_witness :
  reg_read (regs (Scenario.loaded_reg_exit 0x77000 0x100002000))
    VMX_REG_RCX = 0x100002000
  /\ IO_BITMAP_A (Headers := Arch.intel) = 0x2000
  /\ (exists v',
        nvmx_handle_vmwrite (hdr := Arch.intel) 0
          (Scenario.loaded_reg_exit 0x77000 0x100002000)
          = Returns X86EMUL_OKAY v'
        /\ frame_of v' (nv_vvmcx (nvcpu v'))
           = Some (0x12345,
                   __set_vvmcs (hdr := Arch.intel) (Sample.vvmcs_page 0)
                     0x2000 0x77000)
        /\ nvmx v' = nvmx (Scenario.loaded_reg_exit 0x77000 0x100002000))
  /\ copy_from_guest (env (Faulting.loaded_m32_exit 0x11223344 0x2800))
       0x100048 4 = Some 0x11223344
  /\ exists v',
      nvmx_handle_vmwrite (hdr := Arch.intel) 0xaaaaaaaa00000000
        (Faulting.loaded_m32_exit 0x11223344 0x2800)
        = Returns X86EMUL_OKAY v'
      /\ frame_of v' (nv_vvmcx (nvcpu v'))
         = Some (0x12345,
                 __set_vvmcs (hdr := Arch.intel) (Sample.vvmcs_page 0)
                   0x2800 0xaaaaaaaa11223344).
Proof.
  split; [reflexivity|]. split; [reflexivity|].
  split.
  { destruct (vmwrite_field (hdr := Arch.intel) 0
                (Scenario.loaded_reg_exit 0x77000 0x100002000)
                (VMX_INST_MEMREG_TYPE_REG VMX_REG_RAX VMX_REG_RCX)
                0x77000 0x12345 (Sample.vvmcs_page 0))
      as (v' & Hrun & _ & _ & Hf & _ & _ & _ & Hn & _).
    - vm_compute. reflexivity.
    - vm_compute. reflexivity.
    - vm_compute. discriminate.
    - vm_compute. discriminate.
    - vm_compute. discriminate.
    - vm_compute. discriminate.
    - exists v'. split; [exact Hrun|]. split; [exact Hf|]. exact Hn. }
  split; [reflexivity|].
  destruct (vmwrite_field (hdr := Arch.intel) 0xaaaaaaaa00000000
              (Faulting.loaded_m32_exit 0x11223344 0x2800)
              (VMX_INST_MEMREG_TYPE_MEMORY 0x100048 4 VMX_REG_RAX)
              0xaaaaaaaa11223344 0x12345 (Sample.vvmcs_page 0))
    as (v' & Hrun & _ & _ & Hf & _).
  - vm_compute. reflexivity.
  - vm_compute. reflexivity.
  - vm_compute. discriminate.
  - vm_compute. discriminate.
  - vm_compute. discriminate.
  - vm_compute. discriminate.
  - exists v'. split; [exact Hrun|]. exact Hf.
Defined.

(** X27.  VMWRITE to IO_BITMAP_A or IO_BITMAP_A_HIGH writes the operand
    the decoder delivers (above a memory operand shorter than eight bytes
    it has the bytes the uninitialised variable held) and then maps I/O
    bitmap 0 again, from the address the IO_BITMAP_A field holds after the
    write: the old mapping is released, and the new pointer is a mapping
    of that frame, or NULL when the guest has no such frame.  Bitmap 1 and
    the current VVMCS stay as they are. *)
Theorem vmwrite_io_bitmap {hdr : Headers} (uninit : Z) (v : vcpu)
    (decode : vmx_inst_decoded) (operand a gfn : Z) (content : page) :
  decode_vmx_inst (Some uninit) false v
    = Returns (X86EMUL_OKAY, Some decode, Some operand) v ->
  reg_read (regs v) (decoded_reg2 decode) = IO_BITMAP_A
  \/ reg_read (regs v) (decoded_reg2 decode) = IO_BITMAP_A_HIGH ->
  nv_vvmcx (nvcpu v) = Some a ->
  mappings (env v) !! a = Some gfn ->
  guest_frames (env v) !! gfn = Some content ->
  iobitmap0 (nvmx v) <> Some a ->
  a <> next_mapping (env v) ->
  exists v',
    nvmx_handle_vmwrite uninit v = Returns X86EMUL_OKAY v'
    /\ delivered v uninit decode operand
    /\ reports VMSUCCEED v'
    /\ guest_frames (env v')
       = <[gfn := __set_vvmcs content
                    (u32 (reg_read (regs v) (decoded_reg2 decode))) operand]>
           (guest_frames (env v))
    /\ frame_of v' (iobitmap0 (nvmx v'))
       = pair (Z.shiftr
                 (__get_vvmcs
                    (__set_vvmcs content
                       (u32 (reg_read (regs v) (decoded_reg2 decode)))
                       operand) IO_BITMAP_A) PAGE_SHIFT)
           <$> guest_frames (env v')
                 !! Z.shiftr
                      (__get_vvmcs
                         (__set_vvmcs content
                            (u32 (reg_read (regs v) (decoded_reg2 decode)))
                            operand) IO_BITMAP_A) PAGE_SHIFT
    /\ (forall old, iobitmap0 (nvmx v) = Some old ->
                    old <> next_mapping (env v) ->
                    mappings (env v') !! old = None)
    /\ iobitmap1 (nvmx v') = iobitmap1 (nvmx v)
    /\ nvcpu v' = nvcpu v
    /\ mappings (env v') !! a = Some gfn.
Proof.
  intros Hdec Henc Hvv Hm Hg Hb0 Hfresh.
  set (enc := reg_read (regs v) (decoded_reg2 decode)) in *.
  set (new := __set_vvmcs content (u32 enc) operand).
  set (v1 := with_env (fun e =>
               set_guest_frames (<[gfn := new]> (guest_frames e)) e) v).
  assert (Hframe : frame_of v (nv_vvmcx (nvcpu v)) = Some (gfn, content))
    by (rewrite Hvv; by apply frame_of_eq).
  destruct (map_io_bitmap_spec v1 IO_BITMAP_A 0 a gfn new)
    as (v2 & Hrun2 & Hr2 & Hh2 & Hn2 & Hpa2 & Hoth2 & Hgf2 & Hgw2 & Hinj2
        & Hle2 & Hkeep2 & Hnew2).
  { by rewrite Z.eqb_refl. }
  { exact Hvv. }
  { exact Hm. }
  { cbn. by rewrite lookup_insert_eq. }
  { exact Hb0. }
  change (iobitmap (nvmx v2) (1 - 0)) with (iobitmap1 (nvmx v2)) in Hoth2.
  change (iobitmap (nvmx v1) (1 - 0)) with (iobitmap1 (nvmx v)) in Hoth2.
  change (iobitmap (nvmx v2) 0) with (iobitmap0 (nvmx v2)) in Hnew2.
  change (iobitmap (nvmx v1) 0) with (iobitmap0 (nvmx v)) in Hkeep2.
  change (next_mapping (env v1)) with (next_mapping (env v)) in *.
  change (mappings (env v1)) with (mappings (env v)) in *.
  exists (with_status VMSUCCEED v2).
  split.
  { unfold nvmx_handle_vmwrite, bind. rewrite Hdec.
    unfold get_vcpu. cbv beta iota zeta. fold enc.
    rewrite (set_vvmcs_eq v _ gfn content) by done. fold new. fold v1.
    assert ((enc =? IO_BITMAP_A) || (enc =? IO_BITMAP_A_HIGH) = true) as ->.
    { apply orb_true_iff. destruct Henc as [-> | ->];
        [left | right]; apply Z.eqb_refl. }
    rewrite Hrun2. by rewrite vmreturn_eq. }
  split; [exact (decode_delivers _ _ _ _ _ _ Hdec)|].
  split; [apply reports_with_status|].
  split; [exact Hgf2|].
  split.
  { change (frame_of v2 (iobitmap0 (nvmx v2))
            = pair (Z.shiftr (__get_vvmcs new IO_BITMAP_A) PAGE_SHIFT)
                <$> guest_frames (env v2)
                   !! Z.shiftr (__get_vvmcs new IO_BITMAP_A) PAGE_SHIFT).
    rewrite Hgf2.
    destruct (guest_frames (env v1)
                !! Z.shiftr (__get_vvmcs new IO_BITMAP_A) PAGE_SHIFT)
      as [c|] eqn:E.
    - destruct Hnew2 as (Hp & Hm2 & Hn).
      rewrite Hp. cbn. apply frame_of_eq; [exact Hm2|].
      by rewrite Hgf2.
    - destruct Hnew2 as (Hp & Hn). by rewrite Hp. }
  split.
  { intros old Hold Hne.
    change (mappings (env v2) !! old = None).
    apply (map_io_bitmap_releases v1 v2 IO_BITMAP_A 0 a gfn old new);
      try done.
    - by rewrite Z.eqb_refl.
    - cbn. by rewrite lookup_insert_eq.
    - congruence. }
  split; [exact Hoth2|].
  split; [exact Hn2|].
  change (mappings (env v2) !! a = Some gfn).
  rewrite Hkeep2; [exact Hm | exact Hfresh | exact Hb0].
Qed.

Lemma vmwrite_io_bitmap_witness :
  iobitmap0 (nvmx (Scenario.loaded_reg_exit 0x21000 0x2000)) = Some 0x7001
  /\ (exists v',
        nvmx_handle_vmwrite (hdr := Arch.intel) 0
          (Scenario.loaded_reg_exit 0x21000 0x2000)
          = Returns X86EMUL_OKAY v'
        /\ reports (hdr := Arch.intel) VMSUCCEED v'
        /\ mappings (env v') !! 0x7001 = None
        /\ frame_of v' (iobitmap0 (nvmx v')) = Some (0x21, Sample.zero_page))
  /\ copy_from_guest (env (Faulting.loaded_m32_exit 0x21000 0x2000))
       0x100048 4 = Some 0x21000
  /\ exists v',
      nvmx_handle_vmwrite (hdr := Arch.intel) 0xaaaaaaaa00000000
        (Faulting.loaded_m32_exit 0x21000 0x2000)
        = Returns X86EMUL_OKAY v'
      /\ __get_vvmcs (hdr := Arch.intel)
           (__set_vvmcs (hdr := Arch.intel) (Sample.vvmcs_page 0) 0x2000
              0xaaaaaaaa00021000) 0x2000 = 0xaaaaaaaa00021000
      /\ frame_of v' (iobitmap0 (nvmx v')) = None.
Proof.
  split; [reflexivity|].
  split.
  { destruct (vmwrite_io_bitmap (hdr := Arch.intel) 0
                (Scenario.loaded_reg_exit 0x21000 0x2000)
                (VMX_INST_MEMREG_TYPE_REG VMX_REG_RAX VMX_REG_RCX)
                0x21000 0x7000 0x12345 (Sample.vvmcs_page 0))
      as (v' & Hrun & _ & Hrep & Hgf & Hmap & Hold & _).
    - vm_compute. reflexivity.
    - left. reflexivity.
    - reflexivity.
    - vm_compute. reflexivity.
    - vm_compute. reflexivity.
    - vm_compute. discriminate.
    - vm_compute. discriminate.
    - exists v'. split; [exact Hrun|]. split; [exact Hrep|].
      split; [apply Hold; [reflexivity | vm_compute; discriminate]|].
      rewrite Hmap, Hgf. vm_compute. reflexivity. }
  split; [reflexivity|].
  destruct (vmwrite_io_bitmap (hdr := Arch.intel) 0xaaaaaaaa00000000
              (Faulting.loaded_m32_exit 0x21000 0x2000)
              (VMX_INST_MEMREG_TYPE_MEMORY 0x100048 4 VMX_REG_RAX)
              0xaaaaaaaa00021000 0x7000 0x12345 (Sample.vvmcs_page 0))
    as (v' & Hrun & _ & _ & Hgf & Hmap & _).
  - vm_compute. reflexivity.
  - left. reflexivity.
  - reflexivity.
  - vm_compute. reflexivity.
  - vm_compute. reflexivity.
  - vm_compute. discriminate.
  - vm_compute. discriminate.
  - exists v'. split; [exact Hrun|]. split; [vm_compute; reflexivity|].
    rewrite Hmap, Hgf. vm_compute. reflexivity.
Defined.

(** ** Tearing down *)

(** X28.  nvmx_vcpu_destroy always returns: it drops the current VVMCS
    and the I/O bitmaps as nvmx_purge_vvmcs does and NULLs the shadow
    VMCS pointer, without touching guest frames; vmxon_region_pa is left
    as it was.  Destroying again changes nothing. *)
Theorem vcpu_destroy_effect {hdr : Headers} (v : vcpu) :
  exists v',
    nvmx_vcpu_destroy v = Returns tt v'
    /\ nv_n2vmcx (nvcpu v') = None
    /\ nv_vvmcxaddr (nvcpu v') = VMCX_EADDR
    /\ iobitmap0 (nvmx v') = NULL /\ iobitmap1 (nvmx v') = NULL
    /\ mappings (env v') = purged_mappings v
    /\ guest_frames (env v') = guest_frames (env v)
    /\ vmxon_region_pa (nvmx v') = vmxon_region_pa (nvmx v)
    /\ nvmx_vcpu_destroy v' = Returns tt v'.
Proof.
  destruct (purge_spec v)
    as (v1 & Hrun & Hr & Hh & H1 & H2 & Hvv & Haddr & Hpend & Hpa & Hii & Hie
        & Hb0 & Hb1 & Hmap & Hnext & Hgf & Hgw & Hinj & Hcf & Hct).
  assert (Hagain : forall w,
            nv_n2vmcx (nvcpu w) = None ->
            nv_vvmcxaddr (nvcpu w) = VMCX_EADDR ->
            iobitmap0 (nvmx w) = NULL -> iobitmap1 (nvmx w) = NULL ->
            nvmx_vcpu_destroy w = Returns tt w).
  { intros w Hn Ha B0 B1. unfold nvmx_vcpu_destroy, bind.
    rewrite purge_noop by done. unfold get_vcpu. cbv beta iota.
    by rewrite Hn. }
  unfold nvmx_vcpu_destroy, bind. rewrite Hrun.
  unfold get_vcpu. cbv beta iota.
  destruct (nv_n2vmcx (nvcpu v1)) as [shadow|] eqn:E.
  - unfold __vmpclear, ret, modify. cbv beta iota.
    eexists. split; [reflexivity|].
    split; [reflexivity|]. split; [exact Haddr|].
    split; [exact Hb0|]. split; [exact Hb1|].
    split; [exact Hmap|]. split; [exact Hgf|]. split; [exact Hpa|].
    by apply Hagain.
  - exists v1. split; [reflexivity|].
    split; [exact E|]. split; [exact Haddr|].
    split; [exact Hb0|]. split; [exact Hb1|].
    split; [exact Hmap|]. split; [exact Hgf|]. split; [exact Hpa|].
    by apply Hagain.
Qed.
